(** * Invoice generator: extraction, aggregation, rendering and write-back

    A shallow embedding of [src/sheets_reader_enhanced.py],
    [src/sheets_reader.py], [src/invoice_generator.py] and
    [src/pdf_converter.py], and of the parts of [fix-nes01-5541.py],
    [fix-colors.py], [test-billed-update.py] and [check-recent-entries.py]
    that select and update rows; the properties of the specification that
    were checked against it, and further properties of the code.

    Conventions of the embedding.
    - A Python [str] is a [string]; the case and whitespace tables are those
      of Python on the code points below 128 (cell text is taken to be ASCII;
      bytes from 128 on are neither letters nor whitespace here).
    - A Python number is a [pynum]: an unbounded [int] or a binary64 [float]
      ([spec_float] with precision 53 and maximal exponent 1024).
    - A raised exception is a value of [exn] in the error monad [res].
    - Console output and remote calls are events of an explicit trace. *)

From Stdlib Require Import List String Ascii ZArith Lia Bool.
From Stdlib Require Import DecimalString.
From Stdlib Require Import Sorting.Sorted Sorting.Permutation.
From Stdlib Require Import Floats.SpecFloat.
Import ListNotations.

Local Open Scope string_scope.
Local Open Scope list_scope.

(* ================================================================= *)
(** * Definitions *)
(* ================================================================= *)

(** ** Python strings *)

Module PyStr.

(** [str.isspace] on one code point below 128:
    TAB, LF, VT, FF, CR, FS, GS, RS, US and the space. *)
Definition is_space (c : ascii) : bool :=
  let n := nat_of_ascii c in
  (Nat.leb 9 n && Nat.leb n 13) || (Nat.leb 28 n && Nat.leb n 32).

Definition is_upper (c : ascii) : bool :=
  let n := nat_of_ascii c in Nat.leb 65 n && Nat.leb n 90.

Definition is_lower (c : ascii) : bool :=
  let n := nat_of_ascii c in Nat.leb 97 n && Nat.leb n 122.

Definition lower_char (c : ascii) : ascii :=
  if is_upper c then ascii_of_nat (nat_of_ascii c + 32) else c.

Definition upper_char (c : ascii) : ascii :=
  if is_lower c then ascii_of_nat (nat_of_ascii c - 32) else c.

Fixpoint map_chars (f : ascii -> ascii) (s : string) : string :=
  match s with
  | EmptyString => EmptyString
  | String c r => String (f c) (map_chars f r)
  end.

(** [s.lower()] and [s.upper()]. *)
Definition lower (s : string) : string := map_chars lower_char s.
Definition upper (s : string) : string := map_chars upper_char s.

Fixpoint lstrip (s : string) : string :=
  match s with
  | EmptyString => EmptyString
  | String c r => if is_space c then lstrip r else s
  end.

Fixpoint rstrip (s : string) : string :=
  match s with
  | EmptyString => EmptyString
  | String c r =>
      match rstrip r with
      | EmptyString => if is_space c then EmptyString else String c EmptyString
      | r' => String c r'
      end
  end.

(** [s.strip()]: whitespace removed at both ends. *)
Definition strip (s : string) : string := rstrip (lstrip s).

(** Truth value of a string: [not s] holds of the empty string only. *)
Definition is_empty (s : string) : bool :=
  match s with EmptyString => true | _ => false end.

(** [x in l] on a list of strings. *)
Definition list_in (x : string) (l : list string) : bool :=
  existsb (String.eqb x) l.

(** [l.index(x)]: position of the first occurrence.  Python raises
    [ValueError] when [x] does not occur; the code only calls it under
    [x in l], and the embedding answers [length l] there. *)
Fixpoint list_index (x : string) (l : list string) : nat :=
  match l with
  | [] => 0
  | y :: r => if String.eqb x y then 0 else S (list_index x r)
  end.

(** [str(n)] for an [int]. *)
Definition str_of_Z (z : Z) : string := NilZero.string_of_int (Z.to_int z).

(** [needle in hay] on strings. *)
Fixpoint contains (needle hay : string) : bool :=
  if prefix needle hay then true
  else match hay with
       | EmptyString => false
       | String _ r => contains needle r
       end.

End PyStr.

Import PyStr.

(** ** Python numbers *)

Module PyNum.

Definition prec : Z := 53.
Definition emax : Z := 1024.

(** A Python [float]: an IEEE 754 binary64 value. *)
Definition float := spec_float.

Definition f_add : float -> float -> float := SFadd prec emax.
Definition f_mul : float -> float -> float := SFmul prec emax.
Definition f_leb : float -> float -> bool := SFleb.
Definition f_ltb : float -> float -> bool := SFltb.
Definition f_zero : float := S754_zero false.

(** A Python number as the code meets it: [int] (from the built-in sample
    data and from JSON) or [float] (from [float(hours_str)] and from JSON). *)
Inductive pynum : Type :=
| PyInt (z : Z)
| PyFloat (f : float).

(** [float(n)] for an [int]: rounded to nearest even; [None] is Python's
    [OverflowError] (int too large to convert to float). *)
Definition float_of_Z (z : Z) : option float :=
  match binary_normalize prec emax z 0 false with
  | S754_infinity _ => None
  | f => Some f
  end.

Definition as_float (a : pynum) : option float :=
  match a with
  | PyInt z => float_of_Z z
  | PyFloat f => Some f
  end.

Definition lift2 (op : float -> float -> float) (a b : pynum) : option pynum :=
  match as_float a, as_float b with
  | Some f, Some g => Some (PyFloat (op f g))
  | _, _ => None
  end.

(** [a + b] and [a * b]; [None] is [OverflowError]. *)
Definition py_add (a b : pynum) : option pynum :=
  match a, b with
  | PyInt x, PyInt y => Some (PyInt (x + y))
  | _, _ => lift2 f_add a b
  end.

Definition py_mul (a b : pynum) : option pynum :=
  match a, b with
  | PyInt x, PyInt y => Some (PyInt (x * y))
  | _, _ => lift2 f_mul a b
  end.

(** *** [float(s)] on a string *)

Definition is_digit (c : ascii) : bool :=
  let n := nat_of_ascii c in Nat.leb 48 n && Nat.leb n 57.

Definition digit_val (c : ascii) : Z := Z.of_nat (nat_of_ascii c - 48).

(** Underscores may only stand between two digits; they are dropped. *)
Fixpoint drop_underscores (prev : option ascii) (l : list ascii) : option (list ascii) :=
  match l with
  | [] => match prev with
          | Some "_"%char => None
          | _ => Some []
          end
  | c :: r =>
      let after_digit := match prev with Some p => is_digit p | None => false end in
      let after_us := match prev with Some "_"%char => true | _ => false end in
      if Ascii.eqb c "_"
      then if after_digit then drop_underscores (Some c) r else None
      else if after_us && negb (is_digit c) then None
           else option_map (cons c) (drop_underscores (Some c) r)
  end.

Definition read_sign (l : list ascii) : bool * list ascii :=
  match l with
  | "-"%char :: r => (true, r)
  | "+"%char :: r => (false, r)
  | _ => (false, l)
  end.

(** The leading run of digits: its value on top of [acc], the number of
    digits read, and what follows. *)
Fixpoint read_digits (l : list ascii) (acc : Z) (n : nat) : Z * nat * list ascii :=
  match l with
  | c :: r => if is_digit c then read_digits r (10 * acc + digit_val c) (S n)
              else (acc, n, l)
  | [] => (acc, n, [])
  end.

(** An optional exponent part that must reach the end of the text. *)
Definition read_exponent (l : list ascii) : option Z :=
  match l with
  | [] => Some 0%Z
  | c :: r =>
      if Ascii.eqb c "e" || Ascii.eqb c "E" then
        let (neg, r1) := read_sign r in
        match read_digits r1 0 0 with
        | (v, S _, []) => Some (if neg then (- v)%Z else v)
        | _ => None
        end
      else None
  end.

(** The nearest binary64 value to [(-1)^neg * m * 10^e], ties to even. *)
Definition float_of_decimal (neg : bool) (m e : Z) : float :=
  match m with
  | Zpos p =>
      if (0 <=? e)%Z
      then binary_round prec emax neg (Z.to_pos (Zpos p * 10 ^ e)) 0
      else let '(q, e', l) :=
             SFdiv_core_binary prec emax (Zpos p) 0 (10 ^ (- e)) 0 in
           binary_round_aux prec emax neg q e' l
  | _ => S754_zero neg
  end.

Definition parse_special (l : list ascii) : option float :=
  let (neg, r) := read_sign l in
  let word := lower (string_of_list_ascii r) in
  if String.eqb word "inf" || String.eqb word "infinity"
  then Some (S754_infinity neg)
  else if String.eqb word "nan" then Some S754_nan else None.

Definition parse_decimal (l : list ascii) : option float :=
  let (neg, l1) := read_sign l in
  let '(ip, ni, l2) := read_digits l1 0 0 in
  let '(m, nf, l3) :=
    match l2 with
    | "."%char :: r => read_digits r ip 0
    | _ => (ip, 0, l2)
    end in
  match ni + nf with
  | 0 => None
  | S _ =>
      match read_exponent l3 with
      | Some e => Some (float_of_decimal neg m (e - Z.of_nat nf))
      | None => None
      end
  end.

(** [float(s)]; [None] is [ValueError]. *)
Definition py_float (s : string) : option float :=
  match drop_underscores None (list_ascii_of_string (strip s)) with
  | None => None
  | Some l =>
      match parse_special l with
      | Some f => Some f
      | None => parse_decimal l
      end
  end.


(** *** [format(x, ",.0f")] *)

(** The integer nearest to [m * 2^e], ties to even. *)
Definition round_half_even (m : positive) (e : Z) : Z :=
  match e with
  | Zneg k =>
      let d := Z.pow_pos 2 k in
      let q := (Zpos m / d)%Z in
      let r := (Zpos m mod d)%Z in
      match (2 * r ?= d)%Z with
      | Lt => q
      | Gt => (q + 1)%Z
      | Eq => if Z.even q then q else (q + 1)%Z
      end
  | _ => (Zpos m * 2 ^ e)%Z
  end.

(** Commas between groups of three digits, counted from the right;
    [l] is the digit string reversed and [k] the size of the open group. *)
Fixpoint group_rev (l : list ascii) (k : nat) : list ascii :=
  match l with
  | [] => []
  | c :: r =>
      match k with
      | 3 => ","%char :: c :: group_rev r 1
      | _ => c :: group_rev r (S k)
      end
  end.

Definition group3 (digits : string) : string :=
  string_of_list_ascii (rev (group_rev (rev (list_ascii_of_string digits)) 0)).

Definition format_float_comma_0f (f : float) : string :=
  match f with
  | S754_nan => "nan"
  | S754_infinity s => if s then "-inf" else "inf"
  | S754_zero s => if s then "-0" else "0"
  | S754_finite s m e =>
      (if s then "-" else EmptyString) ++ group3 (str_of_Z (round_half_even m e))
  end.

(** [format(x, ",.0f")], the [{x:,.0f}] of an f-string: an [int] is
    converted to [float] first ([None] is [OverflowError]). *)
Definition format_comma_0f (x : pynum) : option string :=
  option_map format_float_comma_0f (as_float x).

(** *** [repr] of a float: the shortest digits that read back *)

Definition ndigits10 (z : Z) : Z := Z.of_nat (String.length (str_of_Z z)).

(** [floor (log10 (n / d))] for positive [n] and [d]. *)
Definition floor_log10 (n d : Z) : Z :=
  if (d <=? n)%Z then (ndigits10 (n / d) - 1)%Z
  else let t0 := (ndigits10 d - ndigits10 n)%Z in
       if (d <=? n * 10 ^ t0)%Z then (- t0)%Z else (- (t0 + 1))%Z.

(** The decimal [c * 10^q] with [ndig] digits that reads back as the
    finite positive float [m * 2^e], if there is one; of two, the nearer. *)
Definition short_candidate (m : positive) (e : Z) (ndig : Z) : option (Z * Z) :=
  let n := (Zpos m * 2 ^ Z.max e 0)%Z in
  let d := (2 ^ Z.max (- e) 0)%Z in
  let q := (floor_log10 n d - ndig + 1)%Z in
  let num := (n * 10 ^ Z.max (- q) 0)%Z in
  let den := (d * 10 ^ Z.max q 0)%Z in
  let lo := (num / den)%Z in
  let r := (num mod den)%Z in
  let hi := (lo + 1)%Z in
  let x := S754_finite false m e in
  let back c := match float_of_decimal false c q with
                | S754_finite false m' e' => Pos.eqb m m' && Z.eqb e e'
                | _ => false
                end in
  let lo_first := match (2 * r ?= den)%Z with
                  | Lt => true
                  | Gt => false
                  | Eq => Z.even lo
                  end in
  if (r =? 0)%Z then (if back lo then Some (lo, q) else None)
  else match back lo, back hi with
       | true, true => Some (if lo_first then lo else hi, q)
       | true, false => Some (lo, q)
       | false, true => Some (hi, q)
       | false, false => None
       end.

Fixpoint shortest_from (m : positive) (e : Z) (ndig : Z) (fuel : nat) : Z * Z :=
  match fuel with
  | O => (Zpos m, e)
  | S k =>
      match short_candidate m e ndig with
      | Some cq => cq
      | None => shortest_from m e (ndig + 1) k
      end
  end.

Fixpoint strip_zeros (c q : Z) (fuel : nat) : Z * Z :=
  match fuel with
  | O => (c, q)
  | S k => if ((c mod 10 =? 0) && negb (c =? 0))%Z
           then strip_zeros (c / 10) (q + 1) k else (c, q)
  end.

Fixpoint zeros (n : nat) : string :=
  match n with O => EmptyString | S k => String "0" (zeros k) end.

Definition two_digits (z : Z) : string :=
  (if (z <? 10)%Z then "0" else EmptyString) ++ str_of_Z z.

(** Layout of [repr]: fixed notation while the decimal point lies within
    (-4, 16], exponent notation outside. *)
Definition repr_layout (ds : string) (decpt : Z) : string :=
  let nd := Z.of_nat (String.length ds) in
  if ((-4 <? decpt) && (decpt <=? 16))%Z then
    if (decpt <=? 0)%Z then "0." ++ zeros (Z.to_nat (- decpt)) ++ ds
    else if (nd <=? decpt)%Z then ds ++ zeros (Z.to_nat (decpt - nd)) ++ ".0"
    else substring 0 (Z.to_nat decpt) ds ++ "."
         ++ substring (Z.to_nat decpt) (Z.to_nat (nd - decpt)) ds
  else
    let ex := (decpt - 1)%Z in
    substring 0 1 ds
    ++ (if (1 <? nd)%Z then "." ++ substring 1 (Z.to_nat (nd - 1)) ds else EmptyString)
    ++ "e" ++ (if (ex <? 0)%Z then "-" else "+") ++ two_digits (Z.abs ex).

Definition float_repr (f : float) : string :=
  match f with
  | S754_nan => "nan"
  | S754_infinity s => if s then "-inf" else "inf"
  | S754_zero s => if s then "-0.0" else "0.0"
  | S754_finite s m e =>
      let '(c0, q0) := shortest_from m e 1 17 in
      let '(c, q) := strip_zeros c0 q0 400 in
      let ds := str_of_Z c in
      (if s then "-" else EmptyString) ++ repr_layout ds (Z.of_nat (String.length ds) + q)
  end.

(** [str(x)], the plain [{x}] of an f-string. *)
Definition py_str (x : pynum) : string :=
  match x with
  | PyInt z => str_of_Z z
  | PyFloat f => float_repr f
  end.

End PyNum.

Import PyNum.

(** ** The column resolver *)

Module ColumnResolver.

(** The [for name in possible_names] loop of [_find_column_index], over the
    already normalised headers; [len_headers] is the fall-through answer. *)
Fixpoint find_loop (headers_lower : list string) (possible_names : list string)
         (len_headers : nat) : nat :=
  match possible_names with
  | [] => len_headers
  | name :: rest =>
      let name_lower := strip (lower name) in
      if list_in name_lower headers_lower
      then list_index name_lower headers_lower
      else find_loop headers_lower rest len_headers
  end.

(** [SheetsReaderEnhanced._find_column_index]. *)
Definition _find_column_index (headers possible_names : list string) : nat :=
  let headers_lower := map (fun h => strip (lower h)) headers in
  find_loop headers_lower possible_names (List.length headers).

End ColumnResolver.

Import ColumnResolver.

(** ** Exceptions, console output and the trace monad *)

Module Effects.

(** The exceptions that can arise inside the modelled code. *)
Inductive exn : Type :=
| IndexError
| ValueError
| OverflowError.

Inductive res (A : Type) : Type :=
| Ok (a : A)
| Raise (e : exn).

Arguments Ok {A} a.
Arguments Raise {A} e.

(** What [get_wip_entries] does besides computing: every subscript
    [row[col]] it evaluates (with the length of the row at that moment)
    and every line it prints. *)
Inductive event : Type :=
| Subscript (row_len col : nat)
| PrintInvalidHours (hours_str : string) (row_idx : Z)
| PrintRowError (row_idx : Z) (e : exn)
| PrintFound (n : nat).

(** A computation: the events so far, and a value or a raised exception. *)
Definition M (A : Type) : Type := (list event * res A)%type.

Definition ret {A} (a : A) : M A := ([], Ok a).

Definition bind {A B} (m : M A) (k : A -> M B) : M B :=
  match m with
  | (log, Ok a) => let (log', r) := k a in (log ++ log', r)
  | (log, Raise e) => (log, Raise e)
  end.

Definition tell (ev : event) : M unit := ([ev], Ok tt).

Definition raise {A} (e : exn) : M A := ([], Raise e).

End Effects.

Import Effects.

Notation "x <- m ;; k" := (bind m (fun x => k))
  (at level 61, m at next level, right associativity).

(** ** The entry extractor *)

Module Extractor.

(** One work entry: the dict built by [get_wip_entries], or one of the
    literal dicts of [SheetsReader.get_wip_entries], which carry neither
    ["category"] nor ["row_number"]. *)
Record WorkEntry : Type := {
  date : string;
  hours : pynum;
  category : option string;
  description : string;
  persons : string;
  invoice : string;
  row_number : option Z
}.

(** The seven resolved column indices. *)
Record ColumnMap : Type := {
  date_col : nat;
  hours_col : nat;
  category_col : nat;
  task_col : nat;
  persons_col : nat;
  invoice_col : nat;
  paid_col : nat
}.

Definition resolve_columns (headers : list string) : ColumnMap :=
  {| date_col := _find_column_index headers ["date"];
     hours_col := _find_column_index headers ["hours"];
     category_col := _find_column_index headers ["category"];
     task_col := _find_column_index headers ["task"; "work"; "task/work"];
     persons_col := _find_column_index headers ["persons"];
     invoice_col := _find_column_index headers ["invoice"];
     paid_col := _find_column_index headers ["paid"; "status"] |}.

(** [max(date_col, hours_col, ..., paid_col)]. *)
Definition max_col (cols : ColumnMap) : nat :=
  list_max [date_col cols; hours_col cols; category_col cols; task_col cols;
            persons_col cols; invoice_col cols; paid_col cols].

(** [row[col]]: the subscript is recorded; out of range it raises. *)
Definition subscript (row : list string) (col : nat) : M string :=
  _ <- tell (Subscript (List.length row) col) ;;
  match nth_error row col with
  | Some s => ret s
  | None => raise IndexError
  end.

(** [row[col].strip() if col < len(row) else default]. *)
Definition cell_or (row : list string) (col : nat) (default : string) : M string :=
  if Nat.ltb col (List.length row)
  then s <- subscript row col ;; ret (strip s)
  else ret default.

Inductive row_outcome : Type :=
| Skip
| Emit (e : WorkEntry).

Section WithFloatParser.

(** The built-in [float] applied to a string; [None] is [ValueError]. *)
Variable float_of_str : string -> option float.

(** The body of the [try] of one WIP row (lines 114-143). *)
Definition try_body (cols : ColumnMap) (row_idx : Z) (row : list string)
  : M row_outcome :=
  date <- cell_or row (date_col cols) EmptyString ;;
  hours_str <- cell_or row (hours_col cols) "0" ;;
  category <- cell_or row (category_col cols) "Enhancement" ;;
  description <- cell_or row (task_col cols) EmptyString ;;
  persons <- cell_or row (persons_col cols) EmptyString ;;
  invoice <- cell_or row (invoice_col cols) EmptyString ;;
  match float_of_str hours_str with
  | None =>
      _ <- tell (PrintInvalidHours hours_str row_idx) ;;
      ret Skip
  | Some hours =>
      if f_leb hours f_zero || is_empty date || is_empty description
      then ret Skip
      else ret (Emit {| date := date;
                        hours := PyFloat hours;
                        category := Some category;
                        description := description;
                        persons := persons;
                        invoice := invoice;
                        row_number := Some row_idx |})
  end.

(** [except Exception as e]: print a warning and go on with the next row. *)
Definition except_exception (row_idx : Z) (m : M row_outcome) : M row_outcome :=
  match m with
  | (log, Raise e) => (log ++ [PrintRowError row_idx e], Ok Skip)
  | (log, Ok o) => (log, Ok o)
  end.

(** One iteration of the [for] loop (lines 106-147). *)
Definition process_row (cols : ColumnMap) (row_idx : Z) (row : list string)
  : M row_outcome :=
  if Nat.leb (List.length row) (max_col cols) then ret Skip
  else
    paid_status <-
      (if Nat.ltb (paid_col cols) (List.length row)
       then s <- subscript row (paid_col cols) ;; ret (upper (strip s))
       else ret EmptyString) ;;
    if String.eqb paid_status "WIP"
    then except_exception row_idx (try_body cols row_idx row)
    else ret Skip.

(** The loop over [enumerate(all_values[1:], start=2)]. *)
Fixpoint rows_loop (cols : ColumnMap) (row_idx : Z) (rows : list (list string))
         (wip_entries : list WorkEntry) : M (list WorkEntry) :=
  match rows with
  | [] => ret wip_entries
  | row :: rest =>
      o <- process_row cols row_idx row ;;
      rows_loop cols (row_idx + 1) rest
                (match o with
                 | Emit e => wip_entries ++ [e]
                 | Skip => wip_entries
                 end)
  end.

(** What the two remote reads of lines 82-85 answer. *)
Inductive fetched : Type :=
| WorksheetNotFound
| FetchFailed (cause : string)
| Values (all_values : list (list string)).

(** The [Exception] that leaves [get_wip_entries]. *)
Inductive extract_error : Type :=
| ErrWorksheetNotFound (worksheet_name : string)
| ErrReading (cause : string)
| ErrReadingExn (e : exn).

(** [SheetsReaderEnhanced.get_wip_entries]. *)
Definition get_wip_entries (worksheet_name : string) (sheet : fetched)
  : list event * (list WorkEntry + extract_error) :=
  match sheet with
  | WorksheetNotFound => ([], inr (ErrWorksheetNotFound worksheet_name))
  | FetchFailed cause => ([], inr (ErrReading cause))
  | Values [] => ([], inl [])
  | Values (headers :: data) =>
      match rows_loop (resolve_columns headers) 2 data [] with
      | (log, Ok wip_entries) =>
          (log ++ [PrintFound (List.length wip_entries)], inl wip_entries)
      | (log, Raise e) => (log, inr (ErrReadingExn e))
      end
  end.

End WithFloatParser.

End Extractor.

Import Extractor.

(** ** The invoice aggregator *)

Module InvoiceGenerator.

(** [config["client"]] and [config["company"]], as [generate_html] reads them. *)
Record Client : Type := {
  client_name : string;
  client_address : string;
  city_state_zip : string;
  customer_id : string
}.

Record Company : Type := {
  company_name : string;
  company_address : string;
  zelle : string
}.

(** The part of [config.json] that [generate_invoice] reads. *)
Record Config : Type := {
  cfg_hourly_rate : pynum;     (* config["invoice"]["hourly_rate"] *)
  cfg_discount : pynum;        (* config["invoice"]["discount"] *)
  cfg_terms : string;          (* config["invoice"]["terms"] *)
  cfg_client : Client;
  cfg_sales_rep : string;
  cfg_company : Company
}.

Record Summary : Type := {
  total_hours : pynum;
  hourly_rate : pynum;
  original_rate : pynum;
  discount_per_hour : pynum;
  subtotal : pynum;
  balance_due : pynum
}.

Record Invoice : Type := {
  invoice_number : string;
  invoice_date : string;
  bill_to : Client;
  sales_rep : string;
  terms : string;
  work_entries : list WorkEntry;
  summary : Summary;
  payment_info : Company
}.

(** [sum(xs)]: from the [int] 0, adding from left to right; [None] is
    [OverflowError].  (CPython from 3.12 on carries a compensation term
    through runs of floats; on lists of ints, and on the float lists
    evaluated below, both give the same result.) *)
Fixpoint sum_from (acc : pynum) (xs : list pynum) : option pynum :=
  match xs with
  | [] => Some acc
  | x :: r =>
      match py_add acc x with
      | Some acc' => sum_from acc' r
      | None => None
      end
  end.

Definition py_sum (xs : list pynum) : option pynum := sum_from (PyInt 0) xs.

(** [max(xs)] on strings: the first of the greatest elements, in the order
    of the code points; [None] is the [ValueError] of an empty argument. *)
Fixpoint max_from (best : string) (xs : list string) : string :=
  match xs with
  | [] => best
  | x :: r => max_from (if String.ltb best x then x else best) r
  end.

Definition py_max (xs : list string) : option string :=
  match xs with
  | [] => None
  | x :: r => Some (max_from x r)
  end.

(** Lines 33-38: the totals. *)
Definition compute_summary (cfg : Config) (wip_entries : list WorkEntry)
  : option Summary :=
  match py_sum (map hours wip_entries) with
  | None => None
  | Some total =>
      let rate := cfg_hourly_rate cfg in
      let disc := cfg_discount cfg in
      match py_add rate disc, py_mul total rate with
      | Some orig, Some sub =>
          Some {| total_hours := total;
                  hourly_rate := rate;
                  original_rate := orig;
                  discount_per_hour := disc;
                  subtotal := sub;
                  balance_due := sub |}
      | _, _ => None
      end
  end.

(** [InvoiceGenerator.generate_invoice]. *)
Definition generate_invoice (cfg : Config) (wip_entries : list WorkEntry)
           (number : string) : res Invoice :=
  match compute_summary cfg wip_entries with
  | None => Raise OverflowError
  | Some s =>
      match py_max (map date wip_entries) with
      | None => Raise ValueError
      | Some d =>
          Ok {| invoice_number := number;
                invoice_date := d;
                bill_to := cfg_client cfg;
                sales_rep := cfg_sales_rep cfg;
                terms := cfg_terms cfg;
                work_entries := wip_entries;
                summary := s;
                payment_info := cfg_company cfg |}
      end
  end.

End InvoiceGenerator.

Import InvoiceGenerator.

(** ** The built-in sample data of [sheets_reader.py] *)

Module SheetsReader.

Definition sample_entry (d : string) (h : Z) (descr : string) : WorkEntry :=
  {| date := d; hours := PyInt h; category := None; description := descr;
     persons := "BK/DH"; invoice := "NES01-5541"; row_number := None |}.

Definition review : string :=
  "AAE-101 UAT bug tracker list review, development and bug fixes".

(** [SheetsReader.get_wip_entries]. *)
Definition get_wip_entries_builtin : list WorkEntry :=
  [ sample_entry "6/4/25" 17 review;
    sample_entry "6/5/25" 15 review;
    sample_entry "6/6/25" 16
      "AAE-101 UAT bug tracker + ERV2 prod issues, bandaid fixes for stage-qa";
    sample_entry "6/7/25" 9 review;
    sample_entry "6/8/25" 10 review;
    sample_entry "6/9/25" 17 review;
    sample_entry "6/10/25" 18 review ].

End SheetsReader.

Import SheetsReader.

(** ** The document renderer *)

Module Renderer.

Definition nl : string := String (ascii_of_nat 10) EmptyString.
Definition dq : string := String (ascii_of_nat 34) EmptyString.

(** The lines of a literal, joined by newlines. *)
Definition unlines (ls : list string) : string := String.concat nl ls.

(** Lines 76-147: the document head and its style sheet. *)
Definition html_style (inv : Invoice) : list string :=
  [
    "<!DOCTYPE html>";
    "<html>";
    "<head>";
    ("    <meta charset=" ++ dq ++ "UTF-8" ++ dq ++ ">")%string;
    ("    <title>Invoice " ++ invoice_number inv ++ "</title>")%string;
    "    <style>";
    "        body {";
    "            font-family: Arial, sans-serif;";
    "            margin: 20px;";
    "            color: #333;";
    "            line-height: 1.4;";
    "        }";
    "        .header {";
    "            display: flex;";
    "            justify-content: space-between;";
    "            align-items: flex-start;";
    "            margin-bottom: 30px;";
    "        }";
    "        .logo {";
    "            max-width: 300px;";
    "            height: auto;";
    "        }";
    "        .invoice-title {";
    "            font-size: 48px;";
    "            font-weight: bold;";
    "            color: #666;";
    "            text-align: right;";
    "        }";
    "        .invoice-info {";
    "            margin-bottom: 20px;";
    "        }";
    "        .invoice-info div {";
    "            margin-bottom: 8px;";
    "        }";
    "        table {";
    "            width: 100%;";
    "            border-collapse: collapse;";
    "            margin-bottom: 20px;";
    "        }";
    "        th, td {";
    "            border: 1px solid #ccc;";
    "            padding: 8px;";
    "            text-align: left;";
    "        }";
    "        th {";
    "            background-color: #f0f0f0;";
    "            font-weight: bold;";
    "        }";
    "        .amount {";
    "            text-align: right;";
    "        }";
    "        .payment-info {";
    "            margin: 20px 0;";
    "            line-height: 1.6;";
    "        }";
    "        .totals-table {";
    "            width: 300px;";
    "            float: right;";
    "            margin-top: 20px;";
    "        }";
    "        .time-details {";
    "            clear: both;";
    "            margin-top: 40px;";
    "        }";
    "        .time-details h2 {";
    "            font-size: 24px;";
    "            margin-bottom: 15px;";
    "            color: #333;";
    "        }";
    "    </style>";
    "</head>";
    "<body>"
  ].

(** Lines 148-183: logo, bill-to block and the invoice table. *)
Definition html_header (logo_base64 : string) (inv : Invoice) : list string :=
  [
    ("    <div class=" ++ dq ++ "header" ++ dq ++ ">")%string;
    ("        <img src=" ++ dq ++ "data:image/png;base64," ++ logo_base64 ++ dq ++ " alt=" ++ dq ++ "W3EVOLUTIONS" ++ dq ++ " class=" ++ dq ++ "logo" ++ dq ++ ">")%string;
    ("        <div class=" ++ dq ++ "invoice-title" ++ dq ++ ">INVOICE</div>")%string;
    "    </div>";
    EmptyString;
    ("    <div class=" ++ dq ++ "invoice-info" ++ dq ++ ">")%string;
    ("        <div><strong>Invoice No.:</strong> " ++ invoice_number inv ++ "</div>")%string;
    ("        <div><strong>Bill To:</strong> " ++ client_name (bill_to inv) ++ "</div>")%string;
    ("        <div>" ++ client_address (bill_to inv) ++ "</div>")%string;
    ("        <div>" ++ city_state_zip (bill_to inv) ++ "</div>")%string;
    ("        <div><strong>Customer ID:</strong> " ++ customer_id (bill_to inv) ++ "</div>")%string;
    "    </div>";
    EmptyString;
    "    <table>";
    "        <thead>";
    "            <tr>";
    "                <th>Date</th>";
    "                <th>Invoice No.</th>";
    "                <th>Sales Rep.</th>";
    "                <th>Ship Via</th>";
    "                <th>Terms</th>";
    "                <th>Date Due</th>";
    "            </tr>";
    "        </thead>";
    "        <tbody>";
    "            <tr>";
    ("                <td>" ++ invoice_date inv ++ "</td>")%string;
    ("                <td>" ++ invoice_number inv ++ "</td>")%string;
    ("                <td>" ++ sales_rep inv ++ "</td>")%string;
    "                <td>Email</td>";
    ("                <td>" ++ terms inv ++ "</td>")%string;
    "                <td>-</td>";
    "            </tr>";
    "        </tbody>";
    "    </table>";
    EmptyString
  ].

(** Lines 184-217: the charge-summary table. *)
Definition html_charges (inv : Invoice) (balance_due_0f : string) : list string :=
  [
    "    <table>";
    "        <thead>";
    "            <tr>";
    "                <th>Quantity</th>";
    "                <th>Item</th>";
    "                <th>Description</th>";
    "                <th>Discount</th>";
    "                <th>Taxable</th>";
    "                <th>Unit Price</th>";
    "                <th>Total</th>";
    "            </tr>";
    "        </thead>";
    "        <tbody>";
    "            <tr>";
    ("                <td>" ++ py_str (total_hours (summary inv)) ++ "</td>")%string;
    "                <td>Enhancement</td>";
    "                <td>See attached</td>";
    ("                <td>$" ++ py_str (discount_per_hour (summary inv)) ++ " / hr off<br>$" ++ py_str (original_rate (summary inv)) ++ " / hr</td>")%string;
    "                <td>No</td>";
    ("                <td>$" ++ py_str (hourly_rate (summary inv)) ++ "</td>")%string;
    ("                <td>$" ++ balance_due_0f ++ "</td>")%string;
    "            </tr>";
    "            <tr>";
    "                <td>-</td>";
    "                <td>New Development</td>";
    "                <td>See attached</td>";
    ("                <td>$" ++ py_str (discount_per_hour (summary inv)) ++ " / hr off<br>$" ++ py_str (original_rate (summary inv)) ++ " / hr</td>")%string;
    "                <td>No</td>";
    ("                <td>$" ++ py_str (hourly_rate (summary inv)) ++ "</td>")%string;
    "                <td>-</td>";
    "            </tr>";
    "        </tbody>";
    "    </table>";
    EmptyString
  ].

(** Lines 218-223: payment instructions. *)
Definition html_payment (inv : Invoice) : list string :=
  [
    ("    <div class=" ++ dq ++ "payment-info" ++ dq ++ ">")%string;
    ("        <strong>Please make all checks payable to:</strong> " ++ company_name (payment_info inv) ++ "<br>")%string;
    ("        <strong>Please send checks to:</strong> " ++ company_address (payment_info inv) ++ "<br>")%string;
    ("        <strong>Zelle:</strong> " ++ zelle (payment_info inv))%string;
    "    </div>";
    EmptyString
  ].

(** Lines 224-240: the totals block. *)
Definition html_totals (subtotal_0f balance_due_0f : string) : list string :=
  [
    ("    <table class=" ++ dq ++ "totals-table" ++ dq ++ ">")%string;
    "        <tbody>";
    "            <tr>";
    "                <td><strong>Subtotal:</strong></td>";
    ("                <td class=" ++ dq ++ "amount" ++ dq ++ ">$" ++ subtotal_0f ++ "</td>")%string;
    "            </tr>";
    "            <tr>";
    "                <td><strong>Tax:</strong></td>";
    ("                <td class=" ++ dq ++ "amount" ++ dq ++ ">0.00</td>")%string;
    "            </tr>";
    "            <tr>";
    "                <td><strong>Balance Due:</strong></td>";
    ("                <td class=" ++ dq ++ "amount" ++ dq ++ ">$" ++ balance_due_0f ++ "</td>")%string;
    "            </tr>";
    "        </tbody>";
    "    </table>";
    EmptyString
  ].

(** Lines 241-253: the opening of the time-entry table. *)
Definition html_details_open : list string :=
  [
    ("    <div class=" ++ dq ++ "time-details" ++ dq ++ ">")%string;
    "        <h2>Time Entry Details</h2>";
    "        <table>";
    "            <thead>";
    "                <tr>";
    "                    <th>Date</th>";
    "                    <th>Hours</th>";
    "                    <th>Category</th>";
    "                    <th>Task/Work</th>";
    "                    <th>Persons</th>";
    "                </tr>";
    "            </thead>";
    "            <tbody>"
  ].

(** Lines 258-264: one row of the time-entry table. *)
Definition html_entry_row (entry : WorkEntry) : list string :=
  [
    "                <tr>";
    ("                    <td>" ++ date entry ++ "</td>")%string;
    ("                    <td>" ++ py_str (hours entry) ++ "</td>")%string;
    "                    <td>Enhancement</td>";
    ("                    <td>" ++ description entry ++ "</td>")%string;
    ("                    <td>" ++ persons entry ++ "</td>")%string;
    "                </tr>"
  ].

(** Lines 267-271: the closing tags. *)
Definition html_close : list string :=
  [
    "            </tbody>";
    "        </table>";
    "    </div>";
    "</body>";
    "</html>"
  ].

(** The f-string of lines 76-253, given the two formatted amounts. *)
Definition html_head (logo_base64 : string) (inv : Invoice)
           (subtotal_0f balance_due_0f : string) : string :=
  unlines (html_style inv ++ html_header logo_base64 inv
           ++ html_charges inv balance_due_0f ++ html_payment inv
           ++ html_totals subtotal_0f balance_due_0f ++ html_details_open).

(** [InvoiceGenerator.generate_html]; [None] is the [OverflowError] of
    [{x:,.0f}] on an int too large for a float. *)
Definition generate_html (logo_base64 : string) (inv : Invoice) : option string :=
  match format_comma_0f (subtotal (summary inv)),
        format_comma_0f (balance_due (summary inv)) with
  | Some subtotal_0f, Some balance_due_0f =>
      let html_content := html_head logo_base64 inv subtotal_0f balance_due_0f in
      let html_content :=
        fold_left (fun acc entry => (acc ++ nl ++ unlines (html_entry_row entry))%string)
                  (work_entries inv) html_content in
      Some (html_content ++ nl ++ unlines html_close)%string
  | _, _ => None
  end.

End Renderer.

Import Renderer.

(** ** The status updater *)

Module StatusUpdater.

(** One element of [value_updates]: [{'range': ..., 'values': ...}]. *)
Record ValueUpdate : Type := {
  range : string;
  values : list (list string)
}.

(** One element of [format_requests]: a [repeatCell] request. *)
Record FormatRequest : Type := {
  sheetId : Z;
  startRowIndex : Z;
  endRowIndex : Z;
  startColumnIndex : Z;
  endColumnIndex : Z;
  backgroundColor : list (string * pynum);
  fields : string
}.

(** What the updater does to the outside, in order: remote calls (the two
    reads, the two batched writes, the construction of the API service)
    and printed lines. *)
Inductive action : Type :=
| GetWorksheet (worksheet_name : string)
| RowValues (row : Z)
| BatchUpdate (value_updates : list ValueUpdate)
| BuildService
| SpreadsheetsBatchUpdate (requests : list FormatRequest)
| PrintNoStatusColumn
| PrintUpdated (n : nat)
| PrintHighlighted (n : nat)
| PrintError.

(** The two remote mutations among the actions. *)
Definition is_mutation (a : action) : bool :=
  match a with
  | BatchUpdate _ | SpreadsheetsBatchUpdate _ => true
  | _ => false
  end.

(** How the remote side answers during one run: whether the worksheet
    exists, the header row if it can be read, and whether each later call
    succeeds. *)
Record Remote : Type := {
  worksheet_found : bool;
  header_row : option (list string);
  batch_update_ok : bool;
  build_service_ok : bool;
  format_update_ok : bool
}.

(** [chr(n)], for the code points that fit one character of [string]. *)
Definition chr (n : nat) : string := String (ascii_of_nat n) EmptyString.

(** The literal [0.6]. *)
Definition green_level : float := Eval vm_compute in float_of_decimal false 6 (-1).

Definition orange_color : list (string * pynum) :=
  [("red", PyInt 1); ("green", PyFloat green_level)].

Definition value_update (status_col_index : nat) (row_number : Z) : ValueUpdate :=
  {| range := (chr (64 + status_col_index) ++ str_of_Z row_number)%string;
     values := [["Billed"]] |}.

Definition format_request (row_number : Z) : FormatRequest :=
  {| sheetId := 0;
     startRowIndex := row_number - 1;
     endRowIndex := row_number;
     startColumnIndex := 0;
     endColumnIndex := 7;
     backgroundColor := orange_color;
     fields := "userEnteredFormat.backgroundColor" |}.

(** The loop of lines 222-250 over the entries. *)
Fixpoint build_requests (status_col_index : nat) (wip_entries : list WorkEntry)
         (value_updates : list ValueUpdate) (format_requests : list FormatRequest)
  : list ValueUpdate * list FormatRequest :=
  match wip_entries with
  | [] => (value_updates, format_requests)
  | entry :: rest =>
      match row_number entry with
      | Some n =>
          if (n =? 0)%Z
          then build_requests status_col_index rest value_updates format_requests
          else build_requests status_col_index rest
                 (value_updates ++ [value_update status_col_index n])
                 (format_requests ++ [format_request n])
      | None => build_requests status_col_index rest value_updates format_requests
      end
  end.

(** Lines 252-283, once the requests are built. *)
Definition send_updates (remote : Remote) (value_updates : list ValueUpdate)
           (format_requests : list FormatRequest) : list action * bool :=
  match value_updates with
  | [] => ([], false)
  | _ :: _ =>
      if negb (batch_update_ok remote)
      then ([BatchUpdate value_updates; PrintError], false)
      else
        let done := [BatchUpdate value_updates;
                     PrintUpdated (List.length value_updates)] in
        match format_requests with
        | [] => (done, true)
        | _ :: _ =>
            if negb (build_service_ok remote)
            then (done ++ [BuildService; PrintError], false)
            else if negb (format_update_ok remote)
            then (done ++ [BuildService; SpreadsheetsBatchUpdate format_requests;
                           PrintError], false)
            else (done ++ [BuildService; SpreadsheetsBatchUpdate format_requests;
                           PrintHighlighted (List.length format_requests)], true)
        end
  end.

(** [SheetsReaderEnhanced.update_wip_to_billed_with_formatting]. *)
Definition update_wip_to_billed_with_formatting
           (remote : Remote) (wip_entries : list WorkEntry) (worksheet_name : string)
  : list action * bool :=
  if negb (worksheet_found remote)
  then ([GetWorksheet worksheet_name; PrintError], false)
  else
    match header_row remote with
    | None => ([GetWorksheet worksheet_name; RowValues 1; PrintError], false)
    | Some headers =>
        let reads := [GetWorksheet worksheet_name; RowValues 1] in
        let status_col_index := _find_column_index headers ["paid"; "status"] + 1 in
        if Nat.ltb (List.length headers) status_col_index
        then (reads ++ [PrintNoStatusColumn], false)
        else
          let (value_updates, format_requests) :=
            build_requests status_col_index wip_entries [] [] in
          let (acts, ok) := send_updates remote value_updates format_requests in
          (reads ++ acts, ok)
    end.

End StatusUpdater.

Import StatusUpdater.

(** ** The invoice number *)

Module InvoiceNumber.

(** The fallback of both readers. *)
Definition default_invoice_number : string := "NES01-5541".

(** The dict [invoice_counts]: its items in insertion order. *)
Definition counts : Type := list (string * nat).

(** [invoice_counts.get(k, 0)]. *)
Fixpoint counts_get (d : counts) (k : string) : nat :=
  match d with
  | [] => 0
  | (k', v) :: r => if String.eqb k k' then v else counts_get r k
  end.

(** [invoice_counts[k] = v]: a key already present keeps its place, a new
    key goes to the end. *)
Fixpoint counts_set (d : counts) (k : string) (v : nat) : counts :=
  match d with
  | [] => [(k, v)]
  | (k', v') :: r =>
      if String.eqb k k' then (k', v) :: r else (k', v') :: counts_set r k v
  end.

(** The loop of lines 179-182. *)
Fixpoint count_invoices (wip_entries : list WorkEntry) (invoice_counts : counts)
  : counts :=
  match wip_entries with
  | [] => invoice_counts
  | entry :: rest =>
      let invoice := strip (invoice entry) in
      count_invoices rest
        (if is_empty invoice then invoice_counts
         else counts_set invoice_counts invoice
                (counts_get invoice_counts invoice + 1))
  end.

(** [max(items, key=lambda x: x[1])]: the first item of the greatest count. *)
Fixpoint max_item (best : string * nat) (items : counts) : string * nat :=
  match items with
  | [] => best
  | it :: r => max_item (if Nat.ltb (snd best) (snd it) then it else best) r
  end.

(** [SheetsReaderEnhanced.get_invoice_number]. *)
Definition get_invoice_number (wip_entries : list WorkEntry) : string :=
  match wip_entries with
  | [] => default_invoice_number
  | _ :: _ =>
      match count_invoices wip_entries [] with
      | [] => default_invoice_number
      | it :: r => fst (max_item it r)
      end
  end.

(** [SheetsReader.get_invoice_number]: the invoice of the first entry. *)
Definition get_invoice_number_first (wip_entries : list WorkEntry) : string :=
  match wip_entries with
  | entry :: _ => invoice entry
  | [] => default_invoice_number
  end.

End InvoiceNumber.

Import InvoiceNumber.

(** ** The repair script [fix-nes01-5541.py] *)

Module ColorFix.

(** What [update_entries_with_correct_color] does to the outside: the
    remote calls and the first printed line are those of the updater, the
    two other printed lines are its own. *)
Inductive script_action : Type :=
| Shared (a : action)
| PrintCorrectHighlighted (n : nat)
| PrintErrorUpdatingEntries.

Definition format_request_with (reference_color : list (string * pynum))
           (row_number : Z) : FormatRequest :=
  {| sheetId := 0;
     startRowIndex := row_number - 1;
     endRowIndex := row_number;
     startColumnIndex := 0;
     endColumnIndex := 7;
     backgroundColor := reference_color;
     fields := "userEnteredFormat.backgroundColor" |}.

(** The loop of lines 159-187 over the entries. *)
Fixpoint build_requests_with (reference_color : list (string * pynum))
         (status_col_index : nat) (entries : list WorkEntry)
         (value_updates : list ValueUpdate) (format_requests : list FormatRequest)
  : list ValueUpdate * list FormatRequest :=
  match entries with
  | [] => (value_updates, format_requests)
  | entry :: rest =>
      match row_number entry with
      | Some n =>
          if (n =? 0)%Z
          then build_requests_with reference_color status_col_index rest
                 value_updates format_requests
          else build_requests_with reference_color status_col_index rest
                 (value_updates ++ [value_update status_col_index n])
                 (format_requests ++ [format_request_with reference_color n])
      | None => build_requests_with reference_color status_col_index rest
                  value_updates format_requests
      end
  end.

(** Lines 189-216, once the requests are built. *)
Definition send_updates_with (remote : Remote) (value_updates : list ValueUpdate)
           (format_requests : list FormatRequest) : list script_action * bool :=
  match value_updates with
  | [] => ([], false)
  | _ :: _ =>
      if negb (batch_update_ok remote)
      then ([Shared (BatchUpdate value_updates); PrintErrorUpdatingEntries], false)
      else
        let done := [Shared (BatchUpdate value_updates);
                     Shared (PrintUpdated (List.length value_updates))] in
        match format_requests with
        | [] => (done, true)
        | _ :: _ =>
            if negb (build_service_ok remote)
            then (done ++ [Shared BuildService; PrintErrorUpdatingEntries], false)
            else if negb (format_update_ok remote)
            then (done ++ [Shared BuildService;
                           Shared (SpreadsheetsBatchUpdate format_requests);
                           PrintErrorUpdatingEntries], false)
            else (done ++ [Shared BuildService;
                           Shared (SpreadsheetsBatchUpdate format_requests);
                           PrintCorrectHighlighted (List.length format_requests)],
                  true)
        end
  end.

(** [update_entries_with_correct_color] of [fix-nes01-5541.py]: the
    worksheet is always [Sheet1], and the header row is not checked for a
    status column. *)
Definition update_entries_with_correct_color
           (remote : Remote) (entries : list WorkEntry)
           (reference_color : list (string * pynum))
  : list script_action * bool :=
  if negb (worksheet_found remote)
  then ([Shared (GetWorksheet "Sheet1"); PrintErrorUpdatingEntries], false)
  else
    match header_row remote with
    | None => ([Shared (GetWorksheet "Sheet1"); Shared (RowValues 1);
                PrintErrorUpdatingEntries], false)
    | Some headers =>
        let reads := [Shared (GetWorksheet "Sheet1"); Shared (RowValues 1)] in
        let status_col_index := _find_column_index headers ["paid"; "status"] + 1 in
        let (value_updates, format_requests) :=
          build_requests_with reference_color status_col_index entries [] [] in
        let (acts, ok) := send_updates_with remote value_updates format_requests in
        (reads ++ acts, ok)
    end.

End ColorFix.

Import ColorFix.

(** ** The scan of [test-billed-update.py] *)

Module BilledScan.

(** [row[col].strip() if col < len(row) else default]. *)
Definition cell_text (row : list string) (col : nat) (default : string) : string :=
  match nth_error row col with
  | Some s => strip s
  | None => default
  end.

(** Lines 36-42: the status column is looked up under the alias [paid] only. *)
Definition resolve_columns_paid (headers : list string) : ColumnMap :=
  {| date_col := _find_column_index headers ["date"];
     hours_col := _find_column_index headers ["hours"];
     category_col := _find_column_index headers ["category"];
     task_col := _find_column_index headers ["task"; "work"; "task/work"];
     persons_col := _find_column_index headers ["persons"];
     invoice_col := _find_column_index headers ["invoice"];
     paid_col := _find_column_index headers ["paid"] |}.

Section WithFloatParser.

Variable float_of_str : string -> option float.

(** One iteration of the loop of lines 47-79; [None] is [continue]. *)
Definition scan_row (cols : ColumnMap) (row_idx : Z) (row : list string)
  : option WorkEntry :=
  if Nat.leb (List.length row) (max_col cols) then None
  else
    let date := cell_text row (date_col cols) EmptyString in
    let paid_status :=
      match nth_error row (paid_col cols) with
      | Some s => upper (strip s)
      | None => EmptyString
      end in
    if String.eqb paid_status "WIP" && negb (is_empty date)
    then
      match float_of_str (cell_text row (hours_col cols) "0") with
      | None => None
      | Some hours =>
          let category := cell_text row (category_col cols) "Enhancement" in
          let description := cell_text row (task_col cols) EmptyString in
          let persons := cell_text row (persons_col cols) EmptyString in
          if f_ltb f_zero hours && negb (is_empty description)
          then Some {| date := date;
                       hours := PyFloat hours;
                       category := Some category;
                       description := description;
                       persons := persons;
                       invoice := "NES01-5541";
                       row_number := Some row_idx |}
          else None
      end
    else None.

(** The loop over [enumerate(all_values[1:], start=2)]. *)
Fixpoint scan_rows (cols : ColumnMap) (row_idx : Z) (rows : list (list string))
  : list WorkEntry :=
  match rows with
  | [] => []
  | row :: rest =>
      match scan_row cols row_idx row with
      | Some entry => [entry]
      | None => []
      end ++ scan_rows cols (row_idx + 1) rest
  end.

(** [target_entries] of [test_billed_update]; [None] is the [IndexError] of
    [all_values[0]] on an empty sheet. *)
Definition target_entries (all_values : list (list string)) : option (list WorkEntry) :=
  match all_values with
  | [] => None
  | headers :: data => Some (scan_rows (resolve_columns_paid headers) 2 data)
  end.

End WithFloatParser.

End BilledScan.

Import BilledScan.

(** ** The PDF converter *)

Module PdfConverter.

(** How [subprocess.run] ends: the command ran and exited with a return
    code, or it could not be started ([OSError]). *)
Inductive outcome : Type :=
| Exited (returncode : Z)
| NotStarted.

(** The host during one conversion: the outcome of each command line. *)
Definition Host : Type := list string -> outcome.

Definition which_argv : list string := ["which"; "wkhtmltopdf"].

Definition update_argv : list string := ["sudo"; "apt-get"; "update"; "-y"].

Definition install_argv : list string :=
  ["sudo"; "apt-get"; "install"; "-y"; "wkhtmltopdf"].

Definition convert_argv (html_path pdf_path : string) : list string :=
  ["wkhtmltopdf";
   "--page-size"; "A4";
   "--margin-top"; "0.75in";
   "--margin-right"; "0.75in";
   "--margin-bottom"; "0.75in";
   "--margin-left"; "0.75in";
   "--encoding"; "UTF-8";
   "--quiet";
   html_path;
   pdf_path].

(** [PDFConverter._install_wkhtmltopdf]: the commands run, and whether the
    call returns ([false]: an exception other than [CalledProcessError]
    leaves it). *)
Definition _install_wkhtmltopdf (host : Host) : list (list string) * bool :=
  match host update_argv with
  | NotStarted => ([update_argv], false)
  | Exited rc =>
      if (rc =? 0)%Z
      then match host install_argv with
           | NotStarted => ([update_argv; install_argv], false)
           | Exited _ => ([update_argv; install_argv], true)
           end
      else ([update_argv], true)
  end.

(** [PDFConverter.html_to_pdf]: the commands run, and the answer. *)
Definition html_to_pdf (host : Host) (html_path pdf_path : string)
  : list (list string) * bool :=
  match host which_argv with
  | NotStarted => ([which_argv], false)
  | Exited rc =>
      let (installing, returned) :=
        if (rc =? 0)%Z then ([], true) else _install_wkhtmltopdf host in
      if returned
      then (which_argv :: installing ++ [convert_argv html_path pdf_path],
            match host (convert_argv html_path pdf_path) with
            | Exited rc' => (rc' =? 0)%Z
            | NotStarted => false
            end)
      else (which_argv :: installing, false)
  end.

End PdfConverter.

Import PdfConverter.

(** ** The scan of [fix-nes01-5541.py] *)

Module InvoiceScan.

Section WithFloatParser.

Variable float_of_str : string -> option float.

(** One iteration of the loop of lines 79-105; [None] is a row that adds
    nothing. *)
Definition nes_row (cols : ColumnMap) (row_idx : Z) (row : list string)
  : option WorkEntry :=
  if Nat.ltb (max_col cols) (List.length row)
  then
    let invoice := cell_text row (invoice_col cols) EmptyString in
    let status :=
      match nth_error row (paid_col cols) with
      | Some s => upper (strip s)
      | None => EmptyString
      end in
    if String.eqb invoice "NES01-5541" && String.eqb status "WIP"
    then
      match float_of_str (cell_text row (hours_col cols) "0") with
      | None => None
      | Some hours =>
          if f_ltb f_zero hours
          then Some {| date := cell_text row (date_col cols) EmptyString;
                       hours := PyFloat hours;
                       category := Some (cell_text row (category_col cols) "Enhancement");
                       description := cell_text row (task_col cols) EmptyString;
                       persons := cell_text row (persons_col cols) EmptyString;
                       invoice := "NES01-5541";
                       row_number := Some row_idx |}
          else None
      end
    else None
  else None.

(** The loop over [enumerate(all_values[1:], start=2)]. *)
Fixpoint nes_rows (cols : ColumnMap) (row_idx : Z) (rows : list (list string))
  : list WorkEntry :=
  match rows with
  | [] => []
  | row :: rest =>
      match nes_row cols row_idx row with
      | Some entry => [entry]
      | None => []
      end ++ nes_rows cols (row_idx + 1) rest
  end.

(** [nes_5541_entries]; [None] is the [IndexError] of [all_values[0]] on an
    empty sheet. *)
Definition nes_5541_entries (all_values : list (list string))
  : option (list WorkEntry) :=
  match all_values with
  | [] => None
  | headers :: data => Some (nes_rows (resolve_columns headers) 2 data)
  end.

End WithFloatParser.

End InvoiceScan.

Import InvoiceScan.

(** ** The scan of [fix-colors.py] *)

Module ColorRepair.

(** One iteration of the loop of lines 69-76: for a Billed row of
    NES01-5541 its number, after the two cells of the printed line are
    read. *)
Definition billed_row (invoice_col status_col : nat) (row_idx : Z)
           (row : list string) : M (option Z) :=
  if Nat.ltb (Nat.max invoice_col status_col) (List.length row)
  then
    invoice <- cell_or row invoice_col EmptyString ;;
    status <-
      (if Nat.ltb status_col (List.length row)
       then s <- subscript row status_col ;; ret (upper (strip s))
       else ret EmptyString) ;;
    if String.eqb invoice "NES01-5541" && String.eqb status "BILLED"
    then
      _ <- subscript row 0 ;;
      _ <- subscript row 1 ;;
      ret (Some row_idx)
    else ret None
  else ret None.

(** The loop over [enumerate(all_values[1:], start=2)]. *)
Fixpoint billed_rows_loop (invoice_col status_col : nat) (row_idx : Z)
         (rows : list (list string)) (billed_rows : list Z) : M (list Z) :=
  match rows with
  | [] => ret billed_rows
  | row :: rest =>
      o <- billed_row invoice_col status_col row_idx row ;;
      billed_rows_loop invoice_col status_col (row_idx + 1) rest
                       (match o with
                        | Some n => billed_rows ++ [n]
                        | None => billed_rows
                        end)
  end.

(** [billed_rows] of [fix_existing_billed_rows_color] (lines 60-76). *)
Definition billed_rows (all_values : list (list string)) : M (list Z) :=
  match all_values with
  | [] => raise IndexError
  | headers :: data =>
      billed_rows_loop (_find_column_index headers ["invoice"])
                       (_find_column_index headers ["paid"; "status"]) 2 data []
  end.

End ColorRepair.

Import ColorRepair.

(** ** The test entries of [check-recent-entries.py] *)

Module RecentEntries.

(** [hours > 0]. *)
Definition positive (hours : pynum) : bool :=
  match hours with
  | PyInt z => (0 <? z)%Z
  | PyFloat f => f_ltb f_zero f
  end.

(** [row[col] if len(row) > col else default]. *)
Definition item_or (row : list string) (col : nat) (default : string) : M string :=
  if Nat.ltb col (List.length row) then subscript row col else ret default.

Section WithFloatParser.

Variable float_of_str : string -> option float.

(** [float(row[1]) if row[1] else 0]; the outcome [None] is the
    [ValueError] of [float]. *)
Definition hours_of (row : list string) : M (option pynum) :=
  s <- subscript row 1 ;;
  if is_empty s then ret (Some (PyInt 0))
  else
    s' <- subscript row 1 ;;
    ret (option_map PyFloat (float_of_str s')).

(** The body of the loop of lines 75-92, given the entries taken so far. *)
Definition test_row (row_idx : Z) (row : list string) (test_entries : list WorkEntry)
  : M (list WorkEntry) :=
  if Nat.ltb 6 (List.length row)
  then
    s <- subscript row 6 ;;
    if String.eqb (upper (strip s)) "WIP"
    then
      if Nat.ltb (List.length test_entries) 3
      then
        h <- hours_of row ;;
        match h with
        | None => ret test_entries
        | Some hours =>
            if positive hours
            then
              date <- subscript row 0 ;;
              category <- item_or row 2 "Enhancement" ;;
              description <- item_or row 3 EmptyString ;;
              persons <- item_or row 4 EmptyString ;;
              ret (test_entries ++
                   [{| date := date;
                       hours := hours;
                       category := Some category;
                       description := description;
                       persons := persons;
                       invoice := "NES01-5541";
                       row_number := Some row_idx |}])
            else ret test_entries
        end
      else ret test_entries
    else ret test_entries
  else ret test_entries.

(** The loop over [enumerate(all_values[1:], start=2)]. *)
Fixpoint test_rows (row_idx : Z) (rows : list (list string))
         (test_entries : list WorkEntry) : M (list WorkEntry) :=
  match rows with
  | [] => ret test_entries
  | row :: rest =>
      test_entries' <- test_row row_idx row test_entries ;;
      test_rows (row_idx + 1) rest test_entries'
  end.

(** [test_entries] of [check_recent_entries] (lines 74-93), after the
    [headers = all_values[0]] of line 33. *)
Definition test_entries (all_values : list (list string)) : M (list WorkEntry) :=
  match all_values with
  | [] => raise IndexError
  | _ :: data => test_rows 2 data []
  end.

End WithFloatParser.

End RecentEntries.

Import RecentEntries.

(* ================================================================= *)
(** * Vocabulary of the properties *)
(* ================================================================= *)

(** The comparison key of a header or alias: trimmed, then lower-cased. *)
Definition header_key (s : string) : string := lower (strip s).

(** An event is in bounds when it is not a subscript past the end of its row. *)
Definition in_bounds (ev : event) : Prop :=
  match ev with
  | Subscript row_len col => col < row_len
  | _ => True
  end.

(** The text of a cell once trimmed, as the extractor reads it. *)
Definition cell (row : list string) (col : nat) : string :=
  strip (nth col row EmptyString).

(** The entry a complete WIP row stands for, once its hours are parsed. *)
Definition entry_of (cols : ColumnMap) (row_idx : Z) (row : list string) (h : float)
  : WorkEntry :=
  {| date := cell row (date_col cols);
     hours := PyFloat h;
     category := Some (cell row (category_col cols));
     description := cell row (task_col cols);
     persons := cell row (persons_col cols);
     invoice := cell row (invoice_col cols);
     row_number := Some row_idx |}.

(** The six subscripts of the [try] body on a complete row, in order. *)
Definition body_subscripts (cols : ColumnMap) (row : list string) : list event :=
  map (Subscript (List.length row))
      [date_col cols; hours_col cols; category_col cols; task_col cols;
       persons_col cols; invoice_col cols].

(** The trimmed, upper-cased status of a row. *)
Definition status_of (cols : ColumnMap) (row : list string) : string :=
  upper (cell row (paid_col cols)).

Section RowsOf.

Variable float_of_str : string -> option float.

(** The entries and the events of a run of the loop, row by row. *)
Fixpoint emitted (cols : ColumnMap) (row_idx : Z) (rows : list (list string))
  : list WorkEntry :=
  match rows with
  | [] => []
  | row :: rest =>
      match snd (process_row float_of_str cols row_idx row) with
      | Ok (Emit e) => [e]
      | _ => []
      end ++ emitted cols (row_idx + 1) rest
  end.

Fixpoint logged (cols : ColumnMap) (row_idx : Z) (rows : list (list string))
  : list event :=
  match rows with
  | [] => []
  | row :: rest =>
      fst (process_row float_of_str cols row_idx row) ++ logged cols (row_idx + 1) rest
  end.

End RowsOf.

(** Lexicographic order of strings by code point: a proper prefix comes
    first, otherwise the first differing character decides. *)
Inductive lex_le : string -> string -> Prop :=
| lex_le_empty s : lex_le EmptyString s
| lex_le_char c1 c2 s1 s2 :
    (N_of_ascii c1 < N_of_ascii c2)%N -> lex_le (String c1 s1) (String c2 s2)
| lex_le_tail c s1 s2 : lex_le s1 s2 -> lex_le (String c s1) (String c s2).

(** The greatest element of a non-empty list in the lexicographic order. *)
Definition lex_max (m : string) (xs : list string) : Prop :=
  In m xs /\ forall x, In x xs -> lex_le x m.

(** The exact sum of a list of integers. *)
Definition Z_sum (zs : list Z) : Z := fold_right Z.add 0%Z zs.

(** The exact value of a finite number, as [m * 2^e]. *)
Definition exact_value (x : pynum) : option (Z * Z) :=
  match x with
  | PyInt z => Some (z, 0%Z)
  | PyFloat (S754_zero _) => Some (0%Z, 0%Z)
  | PyFloat (S754_finite s m e) => Some (if s then Zneg m else Zpos m, e)
  | PyFloat _ => None
  end.

(** Exact sum and comparison of two such values. *)
Definition dyadic_add (a b : Z * Z) : Z * Z :=
  let e := Z.min (snd a) (snd b) in
  ((fst a * 2 ^ (snd a - e) + fst b * 2 ^ (snd b - e))%Z, e).

Definition dyadic_eqb (a b : Z * Z) : bool :=
  let e := Z.min (snd a) (snd b) in
  (fst a * 2 ^ (snd a - e) =? fst b * 2 ^ (snd b - e))%Z.

(** The sum of the exact values, without any rounding. *)
Fixpoint exact_sum (xs : list pynum) : option (Z * Z) :=
  match xs with
  | [] => Some (0%Z, 0%Z)
  | x :: r =>
      match exact_value x, exact_sum r with
      | Some a, Some b => Some (dyadic_add a b)
      | _, _ => None
      end
  end.

(** A text without a decimal point. *)
Definition no_point (s : string) : Prop := ~ In "."%char (list_ascii_of_string s).

(** One step of the loop of [generate_html] over the entries. *)
Definition add_row (acc : string) (entry : WorkEntry) : string :=
  (acc ++ nl ++ unlines (html_entry_row entry))%string.

(** The A1 letter of column [k] (counted from 1), for the first 26 columns. *)
Definition column_letter (k : nat) : option ascii :=
  String.get (k - 1) "ABCDEFGHIJKLMNOPQRSTUVWXYZ".

(** The column letters of A1 notation for column [k] (counted from 1): A to
    Z, then AA, AB and so on. *)
Fixpoint a1_letters_from (fuel k : nat) : string :=
  match fuel with
  | 0 => EmptyString
  | S fuel' =>
      if Nat.eqb k 0 then EmptyString
      else (a1_letters_from fuel' ((k - 1) / 26)
            ++ String (ascii_of_nat (65 + (k - 1) mod 26)) EmptyString)%string
  end.

Definition a1_letters (k : nat) : string := a1_letters_from k k.

(** The A1 address of the cell in column [k] and row [n]. *)
Definition a1_address (k : nat) (n : Z) : string :=
  (a1_letters k ++ str_of_Z n)%string.

(** ** Sample data *)

(** A configuration with the rate and discount of the specification's
    scenario; the texts stand for those of [config.json]. *)
Definition sample_config : Config :=
  {| cfg_hourly_rate := PyInt 126;
     cfg_discount := PyInt 49;
     cfg_terms := "Net 30";
     cfg_client := {| client_name := "Client"; client_address := "1 Main St";
                      city_state_zip := "Town, ST 00000"; customer_id := "C-1" |};
     cfg_sales_rep := "Rep";
     cfg_company := {| company_name := "Company"; company_address := "2 Side St";
                       zelle := "pay@example.com" |} |}.

(** An entry whose hours were read by [float] from a cell. *)
Definition float_entry (d hours_text : string) : WorkEntry :=
  {| date := d;
     hours := match py_float hours_text with
              | Some f => PyFloat f
              | None => PyInt 0
              end;
     category := Some "Enhancement"; description := "work";
     persons := "BK"; invoice := "NES01-5541"; row_number := None |}.

(** A sheet of seven columns, its rows and the entries they stand for. *)
Definition sample_headers : list string :=
  ["Date"; "Hours"; "Category"; "Task/Work"; "Persons"; "Invoice"; "Status"].

Definition sample_row (d h st : string) : list string :=
  [d; h; "Enhancement"; "UAT bug fixes"; "BK/DH"; "NES01-5541"; st].

Definition sample_entry_of (d : string) (h : float) (n : Z) : WorkEntry :=
  {| date := d; hours := PyFloat h; category := Some "Enhancement";
     description := "UAT bug fixes"; persons := "BK/DH";
     invoice := "NES01-5541"; row_number := Some n |}.

(** The float 17.0. *)
Definition seventeen : float := S754_finite false 4785074604081152 (-48).

(** The invoice of the built-in entries under a configuration. *)
Definition sample_invoice_of (cfg : Config) (s : Summary) : Invoice :=
  {| invoice_number := "NES01-5541";
     invoice_date := "6/9/25";
     bill_to := cfg_client cfg;
     sales_rep := cfg_sales_rep cfg;
     terms := cfg_terms cfg;
     work_entries := get_wip_entries_builtin;
     summary := s;
     payment_info := cfg_company cfg |}.

Definition sample_invoice : Invoice :=
  sample_invoice_of sample_config
    {| total_hours := PyInt 102; hourly_rate := PyInt 126;
       original_rate := PyInt 175; discount_per_hour := PyInt 49;
       subtotal := PyInt 12852; balance_due := PyInt 12852 |}.

(** A configured rate of 1500 with the same discount and entries. *)
Definition config_1500 : Config :=
  {| cfg_hourly_rate := PyInt 1500;
     cfg_discount := cfg_discount sample_config;
     cfg_terms := cfg_terms sample_config;
     cfg_client := cfg_client sample_config;
     cfg_sales_rep := cfg_sales_rep sample_config;
     cfg_company := cfg_company sample_config |}.

(** A remote side on which every call but, possibly, the formatting
    call succeeds. *)
Definition remote_ok (headers : list string) (format_ok : bool) : Remote :=
  {| worksheet_found := true; header_row := Some headers;
     batch_update_ok := true; build_service_ok := true;
     format_update_ok := format_ok |}.

Definition billed_entries : list WorkEntry :=
  [sample_entry_of "6/4/25" seventeen 2; sample_entry_of "6/6/25" seventeen 4].

(** A header row of 27 cells with the status column last, in column AA. *)
Definition wide_headers : list string := repeat "Note" 26 ++ ["Status"].

(** ** Vocabulary of the further properties *)

(** The sheet row number of the data row at position [k]. *)
Definition row_of (k : nat) : Z := (2 + Z.of_nat k)%Z.

(** A text that [strip] leaves as it is. *)
Definition trimmed (s : string) : Prop := strip s = s.

(** The seven resolved columns, in the order of the lookups. *)
Definition column_list (cols : ColumnMap) : list nat :=
  [date_col cols; hours_col cols; category_col cols; task_col cols;
   persons_col cols; invoice_col cols; paid_col cols].

(** The non-blank trimmed invoice numbers of the entries, in their order. *)
Definition invoice_keys (es : list WorkEntry) : list string :=
  filter (fun k => negb (is_empty k)) (map (fun e => strip (invoice e)) es).

(** How often a key occurs in a list of keys. *)
Definition occurrences (k : string) (ks : list string) : nat :=
  count_occ string_dec ks k.

(** One counting step of the loop on a non-blank key. *)
Definition count_step (d : counts) (k : string) : counts :=
  counts_set d k (counts_get d k + 1).

(** An entry that carries the invoice number [n]. *)
Definition invoiced (n : string) : WorkEntry :=
  {| date := "6/4/25"; hours := PyInt 1; category := None;
     description := "work"; persons := "BK"; invoice := n; row_number := None |}.

(** What holds of the dict once the keys [ks] have been counted: the keys
    are distinct, each with its number of occurrences, in the order of
    their first occurrences. *)
Definition counted (d : counts) (ks : list string) : Prop :=
  NoDup (map fst d) /\
  (forall k, counts_get d k = occurrences k ks) /\
  (forall k, In k (map fst d) <-> In k ks) /\
  (forall P k Q, map fst d = P ++ k :: Q ->
     exists kpre kpost, ks = kpre ++ k :: kpost /\ incl kpre P).

(** What [generate_html] prints of an entry. *)
Definition printed (e : WorkEntry) : string * string * string * string :=
  (date e, py_str (hours e), description e, persons e).

(** An invoice with other entries in its detail table. *)
Definition with_entries (inv : Invoice) (es : list WorkEntry) : Invoice :=
  {| invoice_number := invoice_number inv;
     invoice_date := invoice_date inv;
     bill_to := bill_to inv;
     sales_rep := sales_rep inv;
     terms := terms inv;
     work_entries := es;
     summary := summary inv;
     payment_info := payment_info inv |}.

(** An entry with other values in the fields that are not printed. *)
Definition recategorised (e : WorkEntry) : WorkEntry :=
  {| date := date e; hours := hours e; category := Some "Bug";
     description := description e; persons := persons e;
     invoice := "NES01-0001"; row_number := Some 5%Z |}.

(** The row numbers the updater acts on: those present and not zero. *)
Definition usable_rows (es : list WorkEntry) : list Z :=
  flat_map (fun e => match row_number e with
                     | Some n => if (n =? 0)%Z then [] else [n]
                     | None => []
                     end) es.

(** The remote calls among the actions, reads included. *)
Definition is_call (a : action) : bool :=
  match a with
  | GetWorksheet _ | RowValues _ | BatchUpdate _ | BuildService
  | SpreadsheetsBatchUpdate _ => true
  | _ => false
  end.

(** The actions a script shares with the updater. *)
Definition shared_actions (acts : list script_action) : list action :=
  flat_map (fun a => match a with Shared x => [x] | _ => [] end) acts.

(** An entry under the invoice number the script assigns. *)
Definition relabel (e : WorkEntry) : WorkEntry :=
  {| date := date e; hours := hours e; category := category e;
     description := description e; persons := persons e;
     invoice := "NES01-5541"; row_number := row_number e |}.

(** [hours > 0] on the hours of an entry. *)
Definition hours_positive (e : WorkEntry) : bool :=
  match hours e with
  | PyFloat h => f_ltb f_zero h
  | PyInt z => (0 <? z)%Z
  end.

(** A sheet whose status column is headed Paid. *)
Definition paid_headers : list string :=
  ["Date"; "Hours"; "Category"; "Task"; "Persons"; "Invoice"; "Paid"].

(** The test of [fix-nes01-5541.py] on an entry of the extractor: its
    invoice number is NES01-5541 and its hours are greater than 0. *)
Definition nes_selected (e : WorkEntry) : bool :=
  String.eqb (invoice e) "NES01-5541" && hours_positive e.

(** The test of the extractor on an entry of [fix-nes01-5541.py]: neither
    date nor description is empty. *)
Definition dated_and_described (e : WorkEntry) : bool :=
  negb (is_empty (date e)) && negb (is_empty (description e)).

Section Candidates.

Variable float_of_str : string -> option float.

(** What [check-recent-entries.py] takes of a row, were there no bound on
    the number of entries. *)
Definition wip_candidate (row_idx : Z) (row : list string) : option WorkEntry :=
  if Nat.ltb 6 (List.length row)
     && String.eqb (upper (strip (nth 6 row EmptyString))) "WIP"
  then
    match (if is_empty (nth 1 row EmptyString) then Some (PyInt 0)
           else option_map PyFloat (float_of_str (nth 1 row EmptyString))) with
    | Some hours =>
        if positive hours
        then Some {| date := nth 0 row EmptyString;
                     hours := hours;
                     category := Some (nth 2 row EmptyString);
                     description := nth 3 row EmptyString;
                     persons := nth 4 row EmptyString;
                     invoice := "NES01-5541";
                     row_number := Some row_idx |}
        else None
    | None => None
    end
  else None.

Fixpoint wip_candidates (row_idx : Z) (rows : list (list string)) : list WorkEntry :=
  match rows with
  | [] => []
  | row :: rest =>
      match wip_candidate row_idx row with
      | Some e => [e]
      | None => []
      end ++ wip_candidates (row_idx + 1) rest
  end.

End Candidates.

(* ================================================================= *)
(** * Properties *)
(* ================================================================= *)

(** ** The column resolver *)

Example find_column_index_status :
  _find_column_index ["Date"; " Hours "; "STATUS"; "Paid"] ["paid"; "status"] = 3.
Proof. reflexivity. Qed.

Lemma is_space_lower_char c : is_space (lower_char c) = is_space c.
Proof. destruct c as [[] [] [] [] [] [] [] []]; reflexivity. Qed.

Lemma lstrip_lower s : lstrip (lower s) = lower (lstrip s).
Proof.
  induction s as [|c r IH]; simpl; [reflexivity|].
  rewrite is_space_lower_char. destruct (is_space c); [exact IH | reflexivity].
Qed.

Lemma rstrip_lower s : rstrip (lower s) = lower (rstrip s).
Proof.
  induction s as [|c r IH]; simpl; [reflexivity|].
  unfold lower in IH. rewrite IH.
  destruct (rstrip r) as [|c' r']; simpl.
  - rewrite is_space_lower_char. destruct (is_space c); reflexivity.
  - reflexivity.
Qed.

Lemma strip_lower s : strip (lower s) = lower (strip s).
Proof. unfold strip. rewrite lstrip_lower. apply rstrip_lower. Qed.

Lemma list_in_In x l : list_in x l = true <-> In x l.
Proof.
  unfold list_in. rewrite existsb_exists. split.
  - intros [y [Hy He]]. apply String.eqb_eq in He. now subst.
  - intros H. exists x. split; [exact H | apply String.eqb_refl].
Qed.

Lemma list_index_first x l :
  In x l ->
  nth_error l (list_index x l) = Some x /\
  forall j, j < list_index x l -> nth_error l j <> Some x.
Proof.
  induction l as [|y r IH]; simpl; [tauto|].
  intros H. destruct (String.eqb x y) eqn:E.
  - apply String.eqb_eq in E. subst. split; [reflexivity | intros j Hj; lia].
  - apply String.eqb_neq in E.
    destruct H as [H|H]; [congruence|].
    destruct (IH H) as [H1 H2]. split; [exact H1|].
    intros [|j] Hj; simpl.
    + intros Heq. injection Heq. congruence.
    + apply H2. lia.
Qed.

Lemma find_loop_spec hl names len :
  (Forall (fun a => ~ In (strip (lower a)) hl) names /\ find_loop hl names len = len)
  \/ exists pre a post,
       names = pre ++ a :: post /\
       Forall (fun b => ~ In (strip (lower b)) hl) pre /\
       In (strip (lower a)) hl /\
       find_loop hl names len = list_index (strip (lower a)) hl.
Proof.
  induction names as [|n rest IH]; simpl.
  - left. split; [constructor | reflexivity].
  - destruct (list_in (strip (lower n)) hl) eqn:E.
    + apply list_in_In in E. right. exists [], n, rest. repeat split; auto.
    + assert (Hn : ~ In (strip (lower n)) hl).
      { intro H. apply list_in_In in H. congruence. }
      destruct IH as [[Hall Heq] | (pre & a & post & -> & Hpre & Hin & Heq)].
      * left. split; [constructor; assumption | exact Heq].
      * right. exists (n :: pre), a, post. repeat split; auto.
Qed.

(** C4. [_find_column_index] answers the position of the first header whose
    key (trimmed, compared without case) equals the key of an alias, the
    aliases being tried in the order of their list before the headers are:
    the alias is the first of the list that matches any header, the
    position the first header matching that alias.  When no alias matches
    any header the answer is the number of headers. *)
Theorem find_column_index_first_match (headers possible_names : list string) :
  let i := _find_column_index headers possible_names in
  ((forall a h, In a possible_names -> In h headers -> header_key h <> header_key a)
   /\ i = List.length headers)
  \/
  (exists pre a post,
      possible_names = pre ++ a :: post /\
      (forall b h, In b pre -> In h headers -> header_key h <> header_key b) /\
      i < List.length headers /\
      (exists h, nth_error headers i = Some h /\ header_key h = header_key a) /\
      (forall j h, j < i -> nth_error headers j = Some h ->
                   header_key h <> header_key a)).
Proof.
  intro i. subst i. unfold _find_column_index, header_key.
  set (hl := map (fun h => strip (lower h)) headers).
  assert (Hno : forall b, ~ In (strip (lower b)) hl ->
                forall h, In h headers -> lower (strip h) <> lower (strip b)).
  { intros b Hb h Hh Heq. apply Hb. unfold hl. apply in_map_iff.
    exists h. split; [|exact Hh]. now rewrite !strip_lower. }
  destruct (find_loop_spec hl possible_names (List.length headers))
    as [[Hall Heq] | (pre & a & post & Hnames & Hpre & Hin & Heq)].
  - left. split; [|exact Heq].
    intros a h Ha Hh. rewrite Forall_forall in Hall. exact (Hno a (Hall a Ha) h Hh).
  - right. exists pre, a, post. split; [exact Hnames|]. split.
    { intros b h Hb Hh. rewrite Forall_forall in Hpre. exact (Hno b (Hpre b Hb) h Hh). }
    rewrite Heq. destruct (list_index_first _ _ Hin) as [Hnth Hfirst].
    assert (Hlt : list_index (strip (lower a)) hl < List.length headers).
    { assert (H : list_index (strip (lower a)) hl < List.length hl)
        by (apply nth_error_Some; congruence).
      unfold hl in H. now rewrite length_map in H. }
    split; [exact Hlt|]. split.
    + subst hl. rewrite nth_error_map in Hnth.
      destruct (nth_error headers _) as [h|] eqn:E; [|discriminate].
      exists h. split; [reflexivity|]. simpl in Hnth. injection Hnth as Hk.
      now rewrite <- !strip_lower.
    + intros j h Hj Hjh Hk. apply (Hfirst j Hj). unfold hl.
      rewrite nth_error_map, Hjh. simpl. f_equal. now rewrite !strip_lower.
Qed.

(** ** The entry extractor *)
(** Away from NaN, a float that is not [<= 0] is [> 0]; NaN is neither. *)
Lemma not_le_zero_gt_zero (h : float) :
  f_leb h f_zero = false -> h <> S754_nan -> f_ltb f_zero h = true.
Proof.
  destruct h as [s|[]| |[] m e]; simpl; intros Hle Hnan;
    try discriminate; try reflexivity; congruence.
Qed.

Lemma cell_or_inside row col default :
  col < List.length row ->
  cell_or row col default = ([Subscript (List.length row) col], Ok (cell row col)).
Proof.
  intros H. unfold cell_or, subscript, cell.
  destruct (Nat.ltb_spec col (List.length row)) as [_|]; [|lia].
  destruct (nth_error row col) as [s|] eqn:E.
  - rewrite (nth_error_nth _ _ _ E). reflexivity.
  - apply nth_error_None in E. lia.
Qed.

Lemma cell_or_outside row col default :
  List.length row <= col -> cell_or row col default = ([], Ok default).
Proof.
  intros H. unfold cell_or.
  destruct (Nat.ltb_spec col (List.length row)); [lia | reflexivity].
Qed.

Lemma max_col_bounds cols :
  date_col cols <= max_col cols /\ hours_col cols <= max_col cols /\
  category_col cols <= max_col cols /\ task_col cols <= max_col cols /\
  persons_col cols <= max_col cols /\ invoice_col cols <= max_col cols /\
  paid_col cols <= max_col cols.
Proof. unfold max_col. simpl. lia. Qed.

Section Rows.

Variable float_of_str : string -> option float.

Lemma try_body_complete cols row_idx row :
  max_col cols < List.length row ->
  try_body float_of_str cols row_idx row =
  match float_of_str (cell row (hours_col cols)) with
  | None => (body_subscripts cols row
             ++ [PrintInvalidHours (cell row (hours_col cols)) row_idx], Ok Skip)
  | Some h =>
      (body_subscripts cols row,
       Ok (if f_leb h f_zero || is_empty (cell row (date_col cols))
              || is_empty (cell row (task_col cols))
           then Skip else Emit (entry_of cols row_idx row h)))
  end.
Proof.
  intros H. pose proof (max_col_bounds cols) as B.
  unfold try_body.
  rewrite !cell_or_inside by lia.
  unfold bind, body_subscripts. simpl.
  destruct (float_of_str (cell row (hours_col cols))) as [h|]; simpl; [|reflexivity].
  destruct (f_leb h f_zero || is_empty (cell row (date_col cols))
            || is_empty (cell row (task_col cols))); reflexivity.
Qed.

Lemma process_row_short cols row_idx row :
  List.length row <= max_col cols ->
  process_row float_of_str cols row_idx row = ([], Ok Skip).
Proof.
  intros H. unfold process_row.
  destruct (Nat.leb_spec (List.length row) (max_col cols)); [reflexivity | lia].
Qed.

Lemma process_row_complete cols row_idx row :
  max_col cols < List.length row ->
  process_row float_of_str cols row_idx row =
  if String.eqb (status_of cols row) "WIP"
  then let (log, r) := try_body float_of_str cols row_idx row in
       (Subscript (List.length row) (paid_col cols) :: log, r)
  else ([Subscript (List.length row) (paid_col cols)], Ok Skip).
Proof.
  intros H. pose proof (max_col_bounds cols) as B. unfold process_row.
  destruct (Nat.leb_spec (List.length row) (max_col cols)); [lia|].
  destruct (Nat.ltb_spec (paid_col cols) (List.length row)); [|lia].
  unfold subscript, status_of, cell.
  destruct (nth_error row (paid_col cols)) as [s|] eqn:E.
  - rewrite (nth_error_nth _ _ _ E). unfold bind. simpl.
    destruct (String.eqb (upper (strip s)) "WIP"); [|reflexivity].
    rewrite try_body_complete by lia.
    destruct (float_of_str (cell row (hours_col cols))); reflexivity.
  - apply nth_error_None in E. lia.
Qed.

Lemma process_row_ok cols row_idx row :
  exists log o, process_row float_of_str cols row_idx row = (log, Ok o).
Proof.
  destruct (Nat.le_gt_cases (List.length row) (max_col cols)) as [H|H].
  - rewrite process_row_short by exact H. eauto.
  - rewrite process_row_complete by exact H.
    destruct (String.eqb (status_of cols row) "WIP"); [|eauto].
    rewrite try_body_complete by exact H.
    destruct (float_of_str (cell row (hours_col cols))); eauto.
Qed.

Lemma is_empty_false s : is_empty s = false <-> s <> EmptyString.
Proof. destruct s; simpl; split; congruence. Qed.

Lemma process_row_emit cols row_idx row e :
  snd (process_row float_of_str cols row_idx row) = Ok (Emit e) <->
  max_col cols < List.length row /\
  status_of cols row = "WIP" /\
  exists h, float_of_str (cell row (hours_col cols)) = Some h /\
            f_leb h f_zero = false /\
            cell row (date_col cols) <> EmptyString /\
            cell row (task_col cols) <> EmptyString /\
            e = entry_of cols row_idx row h.
Proof.
  destruct (Nat.le_gt_cases (List.length row) (max_col cols)) as [H|H].
  - rewrite process_row_short by exact H. simpl. split; [discriminate | lia].
  - rewrite process_row_complete by exact H.
    destruct (String.eqb (status_of cols row) "WIP") eqn:Es.
    + apply String.eqb_eq in Es. rewrite try_body_complete by exact H.
      destruct (float_of_str (cell row (hours_col cols))) as [h|] eqn:Eh; simpl.
      * destruct (f_leb h f_zero) eqn:E1; simpl.
        { split; [discriminate|]. intros (_ & _ & h' & Hh & Hl & _).
          injection Hh as <-. congruence. }
        destruct (is_empty (cell row (date_col cols))) eqn:E2; simpl.
        { split; [discriminate|]. intros (_ & _ & h' & _ & _ & Hd & _).
          apply is_empty_false in Hd. congruence. }
        destruct (is_empty (cell row (task_col cols))) eqn:E3; simpl.
        { split; [discriminate|]. intros (_ & _ & h' & _ & _ & _ & Hd & _).
          apply is_empty_false in Hd. congruence. }
        apply is_empty_false in E2, E3. split.
        -- intros [= <-]. repeat split; auto. exists h. repeat split; auto.
        -- intros (_ & _ & h' & Hh & _ & _ & _ & ->). injection Hh as <-. reflexivity.
      * split; [discriminate|]. intros (_ & _ & h' & Hh & _). discriminate.
    + apply String.eqb_neq in Es. simpl. split; [discriminate|].
      intros (_ & Hs & _). contradiction.
Qed.

Lemma rows_loop_eq cols rows : forall row_idx acc,
  rows_loop float_of_str cols row_idx rows acc =
  (logged float_of_str cols row_idx rows, Ok (acc ++ emitted float_of_str cols row_idx rows)).
Proof.
  induction rows as [|row rest IH]; intros row_idx acc; simpl.
  - now rewrite app_nil_r.
  - destruct (process_row_ok cols row_idx row) as (log & o & E).
    rewrite E. simpl. rewrite IH. f_equal. f_equal.
    destruct o; simpl; [reflexivity | now rewrite <- app_assoc].
Qed.

Lemma emitted_In cols rows : forall row_idx e,
  In e (emitted float_of_str cols row_idx rows) <->
  exists k row, nth_error rows k = Some row /\
    snd (process_row float_of_str cols (row_idx + Z.of_nat k) row) = Ok (Emit e).
Proof.
  induction rows as [|row rest IH]; intros row_idx e; simpl.
  - split; [tauto|]. intros ([|k] & r & Hk & _); discriminate.
  - rewrite in_app_iff, IH. split.
    + intros [H | (k & r & Hk & Hr)].
      * exists 0, row. rewrite Z.add_0_r. split; [reflexivity|].
        destruct (snd (process_row float_of_str cols row_idx row)) as [[|e']|];
          simpl in H; try tauto. destruct H as [->|[]]. reflexivity.
      * exists (S k), r. split; [exact Hk|].
        replace (row_idx + Z.of_nat (S k))%Z with (row_idx + 1 + Z.of_nat k)%Z by lia.
        exact Hr.
    + intros ([|k] & r & Hk & Hr); simpl in Hk.
      * injection Hk as <-. rewrite Z.add_0_r in Hr. rewrite Hr. left. now left.
      * right. exists k, r. split; [exact Hk|].
        replace (row_idx + 1 + Z.of_nat k)%Z with (row_idx + Z.of_nat (S k))%Z by lia.
        exact Hr.
Qed.

Lemma logged_In cols rows : forall row_idx ev,
  In ev (logged float_of_str cols row_idx rows) <->
  exists k row, nth_error rows k = Some row /\
    In ev (fst (process_row float_of_str cols (row_idx + Z.of_nat k) row)).
Proof.
  induction rows as [|row rest IH]; intros row_idx ev; simpl.
  - split; [tauto|]. intros ([|k] & r & Hk & _); discriminate.
  - rewrite in_app_iff, IH. split.
    + intros [H | (k & r & Hk & Hr)].
      * exists 0, row. rewrite Z.add_0_r. now split.
      * exists (S k), r. split; [exact Hk|].
        replace (row_idx + Z.of_nat (S k))%Z with (row_idx + 1 + Z.of_nat k)%Z by lia.
        exact Hr.
    + intros ([|k] & r & Hk & Hr); simpl in Hk.
      * injection Hk as <-. rewrite Z.add_0_r in Hr. now left.
      * right. exists k, r. split; [exact Hk|].
        replace (row_idx + 1 + Z.of_nat k)%Z with (row_idx + Z.of_nat (S k))%Z by lia.
        exact Hr.
Qed.

Lemma get_wip_entries_values name headers data :
  get_wip_entries float_of_str name (Values (headers :: data)) =
  (logged float_of_str (resolve_columns headers) 2 data
     ++ [PrintFound (List.length (emitted float_of_str (resolve_columns headers) 2 data))],
   inl (emitted float_of_str (resolve_columns headers) 2 data)).
Proof. unfold get_wip_entries. rewrite rows_loop_eq. reflexivity. Qed.

Lemma emitted_cons cols row_idx row rest :
  emitted float_of_str cols row_idx (row :: rest) =
  match snd (process_row float_of_str cols row_idx row) with
  | Ok (Emit e) => [e]
  | _ => []
  end ++ emitted float_of_str cols (row_idx + 1) rest.
Proof. reflexivity. Qed.

Lemma logged_cons cols row_idx row rest :
  logged float_of_str cols row_idx (row :: rest) =
  fst (process_row float_of_str cols row_idx row) ++ logged float_of_str cols (row_idx + 1) rest.
Proof. reflexivity. Qed.

Lemma emitted_app cols a : forall row_idx b,
  emitted float_of_str cols row_idx (a ++ b) =
  emitted float_of_str cols row_idx a ++ emitted float_of_str cols (row_idx + Z.of_nat (List.length a)) b.
Proof.
  induction a as [|row rest IH]; intros row_idx b; simpl.
  - now rewrite Z.add_0_r.
  - rewrite IH, <- app_assoc. do 3 f_equal. lia.
Qed.

Lemma logged_app cols a : forall row_idx b,
  logged float_of_str cols row_idx (a ++ b) =
  logged float_of_str cols row_idx a ++ logged float_of_str cols (row_idx + Z.of_nat (List.length a)) b.
Proof.
  induction a as [|row rest IH]; intros row_idx b; simpl.
  - now rewrite Z.add_0_r.
  - rewrite IH, <- app_assoc. do 3 f_equal. lia.
Qed.

Lemma emitted_row_number cols rows row_idx e :
  In e (emitted float_of_str cols row_idx rows) ->
  exists k row, nth_error rows k = Some row /\
    row_number e = Some (row_idx + Z.of_nat k)%Z /\
    snd (process_row float_of_str cols (row_idx + Z.of_nat k) row) = Ok (Emit e).
Proof.
  intros H. apply emitted_In in H. destruct H as (k & row & Hk & Hr).
  exists k, row. split; [exact Hk|]. split; [|exact Hr].
  apply process_row_emit in Hr. destruct Hr as (_ & _ & h & _ & _ & _ & _ & ->).
  reflexivity.
Qed.

Lemma process_row_in_bounds cols row_idx row :
  Forall in_bounds (fst (process_row float_of_str cols row_idx row)).
Proof.
  destruct (Nat.le_gt_cases (List.length row) (max_col cols)) as [H|H].
  - rewrite process_row_short by exact H. constructor.
  - pose proof (max_col_bounds cols) as B.
    rewrite process_row_complete by exact H.
    assert (Hb : Forall in_bounds (body_subscripts cols row)).
    { unfold body_subscripts. repeat constructor; simpl; lia. }
    destruct (String.eqb (status_of cols row) "WIP").
    + rewrite try_body_complete by exact H.
      destruct (float_of_str (cell row (hours_col cols))).
      * constructor; [simpl; lia | exact Hb].
      * constructor; [simpl; lia|]. apply Forall_app. split; [exact Hb|].
        repeat constructor.
    + repeat constructor. simpl. lia.
Qed.

Lemma process_row_no_row_error cols row_idx row i e :
  ~ In (PrintRowError i e) (fst (process_row float_of_str cols row_idx row)).
Proof.
  destruct (Nat.le_gt_cases (List.length row) (max_col cols)) as [H|H].
  - rewrite process_row_short by exact H. simpl. tauto.
  - rewrite process_row_complete by exact H.
    assert (Hb : ~ In (PrintRowError i e) (body_subscripts cols row)).
    { unfold body_subscripts. simpl. intuition discriminate. }
    destruct (String.eqb (status_of cols row) "WIP").
    + rewrite try_body_complete by exact H.
      destruct (float_of_str (cell row (hours_col cols))).
      * intros [Hd|Hi]; [discriminate | exact (Hb Hi)].
      * intros [Hd|Hi]; [discriminate|]. apply in_app_iff in Hi.
        destruct Hi as [Hi|[Hi|[]]]; [exact (Hb Hi) | discriminate].
    + simpl. intuition discriminate.
Qed.

(** C2. Rows whose trimmed, upper-cased status cell is not WIP are left out
    of the output, whatever their other cells hold: every emitted entry
    carries the number of a row whose status is WIP, and no emitted entry
    carries the number of a row whose status differs. *)
Theorem non_wip_rows_excluded (name : string) (headers : list string)
        (data : list (list string)) :
  let cols := resolve_columns headers in
  exists log entries,
    get_wip_entries float_of_str name (Values (headers :: data)) = (log, inl entries) /\
    (forall e, In e entries ->
       exists k row, nth_error data k = Some row /\
                     row_number e = Some (2 + Z.of_nat k)%Z /\
                     status_of cols row = "WIP") /\
    (forall k row, nth_error data k = Some row ->
       status_of cols row <> "WIP" ->
       snd (process_row float_of_str cols (2 + Z.of_nat k) row) = Ok Skip /\
       forall e, In e entries -> row_number e <> Some (2 + Z.of_nat k)%Z).
Proof.
  intro cols. rewrite get_wip_entries_values. fold cols.
  eexists. eexists. split; [reflexivity|].
  assert (Hsrc : forall e, In e (emitted float_of_str cols 2 data) ->
            exists k row, nth_error data k = Some row /\
                          row_number e = Some (2 + Z.of_nat k)%Z /\
                          status_of cols row = "WIP").
  { intros e He. destruct (emitted_row_number _ _ _ _ He) as (k & row & Hk & Hn & Hr).
    exists k, row. repeat split; auto.
    apply process_row_emit in Hr. tauto. }
  split; [exact Hsrc|].
  intros k row Hk Hst. split.
  - destruct (process_row_ok cols (2 + Z.of_nat k) row) as (l & o & E).
    rewrite E. simpl. destruct o as [|e]; [reflexivity|].
    exfalso. apply Hst.
    assert (Hr : snd (process_row float_of_str cols (2 + Z.of_nat k) row) = Ok (Emit e))
      by now rewrite E.
    apply process_row_emit in Hr. tauto.
  - intros e He Hn. destruct (Hsrc e He) as (k' & row' & Hk' & Hn' & Hs').
    assert (Hkk : (2 + Z.of_nat k = 2 + Z.of_nat k')%Z) by congruence.
    assert (k' = k) by lia. subst k'. rewrite Hk in Hk'. injection Hk' as <-.
    contradiction.
Qed.

(** C5. The extractor never reads a row past its end: every subscript it
    evaluates is below the length of the row, no row ends in the handler of
    an exception, no exception leaves the scan, and a row no longer than the
    largest resolved column index is skipped without being read. *)
Theorem row_access_in_bounds (name : string) (sheet : fetched) :
  let run := get_wip_entries float_of_str name sheet in
  Forall in_bounds (fst run) /\
  (forall i e, ~ In (PrintRowError i e) (fst run)) /\
  (forall e, snd run <> inr (ErrReadingExn e)) /\
  (forall cols row_idx row,
      List.length row <= max_col cols ->
      process_row float_of_str cols row_idx row = ([], Ok Skip)).
Proof.
  intro run. subst run.
  assert (Hlog : forall cols rows idx, Forall in_bounds (logged float_of_str cols idx rows)).
  { intros cols rows. induction rows as [|row rest IH]; intros idx; simpl.
    - constructor.
    - apply Forall_app. split; [apply process_row_in_bounds | apply IH]. }
  assert (Herr : forall cols rows idx i e, ~ In (PrintRowError i e) (logged float_of_str cols idx rows)).
  { intros cols rows idx i e H. apply logged_In in H.
    destruct H as (k & row & _ & H). exact (process_row_no_row_error _ _ _ _ _ H). }
  destruct sheet as [| cause | [|headers data]]; simpl.
  1-3: repeat split; try constructor; try tauto; try discriminate;
       intros; now apply process_row_short.
  rewrite rows_loop_eq. simpl. repeat split.
  - apply Forall_app. split; [apply Hlog | repeat constructor].
  - intros i e H. apply in_app_iff in H. destruct H as [H|[H|[]]];
      [exact (Herr _ _ _ _ _ H) | discriminate].
  - discriminate.
  - intros. now apply process_row_short.
Qed.

(** C6. A complete WIP row whose hours do not parse is dropped with one
    warning and the scan goes on: the entries are those of the rows before
    and after it; and the extraction as a whole fails exactly when the
    worksheet is not found or the fetch fails. *)
Theorem unparsable_hours_skipped (name : string) (headers : list string)
        (before : list (list string)) (row : list string)
        (after : list (list string)) :
  let cols := resolve_columns headers in
  let row_idx := (2 + Z.of_nat (List.length before))%Z in
  max_col cols < List.length row ->
  status_of cols row = "WIP" ->
  float_of_str (cell row (hours_col cols)) = None ->
  (exists log entries,
     get_wip_entries float_of_str name (Values (headers :: before ++ row :: after))
       = (log, inl entries) /\
     entries = emitted float_of_str cols 2 before ++ emitted float_of_str cols (row_idx + 1) after /\
     In (PrintInvalidHours (cell row (hours_col cols)) row_idx) log /\
     (forall e, In e entries -> row_number e <> Some row_idx)) /\
  (forall sheet,
     (exists err, snd (get_wip_entries float_of_str name sheet) = inr err) <->
     (sheet = WorksheetNotFound \/ exists cause, sheet = FetchFailed cause)).
Proof.
  intros cols row_idx Hlen Hst Hparse. split.
  - rewrite get_wip_entries_values. fold cols.
    assert (Hrow : process_row float_of_str cols row_idx row =
                   (Subscript (List.length row) (paid_col cols)
                      :: body_subscripts cols row
                      ++ [PrintInvalidHours (cell row (hours_col cols)) row_idx],
                    Ok Skip)).
    { rewrite process_row_complete by exact Hlen. rewrite Hst. simpl.
      rewrite try_body_complete by exact Hlen. now rewrite Hparse. }
    eexists. eexists. split; [reflexivity|].
    rewrite emitted_app, logged_app. fold row_idx.
    rewrite emitted_cons, logged_cons.
    rewrite Hrow. cbn [fst snd app].
    split; [reflexivity|]. split.
    + apply in_or_app; left. apply in_or_app; right. apply in_cons.
      apply in_or_app; left. apply in_or_app; right. apply in_eq.
    + intros e He Hn. apply in_app_iff in He. destruct He as [He|He];
        apply emitted_row_number in He; destruct He as (k & r & Hk & Hn' & _).
      * assert (Hkk : row_idx = (2 + Z.of_nat k)%Z) by congruence.
        assert (k < List.length before) by (apply nth_error_Some; congruence).
        unfold row_idx in Hkk. lia.
      * assert (Hkk : row_idx = (row_idx + 1 + Z.of_nat k)%Z) by congruence.
        lia.
  - intros sheet. split.
    + intros [err H]. destruct sheet as [| cause | [|h d]]; simpl in H.
      * now left.
      * right. now exists cause.
      * discriminate.
      * rewrite rows_loop_eq in H. discriminate.
    + intros [-> | [cause ->]]; simpl; eauto.
Qed.

(** C10. Every emitted entry has a non-empty trimmed date, and a row whose
    trimmed date cell is empty is left out even when its status is WIP, its
    hours are positive and its description is not empty. *)
Theorem empty_date_rows_excluded (name : string) (headers : list string)
        (data : list (list string)) :
  let cols := resolve_columns headers in
  exists log entries,
    get_wip_entries float_of_str name (Values (headers :: data)) = (log, inl entries) /\
    (forall e, In e entries ->
       date e <> EmptyString /\
       exists k row, nth_error data k = Some row /\
                     row_number e = Some (2 + Z.of_nat k)%Z /\
                     date e = cell row (date_col cols)) /\
    (forall k row, nth_error data k = Some row ->
       cell row (date_col cols) = EmptyString ->
       snd (process_row float_of_str cols (2 + Z.of_nat k) row) = Ok Skip /\
       forall e, In e entries -> row_number e <> Some (2 + Z.of_nat k)%Z).
Proof.
  intro cols. rewrite get_wip_entries_values. fold cols.
  eexists. eexists. split; [reflexivity|].
  assert (Hsrc : forall e, In e (emitted float_of_str cols 2 data) ->
            date e <> EmptyString /\
            exists k row, nth_error data k = Some row /\
                          row_number e = Some (2 + Z.of_nat k)%Z /\
                          date e = cell row (date_col cols)).
  { intros e He. destruct (emitted_row_number _ _ _ _ He) as (k & row & Hk & Hn & Hr).
    apply process_row_emit in Hr.
    destruct Hr as (_ & _ & h & _ & _ & Hd & _ & ->). simpl.
    split; [exact Hd|]. exists k, row. repeat split; auto. }
  split; [exact Hsrc|].
  intros k row Hk Hd. split.
  - destruct (process_row_ok cols (2 + Z.of_nat k) row) as (l & o & E).
    rewrite E. simpl. destruct o as [|e]; [reflexivity|].
    exfalso.
    assert (Hr : snd (process_row float_of_str cols (2 + Z.of_nat k) row) = Ok (Emit e))
      by now rewrite E.
    apply process_row_emit in Hr. destruct Hr as (_ & _ & h & _ & _ & Hd' & _).
    contradiction.
  - intros e He Hn. destruct (Hsrc e He) as (Hne & k' & row' & Hk' & Hn' & Hd').
    assert (Hkk : (2 + Z.of_nat k = 2 + Z.of_nat k')%Z) by congruence.
    assert (k' = k) by lia. subst k'. rewrite Hk in Hk'. injection Hk' as <-.
    congruence.
Qed.

(** What does hold of the rows the extractor emits (C7, first half): the
    parsed hours are not [<= 0] and the trimmed description is not empty;
    a row whose hours are [<= 0] or whose description is empty is skipped. *)
Lemma emitted_hours_and_description cols row_idx row :
  (forall e, snd (process_row float_of_str cols row_idx row) = Ok (Emit e) ->
     exists h, hours e = PyFloat h /\ f_leb h f_zero = false /\
               description e <> EmptyString) /\
  (forall h, float_of_str (cell row (hours_col cols)) = Some h ->
     f_leb h f_zero = true \/ cell row (task_col cols) = EmptyString ->
     snd (process_row float_of_str cols row_idx row) = Ok Skip).
Proof.
  split.
  - intros e He. apply process_row_emit in He.
    destruct He as (_ & _ & h & _ & Hle & _ & Hd & ->). exists h. auto.
  - intros h Hh Hbad.
    destruct (process_row_ok cols row_idx row) as (l & o & E).
    rewrite E. simpl. destruct o as [|e]; [reflexivity|]. exfalso.
    assert (He : snd (process_row float_of_str cols row_idx row) = Ok (Emit e))
      by now rewrite E.
    apply process_row_emit in He.
    destruct He as (_ & _ & h' & Hh' & Hle & _ & Hd & _).
    rewrite Hh in Hh'. injection Hh' as <-.
    destruct Hbad; congruence.
Qed.

End Rows.

(** ** The invoice aggregator *)

Lemma lex_le_refl s : lex_le s s.
Proof. induction s; constructor; assumption. Qed.

Lemma lex_le_trans x y z : lex_le x y -> lex_le y z -> lex_le x z.
Proof.
  intros Hxy. revert z. induction Hxy; intros z Hyz; rename Hyz into Hbc.
  - constructor.
  - inversion Hbc; subst.
    + apply lex_le_char. lia.
    + now apply lex_le_char.
  - inversion Hbc; subst.
    + now apply lex_le_char.
    + apply lex_le_tail. auto.
Qed.

Lemma compare_lex a : forall b,
  match String.compare a b with
  | Gt => lex_le b a
  | _ => lex_le a b
  end.
Proof.
  induction a as [|c1 a IH]; intros [|c2 b]; simpl; try constructor.
  unfold Ascii.compare. destruct (N.compare_spec (N_of_ascii c1) (N_of_ascii c2)) as [E|L|G].
  - assert (c1 = c2) by (rewrite <- (ascii_N_embedding c1), <- (ascii_N_embedding c2); now f_equal).
    subst c2. specialize (IH b). destruct (String.compare a b); now apply lex_le_tail.
  - now apply lex_le_char.
  - now apply lex_le_char.
Qed.

Lemma max_step_upper best x :
  let m := if String.ltb best x then x else best in
  lex_le best m /\ lex_le x m /\ (m = best \/ m = x).
Proof.
  unfold String.ltb. pose proof (compare_lex best x) as H.
  destruct (String.compare best x) eqn:E; simpl.
  - apply String.compare_eq_iff in E. subst. auto using lex_le_refl.
  - auto using lex_le_refl.
  - auto using lex_le_refl.
Qed.

Lemma max_from_spec xs : forall best,
  let m := max_from best xs in
  (m = best \/ In m xs) /\ lex_le best m /\ forall x, In x xs -> lex_le x m.
Proof.
  induction xs as [|x r IH]; intros best; simpl.
  - split; [now left|]. split; [apply lex_le_refl | tauto].
  - destruct (max_step_upper best x) as (Hb & Hx & Hm).
    destruct (IH (if String.ltb best x then x else best)) as (Hin & Hle & Hall).
    split; [|split].
    + destruct Hin as [Hin|Hin]; [|auto]. rewrite Hin.
      destruct Hm as [->| ->]; auto.
    + eapply lex_le_trans; eauto.
    + intros y [<-|Hy]; [eapply lex_le_trans; eauto | auto].
Qed.

Lemma py_max_spec x r : exists m, py_max (x :: r) = Some m /\ lex_max m (x :: r).
Proof.
  exists (max_from x r). split; [reflexivity|].
  destruct (max_from_spec r x) as (Hin & Hle & Hall). split.
  - simpl. destruct Hin as [->|Hin]; auto.
  - intros y [<-|Hy]; auto.
Qed.

Lemma sum_from_ints zs : forall a,
  sum_from (PyInt a) (map PyInt zs) = Some (PyInt (a + Z_sum zs)).
Proof.
  induction zs as [|z r IH]; intros a; simpl.
  - now rewrite Z.add_0_r.
  - rewrite IH. do 2 f_equal. lia.
Qed.

(** C3. For a non-empty list of entries whose totals can be computed,
    [generate_invoice] returns an invoice whose date is the greatest of the
    entries' date strings in the lexicographic order of code points (and
    not in the order of the calendar: see [max_not_chronological]).  The
    totals can be computed for int hours ([compute_summary_ints]) and for
    float hours ([compute_summary_float_hours]). *)
Theorem invoice_date_is_lexicographic_max
        (cfg : Config) (wip_entries : list WorkEntry) (number : string) (s : Summary) :
  wip_entries <> [] ->
  compute_summary cfg wip_entries = Some s ->
  exists inv, generate_invoice cfg wip_entries number = Ok inv /\
              lex_max (invoice_date inv) (map date wip_entries).
Proof.
  intros Hne Hs. unfold generate_invoice. rewrite Hs.
  destruct wip_entries as [|e r]; [contradiction|].
  destruct (py_max_spec (date e) (map date r)) as (m & Hm & Hmax).
  change (map date (e :: r)) with (date e :: map date r). rewrite Hm.
  eexists. split; [reflexivity | exact Hmax].
Qed.

(** C1, as amended.  For a non-empty list of entries, the summary of the
    invoice holds the sum of the hours, the configured rate and discount,
    their sum as original rate, total hours times rate as subtotal, and the
    subtotal again as balance due, all in Python's arithmetic; when hours,
    rate and discount are ints the invoice exists and these are the exact
    integer sum and products. *)
Theorem generate_invoice_summary
        (cfg : Config) (wip_entries : list WorkEntry) (number : string) :
  wip_entries <> [] ->
  (forall inv, generate_invoice cfg wip_entries number = Ok inv ->
     py_sum (map hours wip_entries) = Some (total_hours (summary inv)) /\
     hourly_rate (summary inv) = cfg_hourly_rate cfg /\
     discount_per_hour (summary inv) = cfg_discount cfg /\
     py_add (cfg_hourly_rate cfg) (cfg_discount cfg) = Some (original_rate (summary inv)) /\
     py_mul (total_hours (summary inv)) (cfg_hourly_rate cfg) = Some (subtotal (summary inv)) /\
     balance_due (summary inv) = subtotal (summary inv)) /\
  (forall zs r d,
     map hours wip_entries = map PyInt zs ->
     cfg_hourly_rate cfg = PyInt r ->
     cfg_discount cfg = PyInt d ->
     exists inv, generate_invoice cfg wip_entries number = Ok inv /\
       summary inv = {| total_hours := PyInt (Z_sum zs);
                        hourly_rate := PyInt r;
                        original_rate := PyInt (r + d);
                        discount_per_hour := PyInt d;
                        subtotal := PyInt (Z_sum zs * r);
                        balance_due := PyInt (Z_sum zs * r) |}).
Proof.
  intros Hne. split.
  - intros inv. unfold generate_invoice, compute_summary.
    destruct (py_sum (map hours wip_entries)) as [total|]; [|discriminate].
    destruct (py_add (cfg_hourly_rate cfg) (cfg_discount cfg)) as [orig|]; [|discriminate].
    destruct (py_mul total (cfg_hourly_rate cfg)) as [sub|] eqn:Emul; [|discriminate].
    destruct (py_max (map date wip_entries)); [|discriminate].
    intros [= <-]. repeat split; try reflexivity. exact Emul.
  - intros zs r d Hz Hr Hd. unfold generate_invoice, compute_summary, py_sum.
    rewrite Hz, sum_from_ints, Hr, Hd. simpl.
    destruct wip_entries as [|e rest]; [contradiction|].
    destruct (py_max_spec (date e) (map date rest)) as (m & Hm & _).
    change (map date (e :: rest)) with (date e :: map date rest). rewrite Hm.
    eexists. split; reflexivity.
Qed.

Lemma sum_from_floats fs : forall f,
  exists g, sum_from (PyFloat f) (map PyFloat fs) = Some (PyFloat g).
Proof.
  induction fs as [|x r IH]; intros f; simpl; eauto.
Qed.

(** The totals exist whenever every hour count is a float and the two
    configured amounts fit a float: float arithmetic raises nothing. *)
Lemma compute_summary_float_hours cfg wip_entries fs :
  map hours wip_entries = map PyFloat fs ->
  as_float (cfg_hourly_rate cfg) <> None ->
  as_float (cfg_discount cfg) <> None ->
  exists s, compute_summary cfg wip_entries = Some s.
Proof.
  intros Hh Hr Hd. unfold compute_summary, py_sum. rewrite Hh.
  assert (Hsum : exists t, sum_from (PyInt 0) (map PyFloat fs) = Some t /\
                           as_float t <> None).
  { destruct fs as [|f r]; simpl.
    - eexists. split; [reflexivity | discriminate].
    - destruct (sum_from_floats r (f_add (S754_zero false) f)) as [g Hg].
      exists (PyFloat g). split; [exact Hg | discriminate]. }
  destruct Hsum as (t & -> & Ht).
  assert (Hadd : exists o, py_add (cfg_hourly_rate cfg) (cfg_discount cfg) = Some o).
  { destruct (cfg_hourly_rate cfg) as [r|r], (cfg_discount cfg) as [d|d];
      unfold py_add, lift2; simpl in *;
      repeat match goal with
             | |- context [float_of_Z ?z] => destruct (float_of_Z z); [|congruence]
             end; eauto. }
  assert (Hmul : exists m, py_mul t (cfg_hourly_rate cfg) = Some m).
  { destruct t as [a|a], (cfg_hourly_rate cfg) as [r|r];
      unfold py_mul, lift2; simpl in *;
      repeat match goal with
             | |- context [float_of_Z ?z] => destruct (float_of_Z z); [|congruence]
             end; eauto. }
  destruct Hadd as [o ->], Hmul as [m ->]. eauto.
Qed.

(** The totals exist whenever hours and configured amounts are ints. *)
Lemma compute_summary_ints cfg wip_entries zs r d :
  map hours wip_entries = map PyInt zs ->
  cfg_hourly_rate cfg = PyInt r ->
  cfg_discount cfg = PyInt d ->
  exists s, compute_summary cfg wip_entries = Some s.
Proof.
  intros Hh Hr Hd. unfold compute_summary, py_sum.
  rewrite Hh, sum_from_ints, Hr, Hd. simpl. eauto.
Qed.

(** C1, counterexample: with the float hours 0.1 and 0.2 the total is the
    float 0.30000000000000004, which is not the exact sum of the two. *)
Lemma float_hours_sum_is_rounded :
  exists inv t q,
    generate_invoice sample_config
      [float_entry "6/4/25" "0.1"; float_entry "6/5/25" "0.2"] "NES01-5541" = Ok inv /\
    total_hours (summary inv) = PyFloat (S754_finite false 5404319552844596 (-54)) /\
    exact_value (total_hours (summary inv)) = Some t /\
    exact_sum (map hours [float_entry "6/4/25" "0.1"; float_entry "6/5/25" "0.2"])
      = Some q /\
    dyadic_eqb t q = false.
Proof.
  eexists. eexists. eexists.
  split; [vm_compute; reflexivity|].
  split; [vm_compute; reflexivity|].
  split; [vm_compute; reflexivity|].
  split; vm_compute; reflexivity.
Qed.

(** C1, witness: the seven built-in entries at rate 126 and discount 49. *)
Lemma generate_invoice_summary_witness :
  exists inv,
    generate_invoice sample_config get_wip_entries_builtin "NES01-5541" = Ok inv /\
    summary inv = {| total_hours := PyInt 102;
                     hourly_rate := PyInt 126;
                     original_rate := PyInt 175;
                     discount_per_hour := PyInt 49;
                     subtotal := PyInt 12852;
                     balance_due := PyInt 12852 |}.
Proof.
  assert (Hne : get_wip_entries_builtin <> []) by discriminate.
  exact (proj2 (generate_invoice_summary sample_config get_wip_entries_builtin
                  "NES01-5541" Hne)
               [17; 15; 16; 9; 10; 17; 18]%Z 126%Z 49%Z
               eq_refl eq_refl eq_refl).
Defined.

(** C3, witness: the seven built-in entries. *)
Lemma invoice_date_is_lexicographic_max_witness :
  exists inv,
    generate_invoice sample_config get_wip_entries_builtin "NES01-5541" = Ok inv /\
    lex_max (invoice_date inv) (map date get_wip_entries_builtin).
Proof.
  assert (Hne : get_wip_entries_builtin <> []) by discriminate.
  refine (invoice_date_is_lexicographic_max sample_config get_wip_entries_builtin
            "NES01-5541" _ Hne _).
  vm_compute. reflexivity.
Defined.

Example invoice_date_builtin :
  exists inv,
    generate_invoice sample_config get_wip_entries_builtin "NES01-5541" = Ok inv /\
    invoice_date inv = "6/9/25".
Proof. eexists. split; vm_compute; reflexivity. Qed.

Example max_not_chronological : py_max ["6/4/25"; "6/10/25"] = Some "6/4/25".
Proof. reflexivity. Qed.

(** ** The document renderer *)
Lemma prefix_app n b : prefix n (n ++ b)%string = true.
Proof.
  induction n as [|c n IH]; simpl; [now destruct b|].
  destruct (ascii_dec c c); [exact IH | congruence].
Qed.

Lemma prefix_app_l n a b : prefix n a = true -> prefix n (a ++ b)%string = true.
Proof.
  revert a. induction n as [|c n IH]; intros a H; simpl.
  - now destruct (a ++ b)%string.
  - destruct a as [|c' a]; simpl in *; [discriminate|].
    destruct (ascii_dec c c'); [now apply IH | discriminate].
Qed.

Lemma contains_prefix n h : prefix n h = true -> contains n h = true.
Proof. destruct h; simpl; intros ->; reflexivity. Qed.

Lemma contains_here n b : contains n (n ++ b)%string = true.
Proof. apply contains_prefix, prefix_app. Qed.

Lemma contains_cons n c h : contains n h = true -> contains n (String c h) = true.
Proof.
  intros H.
  change (contains n (String c h))
    with (if prefix n (String c h) then true else contains n h).
  rewrite H. now destruct (prefix n (String c h)).
Qed.

Lemma contains_app_r n a b : contains n b = true -> contains n (a ++ b)%string = true.
Proof.
  intros H. induction a as [|c a IH]; [exact H|].
  change (String c a ++ b)%string with (String c (a ++ b)).
  now apply contains_cons.
Qed.

Lemma contains_app_l n a b : contains n a = true -> contains n (a ++ b)%string = true.
Proof.
  induction a as [|c a IH]; intros H.
  - destruct n; [now destruct b | discriminate].
  - change (String c a ++ b)%string with (String c (a ++ b)).
    change (contains n (String c a))
      with (if prefix n (String c a) then true else contains n a) in H.
    destruct (prefix n (String c a)) eqn:E.
    + apply contains_prefix.
      change (String c (a ++ b)) with (String c a ++ b)%string.
      now apply prefix_app_l.
    + apply contains_cons. now apply IH.
Qed.

Lemma contains_concat n sep l x :
  In x l -> contains n x = true -> contains n (String.concat sep l) = true.
Proof.
  intros Hin Hx. induction l as [|y r IH]; [contradiction|].
  destruct Hin as [->|Hin].
  - destruct r; simpl; [exact Hx | now apply contains_app_l].
  - specialize (IH Hin). destruct r as [|z r]; [contradiction|].
    change (String.concat sep (y :: z :: r))
      with (y ++ sep ++ String.concat sep (z :: r))%string.
    now do 2 apply contains_app_r.
Qed.

Lemma no_point_contains s : no_point s -> contains "." s = false.
Proof.
  unfold no_point. induction s as [|c s IH]; intros H; [reflexivity|].
  change (contains "." (String c s))
    with (if prefix "." (String c s) then true else contains "." s).
  simpl in H. rewrite IH by tauto.
  change (prefix "." (String c s))
    with (if ascii_dec "." c then prefix EmptyString s else false).
  destruct (ascii_dec "." c) as [E|E]; [|reflexivity]. exfalso. apply H. now left.
Qed.

Lemma list_ascii_app a b :
  list_ascii_of_string (a ++ b)%string = list_ascii_of_string a ++ list_ascii_of_string b.
Proof. induction a as [|c a IH]; simpl; [reflexivity | now rewrite IH]. Qed.

Lemma no_point_app a b : no_point a -> no_point b -> no_point (a ++ b)%string.
Proof.
  unfold no_point. rewrite list_ascii_app. intros Ha Hb H.
  apply in_app_iff in H. tauto.
Qed.

Lemma uint_no_point d : no_point (NilEmpty.string_of_uint d).
Proof.
  unfold no_point. induction d; simpl; intros H;
    [exact H | ..]; (destruct H as [H|H]; [discriminate | auto]).
Qed.

Lemma str_of_Z_no_point z : no_point (str_of_Z z).
Proof.
  unfold str_of_Z, NilZero.string_of_int, NilZero.string_of_uint.
  assert (H0 : no_point "0") by (unfold no_point; simpl; intuition discriminate).
  assert (Hu : forall d, no_point match d with
                                  | Decimal.Nil => "0"
                                  | _ => NilEmpty.string_of_uint d
                                  end).
  { intros d. pose proof (uint_no_point d). destruct d; auto. }
  destruct (Z.to_int z) as [d|d]; [apply Hu|].
  unfold no_point. simpl. intros [H|H]; [discriminate | exact (Hu d H)].
Qed.

Lemma group_rev_chars l : forall k c,
  In c (group_rev l k) -> c = ","%char \/ In c l.
Proof.
  induction l as [|x r IH]; intros k c; simpl; [tauto|].
  destruct k as [|[|[|[|k]]]]; simpl; intros H;
    repeat match goal with
           | H : _ \/ _ |- _ => destruct H as [H|H]
           end; auto;
    apply IH in H; tauto.
Qed.

Lemma group3_no_point s : no_point s -> no_point (group3 s).
Proof.
  unfold no_point, group3. intros H Hin.
  rewrite list_ascii_of_string_of_list_ascii in Hin.
  apply in_rev in Hin. apply group_rev_chars in Hin.
  destruct Hin as [Hin|Hin]; [discriminate|]. apply in_rev in Hin. auto.
Qed.

Lemma format_float_no_point f : no_point (format_float_comma_0f f).
Proof.
  destruct f as [[]|[]| |s m e]; simpl;
    try (unfold no_point; simpl; intuition discriminate).
  apply no_point_app.
  - destruct s; unfold no_point; simpl; intuition discriminate.
  - apply group3_no_point, str_of_Z_no_point.
Qed.

Lemma format_comma_0f_no_point x s :
  format_comma_0f x = Some s -> contains "." s = false.
Proof.
  unfold format_comma_0f. destruct (as_float x); [|discriminate].
  intros [= <-]. apply no_point_contains, format_float_no_point.
Qed.

(** Thousands separators: read from the right, every three digits are
    followed by a comma whenever more digits remain. *)
Lemma group_rev_thousands a b c rest :
  group_rev [] 0 = [] /\
  group_rev [a] 0 = [a] /\
  group_rev [a; b] 0 = [a; b] /\
  group_rev (a :: b :: c :: rest) 0 =
    a :: b :: c :: match rest with
                   | [] => []
                   | _ :: _ => ","%char :: group_rev rest 0
                   end.
Proof. repeat split. destruct rest; reflexivity. Qed.

Lemma contains_refl n : contains n n = true.
Proof.
  apply contains_prefix. induction n as [|c n IH]; simpl; [reflexivity|].
  destruct (ascii_dec c c); [exact IH | congruence].
Qed.

Ltac in_list := repeat (first [ left; reflexivity | right ]).
Ltac in_line :=
  cbn [append]; repeat (first [ apply contains_refl | apply contains_cons ]).

Lemma rows_keep n es : forall acc,
  contains n acc = true -> contains n (fold_left add_row es acc) = true.
Proof.
  induction es as [|e r IH]; intros acc H; simpl; [exact H|].
  apply IH. unfold add_row. now apply contains_app_l.
Qed.

Lemma rows_contain n es e : forall acc,
  In e es -> contains n (unlines (html_entry_row e)) = true ->
  contains n (fold_left add_row es acc) = true.
Proof.
  induction es as [|x r IH]; intros acc Hin H; [contradiction|]. simpl.
  destruct Hin as [->|Hin]; [|now apply IH].
  apply rows_keep. unfold add_row. now do 2 apply contains_app_r.
Qed.

(** C9, as amended.  When the two amounts can be formatted, the document
    shows subtotal, balance due and the line-item total through [,.0f]
    (grouped by thousands, see [group_rev_thousands], and without a decimal
    point), while the unit price, the discount annotation and all hours
    (total and per entry) are shown through [str], unrounded and
    ungrouped. *)
Theorem html_number_rendering (logo_base64 : string) (inv : Invoice)
        (sub bal : string) :
  format_comma_0f (subtotal (summary inv)) = Some sub ->
  format_comma_0f (balance_due (summary inv)) = Some bal ->
  let s := summary inv in
  exists html,
    generate_html logo_base64 inv = Some html /\
    contains ("<td class=" ++ dq ++ "amount" ++ dq ++ ">$" ++ sub ++ "</td>") html = true /\
    contains ("<td class=" ++ dq ++ "amount" ++ dq ++ ">$" ++ bal ++ "</td>") html = true /\
    contains ("<td>$" ++ bal ++ "</td>") html = true /\
    contains "." sub = false /\ contains "." bal = false /\
    contains ("<td>$" ++ py_str (hourly_rate s) ++ "</td>") html = true /\
    contains ("<td>$" ++ py_str (discount_per_hour s) ++ " / hr off<br>$"
              ++ py_str (original_rate s) ++ " / hr</td>") html = true /\
    contains ("<td>" ++ py_str (total_hours s) ++ "</td>") html = true /\
    (forall e, In e (work_entries inv) ->
               contains ("<td>" ++ py_str (hours e) ++ "</td>") html = true).
Proof.
  intros Hsub Hbal s. unfold generate_html. rewrite Hsub, Hbal.
  eexists. split; [reflexivity|].
  fold add_row.
  assert (Hhead : forall n line,
            In line (html_charges inv bal ++ html_payment inv ++ html_totals sub bal) ->
            contains n line = true ->
            contains n (fold_left add_row (work_entries inv)
                                  (html_head logo_base64 inv sub bal)
                        ++ nl ++ unlines html_close)%string = true).
  { intros n line Hin Hline. apply contains_app_l, rows_keep.
    unfold html_head. apply (contains_concat _ _ _ line); [|exact Hline].
    rewrite !in_app_iff in *. tauto. }
  pose (sp := "                ").
  repeat split.
  - apply (Hhead _ (sp ++ "<td class=" ++ dq ++ "amount" ++ dq ++ ">$" ++ sub ++ "</td>")%string);
      [apply in_or_app; right; apply in_or_app; right; unfold html_totals; in_list
      | in_line].
  - apply (Hhead _ (sp ++ "<td class=" ++ dq ++ "amount" ++ dq ++ ">$" ++ bal ++ "</td>")%string);
      [apply in_or_app; right; apply in_or_app; right; unfold html_totals; in_list
      | in_line].
  - apply (Hhead _ (sp ++ "<td>$" ++ bal ++ "</td>")%string);
      [apply in_or_app; left; unfold html_charges; in_list | in_line].
  - exact (format_comma_0f_no_point _ _ Hsub).
  - exact (format_comma_0f_no_point _ _ Hbal).
  - apply (Hhead _ (sp ++ "<td>$" ++ py_str (hourly_rate s) ++ "</td>")%string);
      [apply in_or_app; left; unfold html_charges; in_list | in_line].
  - apply (Hhead _ (sp ++ "<td>$" ++ py_str (discount_per_hour s) ++ " / hr off<br>$"
                       ++ py_str (original_rate s) ++ " / hr</td>")%string);
      [apply in_or_app; left; unfold html_charges; in_list | in_line].
  - apply (Hhead _ (sp ++ "<td>" ++ py_str (total_hours s) ++ "</td>")%string);
      [apply in_or_app; left; unfold html_charges; in_list | in_line].
  - intros e He. apply contains_app_l. apply (rows_contain _ _ e); [exact He|].
    unfold html_entry_row.
    apply (contains_concat _ _ _ (sp ++ "    <td>" ++ py_str (hours e) ++ "</td>")%string);
      [in_list | in_line].
Qed.

(** ** The status updater *)
Lemma build_requests_rows idx entries : forall rows vu fr,
  map row_number entries = map Some rows ->
  Forall (fun n => n <> 0%Z) rows ->
  build_requests idx entries vu fr =
  (vu ++ map (value_update idx) rows, fr ++ map format_request rows).
Proof.
  induction entries as [|e r IH]; intros rows vu fr Hmap Hnz.
  - destruct rows; [|discriminate]. simpl. now rewrite !app_nil_r.
  - destruct rows as [|n rows]; [discriminate|].
    simpl in Hmap. injection Hmap as He Hr. inversion Hnz; subst.
    simpl. rewrite He. destruct (Z.eqb_spec n 0); [contradiction|].
    rewrite (IH rows) by assumption. now rewrite <- !app_assoc.
Qed.

Lemma chr_column_letter k :
  1 <= k <= 26 -> Some (ascii_of_nat (64 + k)) = column_letter k.
Proof.
  intros H. unfold column_letter.
  do 27 (destruct k as [|k]; [try lia; reflexivity|]). lia.
Qed.

(** The column letter and the A1 address, within and past column Z. *)
Lemma a1_letters_first k : 1 <= k <= 26 -> a1_letters k = chr (64 + k).
Proof.
  intros H. do 27 (destruct k as [|k]; [try lia; reflexivity|]). lia.
Qed.

Lemma length_append a b :
  String.length (a ++ b)%string = String.length a + String.length b.
Proof. induction a as [|c a IH]; simpl; [reflexivity | now rewrite IH]. Qed.

Lemma a1_letters_from_nonempty fuel k :
  1 <= k <= fuel -> 1 <= String.length (a1_letters_from fuel k).
Proof.
  intros H. destruct fuel as [|fuel]; [lia|]. cbn [a1_letters_from].
  destruct (Nat.eqb_spec k 0); [lia|]. rewrite length_append.
  cbn [String.length]. lia.
Qed.

Lemma a1_letters_long k : 26 < k -> 2 <= String.length (a1_letters k).
Proof.
  intros H. unfold a1_letters. destruct k as [|k]; [lia|].
  cbn [a1_letters_from]. destruct (Nat.eqb_spec (S k) 0); [lia|].
  rewrite length_append.
  assert (Hq : 1 <= (S k - 1) / 26 <= k).
  { replace (S k - 1) with k by lia. split.
    - apply Nat.div_le_lower_bound; lia.
    - apply Nat.Div0.div_le_upper_bound. lia. }
  pose proof (a1_letters_from_nonempty k _ Hq) as Hlen.
  cbn [String.length]. lia.
Qed.

Lemma chr_not_a1_address k n :
  26 < k -> range (value_update k n) <> a1_address k n.
Proof.
  intros H E. apply (f_equal String.length) in E.
  unfold value_update, a1_address, chr in E. cbn [range] in E.
  rewrite !length_append in E. pose proof (a1_letters_long k H). simpl in E. lia.
Qed.

Lemma value_update_a1 idx n :
  1 <= idx <= 26 ->
  value_update idx n = {| range := a1_address idx n; values := [["Billed"]] |}.
Proof.
  intros H. unfold value_update, a1_address. now rewrite (a1_letters_first idx H).
Qed.

(** Within the first 26 columns.  When the worksheet is found, its header
    row has a status column, every entry carries a non-zero row number, and
    the value write and the construction of the API service succeed, a run
    performs exactly two remote mutations: first one batched write of Billed
    to one cell per listed row (in the status column, for the first 26
    columns), then one batched formatting request for columns A to G of
    every listed row.  The run reports what the formatting call reports, and
    issues nothing afterwards when it fails. *)
Theorem update_issues_two_batches
        (remote : Remote) (wip_entries : list WorkEntry) (worksheet_name : string)
        (headers : list string) (rows : list Z) :
  worksheet_found remote = true ->
  header_row remote = Some headers ->
  _find_column_index headers ["paid"; "status"] < List.length headers ->
  wip_entries <> [] ->
  map row_number wip_entries = map Some rows ->
  Forall (fun n => n <> 0%Z) rows ->
  batch_update_ok remote = true ->
  build_service_ok remote = true ->
  let status_col_index := _find_column_index headers ["paid"; "status"] + 1 in
  let run := update_wip_to_billed_with_formatting remote wip_entries worksheet_name in
  filter is_mutation (fst run) =
    [BatchUpdate (map (value_update status_col_index) rows);
     SpreadsheetsBatchUpdate (map format_request rows)] /\
  snd run = format_update_ok remote /\
  (forall n, values (value_update status_col_index n) = [["Billed"]] /\
             (status_col_index <= 26 ->
              exists letter, column_letter status_col_index = Some letter /\
                range (value_update status_col_index n)
                  = String letter (str_of_Z n)) /\
             startRowIndex (format_request n) = (n - 1)%Z /\
             endRowIndex (format_request n) = n /\
             startColumnIndex (format_request n) = 0%Z /\
             endColumnIndex (format_request n) = 7%Z /\
             backgroundColor (format_request n) = orange_color).
Proof.
  intros Hws Hhdr Hcol Hne Hrows Hnz Hval Hsvc idx run. subst run.
  unfold update_wip_to_billed_with_formatting.
  rewrite Hws, Hhdr. simpl negb. cbv iota. fold idx.
  destruct (Nat.ltb_spec (List.length headers) idx) as [Hlt|_]; [unfold idx in Hlt; lia|].
  rewrite (build_requests_rows idx wip_entries rows [] []) by assumption.
  simpl app.
  destruct rows as [|n rows]; [destruct wip_entries; [contradiction | discriminate]|].
  unfold send_updates. rewrite Hval, Hsvc. simpl negb. cbv iota.
  change (map (value_update idx) (n :: rows))
    with (value_update idx n :: map (value_update idx) rows).
  change (map format_request (n :: rows))
    with (format_request n :: map format_request rows).
  cbv iota.
  split; [|split].
  - destruct (format_update_ok remote); reflexivity.
  - destruct (format_update_ok remote); reflexivity.
  - intros m. repeat split.
    intros Hle. exists (ascii_of_nat (64 + idx)). split; [|reflexivity].
    symmetry. apply chr_column_letter. unfold idx. lia.
Qed.

(** C8.  The address of the cell to write is built as [chr(64 +
    status_col_index)] followed by the row number, which is the A1 address
    only up to column Z.  When the status column is the 27th or a later
    one (up to the 191st, so that the argument of [chr] stays below 256)
    and every call succeeds, a run answers True and issues its two
    batches, yet no cell it writes Billed to is the status cell of its row:
    the range of every value update differs from the A1 address of the
    status column and that row. *)
Theorem billed_written_outside_status_column
        (remote : Remote) (wip_entries : list WorkEntry) (worksheet_name : string)
        (headers : list string) (rows : list Z) :
  worksheet_found remote = true ->
  header_row remote = Some headers ->
  _find_column_index headers ["paid"; "status"] < List.length headers ->
  26 <= _find_column_index headers ["paid"; "status"] <= 190 ->
  wip_entries <> [] ->
  map row_number wip_entries = map Some rows ->
  Forall (fun n => n <> 0%Z) rows ->
  batch_update_ok remote = true ->
  build_service_ok remote = true ->
  format_update_ok remote = true ->
  let status_col_index := _find_column_index headers ["paid"; "status"] + 1 in
  let run := update_wip_to_billed_with_formatting remote wip_entries worksheet_name in
  snd run = true /\
  filter is_mutation (fst run) =
    [BatchUpdate (map (value_update status_col_index) rows);
     SpreadsheetsBatchUpdate (map format_request rows)] /\
  rows <> [] /\
  forall n, In n rows ->
    values (value_update status_col_index n) = [["Billed"]] /\
    range (value_update status_col_index n) <> a1_address status_col_index n.
Proof.
  intros Hws Hhdr Hcol Hwide Hne Hrows Hnz Hval Hsvc Hfmt idx run. subst run.
  unfold update_wip_to_billed_with_formatting.
  rewrite Hws, Hhdr. simpl negb. cbv iota. fold idx.
  destruct (Nat.ltb_spec (List.length headers) idx) as [Hlt|_]; [unfold idx in Hlt; lia|].
  rewrite (build_requests_rows idx wip_entries rows [] []) by assumption.
  simpl app.
  destruct rows as [|n rows]; [destruct wip_entries; [contradiction | discriminate]|].
  unfold send_updates. rewrite Hval, Hsvc, Hfmt. simpl negb. cbv iota.
  change (map (value_update idx) (n :: rows))
    with (value_update idx n :: map (value_update idx) rows).
  change (map format_request (n :: rows))
    with (format_request n :: map format_request rows).
  cbv iota.
  split; [reflexivity|]. split; [reflexivity|]. split; [discriminate|].
  intros m _. split; [reflexivity|]. apply chr_not_a1_address. unfold idx. lia.
Qed.

(** Without a status column in the header row a run stops after the two
    reads. *)
Lemma update_without_status_column remote wip_entries worksheet_name headers :
  worksheet_found remote = true ->
  header_row remote = Some headers ->
  _find_column_index headers ["paid"; "status"] = List.length headers ->
  update_wip_to_billed_with_formatting remote wip_entries worksheet_name =
  ([GetWorksheet worksheet_name; RowValues 1; PrintNoStatusColumn], false).
Proof.
  intros Hws Hhdr Hcol. unfold update_wip_to_billed_with_formatting.
  rewrite Hws, Hhdr, Hcol. simpl negb. cbv iota.
  destruct (Nat.ltb_spec (List.length headers) (List.length headers + 1)); [reflexivity | lia].
Qed.

(** ** Worked examples on a seven-column sheet *)

Example billed_row_not_returned :
  get_wip_entries py_float "Sheet1"
    (Values [sample_headers;
             sample_row "6/4/25" "17" "Billed";
             sample_row "6/5/25" "17" " wip "])
  = ([Subscript 7 6;
      Subscript 7 6; Subscript 7 0; Subscript 7 1; Subscript 7 2;
      Subscript 7 3; Subscript 7 4; Subscript 7 5;
      PrintFound 1],
     inl [sample_entry_of "6/5/25" seventeen 3]).
Proof. vm_compute. reflexivity. Qed.

(** C6, witness: the middle row of three has the hours abc. *)
Lemma unparsable_hours_skipped_witness :
  exists log,
    get_wip_entries py_float "Sheet1"
      (Values [sample_headers;
               sample_row "6/4/25" "17" "WIP";
               sample_row "6/5/25" "abc" "WIP";
               sample_row "6/6/25" "17" "WIP"])
    = (log, inl [sample_entry_of "6/4/25" seventeen 2;
                 sample_entry_of "6/6/25" seventeen 4]) /\
    In (PrintInvalidHours "abc" 3) log.
Proof.
  destruct (unparsable_hours_skipped py_float "Sheet1" sample_headers
              [sample_row "6/4/25" "17" "WIP"]
              (sample_row "6/5/25" "abc" "WIP")
              [sample_row "6/6/25" "17" "WIP"])
    as [(log & entries & Hrun & Hentries & Hwarn & _) _].
  - vm_compute. lia.
  - vm_compute. reflexivity.
  - vm_compute. reflexivity.
  - exists log. split; [|exact Hwarn].
    rewrite Hentries in Hrun. exact Hrun.
Defined.

(** C7, at the failing input: a WIP row whose hours cell reads nan. *)
Lemma nan_hours_row_emitted :
  snd (get_wip_entries py_float "Sheet1"
         (Values [sample_headers; sample_row "6/4/25" "nan" "WIP"]))
  = inl [sample_entry_of "6/4/25" S754_nan 2] /\
  f_leb S754_nan f_zero = false /\
  f_ltb f_zero S754_nan = false.
Proof. vm_compute. repeat split. Qed.

(** ** The renderer on the built-in sample data *)

Example sample_invoice_generated :
  generate_invoice sample_config get_wip_entries_builtin "NES01-5541"
  = Ok sample_invoice.
Proof. vm_compute. reflexivity. Qed.

(** C9, witness: the invoice of the built-in entries. *)
Lemma html_number_rendering_witness :
  exists html,
    generate_html "LOGO" sample_invoice = Some html /\
    contains ("<td class=" ++ dq ++ "amount" ++ dq ++ ">$12,852</td>") html = true /\
    contains "<td>$126</td>" html = true /\
    contains "<td>102</td>" html = true.
Proof.
  destruct (html_number_rendering "LOGO" sample_invoice "12,852" "12,852"
              eq_refl eq_refl)
    as (html & Hgen & Hsub & _ & _ & _ & _ & Hrate & _ & Hhours & _).
  exists html. repeat split; assumption.
Defined.

(** C9, counterexample: the unit price 1500 and the original rate 1549 are
    rendered without a thousands separator, next to a grouped subtotal. *)
Lemma unit_price_without_separator :
  exists inv html,
    generate_invoice config_1500 get_wip_entries_builtin "NES01-5541" = Ok inv /\
    generate_html "LOGO" inv = Some html /\
    contains "<td>$1500</td>" html = true /\
    contains "<td>$49 / hr off<br>$1549 / hr</td>" html = true /\
    contains "$1,500" html = false /\
    contains "$1,549" html = false /\
    contains ">$153,000</td>" html = true.
Proof.
  eexists. eexists.
  split; [vm_compute; reflexivity|].
  split; [vm_compute; reflexivity|].
  repeat split; vm_compute; reflexivity.
Qed.

Example fractional_rate_keeps_decimals :
  py_str (PyFloat (float_of_decimal false 1265 (-1))) = "126.5" /\
  format_comma_0f (PyFloat (float_of_decimal false 1265 (-1))) = Some "126" /\
  format_comma_0f (PyFloat (float_of_decimal false 12345675 (-1))) = Some "1,234,568".
Proof. vm_compute. repeat split. Qed.

(** ** The updater on a sheet with and without a status column *)

(** Without a status column, on a header row of three cells: no remote
    mutation at all. *)
Lemma no_status_column_no_mutation :
  update_wip_to_billed_with_formatting
    (remote_ok ["Date"; "Hours"; "Task"] true) billed_entries "Sheet1"
  = ([GetWorksheet "Sheet1"; RowValues 1; PrintNoStatusColumn], false) /\
  filter is_mutation
    (fst (update_wip_to_billed_with_formatting
            (remote_ok ["Date"; "Hours"; "Task"] true) billed_entries "Sheet1"))
  = [].
Proof. vm_compute. split; reflexivity. Qed.

(** Two rows on the seven-column sheet, with a formatting call that fails. *)
Lemma update_issues_two_batches_witness :
  filter is_mutation
    (fst (update_wip_to_billed_with_formatting
            (remote_ok sample_headers false) billed_entries "Sheet1"))
  = [BatchUpdate [ {| range := "G2"; values := [["Billed"]] |};
                   {| range := "G4"; values := [["Billed"]] |} ];
     SpreadsheetsBatchUpdate [format_request 2; format_request 4]] /\
  snd (update_wip_to_billed_with_formatting
         (remote_ok sample_headers false) billed_entries "Sheet1") = false.
Proof.
  destruct (update_issues_two_batches (remote_ok sample_headers false)
              billed_entries "Sheet1" sample_headers [2; 4]%Z)
    as (Hcalls & Hret & _).
  - reflexivity.
  - reflexivity.
  - vm_compute. lia.
  - discriminate.
  - reflexivity.
  - repeat constructor; discriminate.
  - reflexivity.
  - reflexivity.
  - split; [exact Hcalls | exact Hret].
Defined.

(** With the status column in the 33rd place the letter is a lower-case a. *)
Example status_column_33_range :
  range (value_update 33 2) = "a2" /\ a1_address 33 2 = "AG2".
Proof. split; reflexivity. Qed.

(** C8, at the failing input: the status column is the 27th, AA; Billed
    is written to the range [2, and the run answers True. *)
Lemma billed_written_outside_status_column_witness :
  snd (update_wip_to_billed_with_formatting (remote_ok wide_headers true)
         [sample_entry_of "6/4/25" seventeen 2] "Sheet1") = true /\
  filter is_mutation
    (fst (update_wip_to_billed_with_formatting (remote_ok wide_headers true)
            [sample_entry_of "6/4/25" seventeen 2] "Sheet1")) =
    [BatchUpdate [ {| range := "[2"; values := [["Billed"]] |} ];
     SpreadsheetsBatchUpdate [format_request 2]] /\
  a1_address 27 2 = "AA2" /\
  range (value_update 27 2) <> a1_address 27 2.
Proof.
  destruct (billed_written_outside_status_column (remote_ok wide_headers true)
              [sample_entry_of "6/4/25" seventeen 2] "Sheet1" wide_headers [2%Z])
    as (Hret & Hcalls & _ & Hcell).
  - reflexivity.
  - reflexivity.
  - vm_compute. lia.
  - vm_compute. lia.
  - discriminate.
  - reflexivity.
  - repeat constructor; discriminate.
  - reflexivity.
  - reflexivity.
  - reflexivity.
  - split; [exact Hret|]. split; [exact Hcalls|]. split; [reflexivity|].
    exact (proj2 (Hcell 2%Z (or_introl eq_refl))).
Defined.

(* ================================================================= *)
(** * Further properties of the code *)
(* ================================================================= *)

(** ** The column resolver, on keys *)

Lemma find_loop_keys hl : forall names names' len,
  map header_key names = map header_key names' ->
  find_loop hl names len = find_loop hl names' len.
Proof.
  induction names as [|n r IH]; intros [|n' r'] len H; try discriminate; [reflexivity|].
  simpl in H. injection H as Hn Hr. simpl.
  unfold header_key in Hn. rewrite <- !strip_lower in Hn. rewrite Hn.
  destruct (list_in (strip (lower n')) hl); [reflexivity | now apply IH].
Qed.

(** X1. [_find_column_index] sees headers and aliases through their keys
    only (trimmed, compared without case): two header rows with the same
    keys and two alias lists with the same keys resolve to the same index. *)
Theorem find_column_index_key_invariant
        (headers headers' possible_names possible_names' : list string) :
  map header_key headers = map header_key headers' ->
  map header_key possible_names = map header_key possible_names' ->
  _find_column_index headers possible_names =
  _find_column_index headers' possible_names'.
Proof.
  intros Hh Hn. unfold _find_column_index.
  assert (Hk : forall l, map (fun h => strip (lower h)) l = map header_key l).
  { intros l. apply map_ext. intros h. apply strip_lower. }
  rewrite !Hk, <- Hh.
  replace (List.length headers') with (List.length headers).
  - now apply find_loop_keys.
  - rewrite <- (length_map header_key headers), Hh. apply length_map.
Qed.

(** X1, witness: two spellings of the same headers and aliases. *)
Lemma find_column_index_key_invariant_witness :
  _find_column_index ["Date"; " STATUS "] ["Paid"; "status "] =
  _find_column_index ["date"; "status"] ["paid"; "Status"].
Proof.
  apply find_column_index_key_invariant; reflexivity.
Defined.

(** ** The entries of the extractor *)

Lemma lstrip_clean s :
  match s with
  | EmptyString => True
  | String c _ => is_space c = false
  end -> lstrip s = s.
Proof. destruct s as [|c r]; simpl; [reflexivity|]. now intros ->. Qed.

Lemma lstrip_starts s :
  match lstrip s with
  | EmptyString => True
  | String c _ => is_space c = false
  end.
Proof.
  induction s as [|c r IH]; simpl; [exact I|].
  destruct (is_space c) eqn:E; [exact IH | exact E].
Qed.

Lemma rstrip_starts s :
  match s with
  | EmptyString => True
  | String c _ => is_space c = false
  end ->
  match rstrip s with
  | EmptyString => True
  | String c _ => is_space c = false
  end.
Proof.
  destruct s as [|c r]; simpl; [trivial|]. intros E.
  destruct (rstrip r); [rewrite E|]; exact E.
Qed.

Lemma rstrip_idem s : rstrip (rstrip s) = rstrip s.
Proof.
  induction s as [|c r IH]; simpl; [reflexivity|].
  destruct (rstrip r) as [|c' r'] eqn:E.
  - destruct (is_space c) eqn:Ec; simpl; [reflexivity | now rewrite Ec].
  - change (rstrip (String c (String c' r')))
      with (match rstrip (String c' r') with
            | EmptyString => if is_space c then EmptyString else String c EmptyString
            | x => String c x
            end).
    rewrite IH. reflexivity.
Qed.

Lemma strip_trimmed s : trimmed (strip s).
Proof.
  unfold trimmed, strip.
  rewrite (lstrip_clean (rstrip (lstrip s))) by apply rstrip_starts, lstrip_starts.
  apply rstrip_idem.
Qed.

Lemma cell_trimmed row col : trimmed (cell row col).
Proof. apply strip_trimmed. Qed.

Section RowsMore.

Variable float_of_str : string -> option float.

Lemma sorted_shift ks :
  StronglySorted lt ks -> StronglySorted lt (map S ks).
Proof.
  induction 1 as [|k ks Hs IH Hall]; simpl; constructor; [exact IH|].
  rewrite Forall_map. eapply Forall_impl; [|exact Hall]. simpl. intros; lia.
Qed.

(** The rows that yield an entry, by position: the entries carry their row
    numbers, in increasing order. *)
Lemma emitted_positions cols rows : forall row_idx,
  exists ks,
    StronglySorted lt ks /\
    Forall2 (fun e k =>
               row_number e = Some (row_idx + Z.of_nat k)%Z /\
               exists row, nth_error rows k = Some row /\
                 snd (process_row float_of_str cols (row_idx + Z.of_nat k) row)
                 = Ok (Emit e))
            (emitted float_of_str cols row_idx rows) ks.
Proof.
  induction rows as [|row rest IH]; intros row_idx.
  - exists []. split; constructor.
  - destruct (IH (row_idx + 1)%Z) as (ks & Hs & Hall).
    assert (Hshift : Forall2 (fun e k =>
               row_number e = Some (row_idx + Z.of_nat k)%Z /\
               exists r, nth_error (row :: rest) k = Some r /\
                 snd (process_row float_of_str cols (row_idx + Z.of_nat k) r)
                 = Ok (Emit e))
            (emitted float_of_str cols (row_idx + 1) rest) (map S ks)).
    { clear Hs. induction Hall as [|e k es ks' (Hn & r & Hr & He) _ IH']; simpl;
        constructor; [|exact IH'].
      replace (row_idx + Z.of_nat (S k))%Z with (row_idx + 1 + Z.of_nat k)%Z by lia.
      split; [exact Hn|]. exists r. split; [exact Hr | exact He]. }
    rewrite emitted_cons.
    destruct (snd (process_row float_of_str cols row_idx row)) as [[|e]|x] eqn:E.
    + exists (map S ks). split; [now apply sorted_shift | exact Hshift].
    + exists (0 :: map S ks). split.
      * constructor; [now apply sorted_shift|]. rewrite Forall_map.
        apply Forall_forall. intros; lia.
      * constructor; [|exact Hshift]. rewrite Z.add_0_r.
        assert (He := E). apply process_row_emit in He.
        destruct He as (_ & _ & h & _ & _ & _ & _ & ->).
        split; [reflexivity|]. exists row. split; [reflexivity | exact E].
    + exists (map S ks). split; [now apply sorted_shift | exact Hshift].
Qed.

(** X2. The entries come out in the order of the sheet, at most one per
    row: their row numbers are those of data rows at strictly increasing
    positions, each from 2 up to the number of rows of the sheet. *)
Theorem row_numbers_increasing (name : string) (headers : list string)
        (data : list (list string)) :
  exists log entries ks,
    get_wip_entries float_of_str name (Values (headers :: data)) = (log, inl entries) /\
    map row_number entries = map (fun k => Some (row_of k)) ks /\
    StronglySorted lt ks /\
    Forall (fun k => k < List.length data) ks.
Proof.
  rewrite get_wip_entries_values.
  destruct (emitted_positions (resolve_columns headers) data 2) as (ks & Hs & Hall).
  eexists. eexists. exists ks. split; [reflexivity|]. split; [|split; [exact Hs|]].
  - clear Hs. induction Hall as [|e k es ks' (Hn & _) _ IH]; simpl; [reflexivity|].
    now rewrite Hn, IH.
  - clear Hs. induction Hall as [|e k es ks' (_ & r & Hr & _) _ IH]; constructor; [|exact IH].
    apply nth_error_Some. congruence.
Qed.

(** X3. A warning about invalid hours is printed only for a complete row
    of status WIP whose trimmed hours cell [float] rejects; it carries that
    cell's text and that row's number. *)
Theorem invalid_hours_warning_sound (name : string) (headers : list string)
        (data : list (list string)) (hours_str : string) (i : Z) :
  let cols := resolve_columns headers in
  In (PrintInvalidHours hours_str i)
     (fst (get_wip_entries float_of_str name (Values (headers :: data)))) ->
  exists k row,
    nth_error data k = Some row /\ i = row_of k /\
    max_col cols < List.length row /\
    status_of cols row = "WIP" /\
    hours_str = cell row (hours_col cols) /\
    float_of_str hours_str = None.
Proof.
  intros cols. rewrite get_wip_entries_values. fold cols.
  cbn [fst]. rewrite in_app_iff. intros [H|[H|[]]]; [|discriminate].
  apply logged_In in H. destruct H as (k & row & Hk & Hin).
  exists k, row. split; [exact Hk|].
  destruct (Nat.le_gt_cases (List.length row) (max_col cols)) as [Hs|Hc].
  { rewrite process_row_short in Hin by exact Hs. destruct Hin. }
  rewrite process_row_complete in Hin by exact Hc.
  destruct (String.eqb (status_of cols row) "WIP") eqn:Es.
  2:{ destruct Hin as [Hin|[]]. discriminate. }
  apply String.eqb_eq in Es.
  rewrite try_body_complete in Hin by exact Hc.
  assert (Hb : ~ In (PrintInvalidHours hours_str i) (body_subscripts cols row)).
  { unfold body_subscripts. simpl. intuition discriminate. }
  destruct (float_of_str (cell row (hours_col cols))) as [h|] eqn:Eh.
  - destruct Hin as [Hin|Hin]; [discriminate | contradiction].
  - destruct Hin as [Hin|Hin]; [discriminate|].
    apply in_app_iff in Hin. destruct Hin as [Hin|[Hin|[]]]; [contradiction|].
    injection Hin as <- <-. unfold row_of. repeat split; auto.
Qed.

Lemma rows_all_short cols rows : forall row_idx,
  Forall (fun row => List.length row <= max_col cols) rows ->
  emitted float_of_str cols row_idx rows = [] /\
  logged float_of_str cols row_idx rows = [].
Proof.
  induction rows as [|row rest IH]; intros row_idx H; [split; reflexivity|].
  inversion H as [|? ? Hrow Hrest]; subst.
  rewrite emitted_cons, logged_cons, process_row_short by exact Hrow.
  destruct (IH (row_idx + 1)%Z Hrest) as [-> ->]. split; reflexivity.
Qed.

(** X4. When one of the seven columns is missing from the header row,
    every row that is not longer than the header row is skipped as
    incomplete: on such a sheet the extractor finds nothing, reads no cell
    and prints only the count 0. *)
Theorem missing_column_no_entries (name : string) (headers : list string)
        (data : list (list string)) :
  In (List.length headers) (column_list (resolve_columns headers)) ->
  Forall (fun row => List.length row <= List.length headers) data ->
  get_wip_entries float_of_str name (Values (headers :: data)) = ([PrintFound 0], inl []).
Proof.
  intros Hcol Hrows. rewrite get_wip_entries_values.
  assert (Hmax : List.length headers <= max_col (resolve_columns headers)).
  { pose proof (max_col_bounds (resolve_columns headers)) as B.
    unfold column_list in Hcol. simpl in Hcol.
    repeat (destruct Hcol as [Hcol|Hcol];
            [rewrite <- Hcol; tauto|]). destruct Hcol. }
  destruct (rows_all_short (resolve_columns headers) data 2) as [-> ->]; [|reflexivity].
  eapply Forall_impl; [|exact Hrows]. simpl. intros; lia.
Qed.

(** X5. Every text field of an emitted entry is trimmed: [strip] leaves
    date, description, persons and invoice as they are, and the category,
    which is always present, as well. *)
Theorem emitted_fields_trimmed (name : string) (headers : list string)
        (data : list (list string)) :
  exists log entries,
    get_wip_entries float_of_str name (Values (headers :: data)) = (log, inl entries) /\
    forall e, In e entries ->
      trimmed (date e) /\ trimmed (description e) /\ trimmed (persons e) /\
      trimmed (invoice e) /\ exists c, category e = Some c /\ trimmed c.
Proof.
  rewrite get_wip_entries_values. eexists. eexists. split; [reflexivity|].
  intros e He. apply emitted_In in He. destruct He as (k & row & _ & He).
  apply process_row_emit in He. destruct He as (_ & _ & h & _ & _ & _ & _ & ->).
  simpl. repeat split; try apply cell_trimmed.
  eexists. split; [reflexivity | apply cell_trimmed].
Qed.

End RowsMore.

(** X3, witness: the second of two rows has the hours abc. *)
Lemma invalid_hours_warning_sound_witness :
  exists k row,
    nth_error [sample_row "6/4/25" "17" "WIP"; sample_row "6/5/25" "abc" "WIP"] k
      = Some row /\
    3%Z = row_of k /\
    status_of (resolve_columns sample_headers) row = "WIP" /\
    py_float "abc" = None.
Proof.
  destruct (invalid_hours_warning_sound py_float "Sheet1" sample_headers
              [sample_row "6/4/25" "17" "WIP"; sample_row "6/5/25" "abc" "WIP"]
              "abc" 3)
    as (k & row & Hk & Hi & _ & Hs & _ & Hf).
  - vm_compute. tauto.
  - exists k, row. repeat split; assumption.
Defined.

(** X4, witness: a sheet without a Category column. *)
Lemma missing_column_no_entries_witness :
  get_wip_entries py_float "Sheet1"
    (Values [["Date"; "Hours"; "Task"; "Persons"; "Invoice"; "Status"];
             ["6/4/25"; "17"; "UAT bug fixes"; "BK/DH"; "NES01-5541"; "WIP"]])
  = ([PrintFound 0], inl []).
Proof.
  apply missing_column_no_entries.
  - vm_compute. tauto.
  - repeat constructor.
Defined.

(** ** The invoice number *)

Lemma count_invoices_fold es : forall d,
  count_invoices es d = fold_left count_step (invoice_keys es) d.
Proof.
  induction es as [|e r IH]; intros d; [reflexivity|].
  unfold invoice_keys. simpl.
  destruct (is_empty (strip (invoice e))); simpl; apply IH.
Qed.

Lemma counts_get_set d k v k' :
  counts_get (counts_set d k v) k' = if String.eqb k' k then v else counts_get d k'.
Proof.
  induction d as [|[a w] r IH]; simpl.
  - reflexivity.
  - destruct (String.eqb k a) eqn:E; simpl.
    + apply String.eqb_eq in E. subst a.
      destruct (String.eqb k' k); reflexivity.
    + destruct (String.eqb k' a) eqn:E'.
      * apply String.eqb_eq in E'. subst a.
        rewrite String.eqb_sym, E. reflexivity.
      * exact IH.
Qed.

Lemma counts_get_absent d k : ~ In k (map fst d) -> counts_get d k = 0.
Proof.
  induction d as [|[a w] r IH]; simpl; intros H; [reflexivity|].
  destruct (String.eqb_spec k a) as [->|_]; [tauto|]. apply IH. tauto.
Qed.

Lemma counts_get_In d k v :
  NoDup (map fst d) -> In (k, v) d -> counts_get d k = v.
Proof.
  induction d as [|[a w] r IH]; simpl; intros Hnd Hin; [contradiction|].
  inversion Hnd as [|? ? Hna Hr]; subst.
  destruct Hin as [[= -> ->]|Hin].
  - now rewrite String.eqb_refl.
  - destruct (String.eqb_spec k a) as [->|_]; [|auto].
    exfalso. apply Hna. apply in_map_iff. exists (a, v). auto.
Qed.

Lemma counts_set_keys d k v :
  map fst (counts_set d k v) =
  if list_in k (map fst d) then map fst d else map fst d ++ [k].
Proof.
  induction d as [|[a w] r IH]; simpl; [reflexivity|].
  destruct (String.eqb k a) eqn:E; simpl; [reflexivity|].
  rewrite IH. unfold list_in. destruct (existsb (String.eqb k) (map fst r)); reflexivity.
Qed.

Lemma occurrences_app k a b : occurrences k (a ++ b) = occurrences k a + occurrences k b.
Proof. apply count_occ_app. Qed.

Lemma occurrences_one k k' :
  occurrences k [k'] = if String.eqb k k' then 1 else 0.
Proof.
  unfold occurrences. simpl.
  destruct (string_dec k' k) as [->|N].
  - now rewrite String.eqb_refl.
  - destruct (String.eqb_spec k k'); [congruence | reflexivity].
Qed.

Lemma split_last {A} (P : list A) k Q K x :
  P ++ k :: Q = K ++ [x] ->
  (Q = [] /\ k = x /\ P = K) \/ (exists Q', Q = Q' ++ [x] /\ K = P ++ k :: Q').
Proof.
  intros H. destruct (exists_last (l := k :: Q)) as (Q0 & y & E); [discriminate|].
  destruct Q as [|q Q].
  - left. apply app_inj_tail in H. tauto.
  - right. destruct (exists_last (l := q :: Q)) as (Q' & z & E'); [discriminate|].
    rewrite E' in H. change (P ++ k :: Q' ++ [z]) with (P ++ (k :: Q') ++ [z]) in H.
    rewrite app_assoc in H. apply app_inj_tail in H. destruct H as [H1 H2]. subst.
    exists Q'. split; [exact E' | reflexivity].
Qed.

Lemma counted_step d ks k : counted d ks -> counted (count_step d k) (ks ++ [k]).
Proof.
  intros (Hnd & Hget & Hkeys & Hord). unfold count_step.
  assert (Hk : map fst (counts_set d k (counts_get d k + 1)) =
               if list_in k (map fst d) then map fst d else map fst d ++ [k])
    by apply counts_set_keys.
  split; [|split; [|split]].
  - rewrite Hk. destruct (list_in k (map fst d)) eqn:E; [exact Hnd|].
    apply NoDup_app; [exact Hnd | repeat constructor; auto | ].
    intros x Hx [<-|[]]. apply list_in_In in Hx. congruence.
  - intros k'. rewrite counts_get_set, occurrences_app, occurrences_one, !Hget.
    destruct (String.eqb_spec k' k) as [->|_]; lia.
  - intros k'. rewrite Hk, in_app_iff. simpl.
    destruct (list_in k (map fst d)) eqn:E.
    + apply list_in_In in E. rewrite Hkeys. split; [tauto|].
      intros [H|[<-|[]]]; [exact H | now apply Hkeys].
    + rewrite in_app_iff, Hkeys. simpl. tauto.
  - intros P k' Q Hsplit. rewrite Hk in Hsplit.
    destruct (list_in k (map fst d)) eqn:E.
    + destruct (Hord P k' Q Hsplit) as (kpre & kpost & -> & Hincl).
      exists kpre, (kpost ++ [k]). split; [now rewrite <- app_assoc | exact Hincl].
    + symmetry in Hsplit. apply split_last in Hsplit.
      destruct Hsplit as [(-> & -> & ->) | (Q' & -> & HK)].
      * exists ks, []. split; [reflexivity|]. intros x Hx. now apply Hkeys.
      * destruct (Hord P k' Q' HK) as (kpre & kpost & -> & Hincl).
        exists kpre, (kpost ++ [k]). split; [now rewrite <- app_assoc | exact Hincl].
Qed.

Lemma counted_fold ks : forall d ks0,
  counted d ks0 -> counted (fold_left count_step ks d) (ks0 ++ ks).
Proof.
  induction ks as [|k r IH]; intros d ks0 H; simpl.
  - now rewrite app_nil_r.
  - replace (ks0 ++ k :: r) with ((ks0 ++ [k]) ++ r) by now rewrite <- app_assoc.
    apply IH, counted_step, H.
Qed.

Lemma counted_empty : counted [] [].
Proof.
  split; [constructor|]. split; [reflexivity|]. split; [tauto|].
  intros P k Q H. destruct P; discriminate.
Qed.

Lemma counted_invoices es : counted (count_invoices es []) (invoice_keys es).
Proof.
  rewrite count_invoices_fold. exact (counted_fold (invoice_keys es) [] [] counted_empty).
Qed.

Lemma max_item_spec items : forall best,
  exists pre post,
    best :: items = pre ++ max_item best items :: post /\
    (forall x, In x pre -> snd x < snd (max_item best items)) /\
    (forall x, In x post -> snd x <= snd (max_item best items)).
Proof.
  induction items as [|it r IH]; intros best; simpl.
  - exists [], []. split; [reflexivity|]. split; intros x [].
  - destruct (IH (if Nat.ltb (snd best) (snd it) then it else best))
      as (pre & post & Hsplit & Hpre & Hpost).
    set (m := max_item (if Nat.ltb (snd best) (snd it) then it else best) r) in *.
    destruct (Nat.ltb_spec (snd best) (snd it)) as [Hlt|Hge].
    + exists (best :: pre), post. split; [simpl; now rewrite Hsplit|].
      split; [|exact Hpost].
      intros x [<-|Hx]; [|auto].
      destruct pre as [|p pre]; simpl in Hsplit; injection Hsplit as Hm Hr.
      * rewrite <- Hm. exact Hlt.
      * subst p. pose proof (Hpre it (or_introl eq_refl)). lia.
    + destruct pre as [|p pre]; simpl in Hsplit; injection Hsplit as Hm Hr.
      * exists [], (it :: post). split; [simpl; now rewrite <- Hm, Hr|].
        split; [intros x []|].
        intros x [<-|Hx]; [rewrite <- Hm; exact Hge | auto].
      * subst p. exists (best :: it :: pre), post.
        split; [simpl; now rewrite Hr|]. split; [|exact Hpost].
        pose proof (Hpre best (or_introl eq_refl)) as Hb.
        intros x [<-|[<-|Hx]]; [exact Hb | lia | apply Hpre; now right].
Qed.

Lemma invoice_keys_nonblank es k : In k (invoice_keys es) -> k <> EmptyString.
Proof.
  unfold invoice_keys. rewrite filter_In. intros [_ H] ->. discriminate.
Qed.

(** X6. When no entry carries an invoice number that is non-blank once
    trimmed, [get_invoice_number] answers the default number. *)
Theorem get_invoice_number_blank_default (wip_entries : list WorkEntry) :
  (forall e, In e wip_entries -> strip (invoice e) = EmptyString) ->
  get_invoice_number wip_entries = default_invoice_number.
Proof.
  intros H. unfold get_invoice_number.
  destruct wip_entries as [|e r]; [reflexivity|].
  assert (Hk : invoice_keys (e :: r) = []).
  { unfold invoice_keys. remember (e :: r) as es eqn:Ees. clear Ees.
    induction es as [|x xs IH]; [reflexivity|]. simpl.
    rewrite (H x (or_introl eq_refl)). simpl. apply IH.
    intros y Hy. apply H. now right. }
  rewrite count_invoices_fold, Hk. reflexivity.
Qed.

(** X7. When some entry carries a non-blank invoice number,
    [get_invoice_number] answers the trimmed number that occurs most often
    among the entries, and of several that occur equally often the one met
    first: every number met before its first occurrence occurs strictly
    less often. *)
Theorem get_invoice_number_most_common (wip_entries : list WorkEntry) :
  invoice_keys wip_entries <> [] ->
  let keys := invoice_keys wip_entries in
  let r := get_invoice_number wip_entries in
  (forall k, occurrences k keys <= occurrences r keys) /\
  exists pre post,
    keys = pre ++ r :: post /\
    forall k, In k pre -> occurrences k keys < occurrences r keys.
Proof.
  intros Hne keys r. subst r. unfold get_invoice_number.
  destruct wip_entries as [|e0 r0]; [now contradiction Hne|].
  remember (e0 :: r0) as es eqn:Ees. clear Ees e0 r0. fold keys in Hne.
  destruct (counted_invoices es) as (Hnd & Hget & Hkeys & Hord). fold keys in Hget, Hkeys, Hord.
  destruct (count_invoices es []) as [|it d] eqn:Ed.
  { exfalso. destruct keys as [|k ks]; [now apply Hne|].
    apply (proj2 (Hkeys k)). now left. }
  destruct (max_item_spec d it) as (pre & post & Hsplit & Hpre & Hpost).
  set (m := max_item it d) in *.
  assert (Hval : forall x, In x (it :: d) -> snd x = occurrences (fst x) keys).
  { intros [k v] Hx. simpl. rewrite <- Hget. symmetry. now apply counts_get_In. }
  assert (Hm : In m (it :: d)) by (rewrite Hsplit; apply in_elt).
  split.
  - intros k. rewrite <- (Hval m Hm).
    destruct (in_dec string_dec k (map fst (it :: d))) as [Hin|Hout].
    + apply in_map_iff in Hin. destruct Hin as (x & <- & Hx).
      rewrite <- (Hval x Hx). rewrite Hsplit in Hx.
      apply in_app_iff in Hx. destruct Hx as [Hx|[<-|Hx]].
      * pose proof (Hpre x Hx). lia.
      * lia.
      * exact (Hpost x Hx).
    + rewrite <- Hget, counts_get_absent by exact Hout. lia.
  - destruct (Hord (map fst pre) (fst m) (map fst post)) as (kpre & kpost & Hk & Hincl).
    { rewrite Hsplit, map_app. reflexivity. }
    exists kpre, kpost. split; [exact Hk|].
    intros k Hk'. apply Hincl in Hk'. apply in_map_iff in Hk'.
    destruct Hk' as (x & <- & Hx).
    assert (Hx' : In x (it :: d)) by (rewrite Hsplit; apply in_or_app; now left).
    rewrite <- (Hval x Hx'), <- (Hval m Hm). exact (Hpre x Hx).
Qed.

(** X6, witness: an empty and a blank invoice number. *)
Lemma get_invoice_number_blank_default_witness :
  get_invoice_number [invoiced EmptyString; invoiced "  "] = default_invoice_number.
Proof.
  apply get_invoice_number_blank_default.
  intros e [<-|[<-|[]]]; reflexivity.
Defined.

(** X7, witness: two numbers occur twice each; the one met first is answered. *)
Lemma get_invoice_number_most_common_witness :
  get_invoice_number (map invoiced ["A-1"; " B-2"; "B-2 "; "A-1"; "C-3"]) = "A-1" /\
  exists pre post,
    invoice_keys (map invoiced ["A-1"; " B-2"; "B-2 "; "A-1"; "C-3"])
    = pre ++ get_invoice_number (map invoiced ["A-1"; " B-2"; "B-2 "; "A-1"; "C-3"])
          :: post.
Proof.
  split; [reflexivity|].
  destruct (get_invoice_number_most_common
              (map invoiced ["A-1"; " B-2"; "B-2 "; "A-1"; "C-3"]))
    as (_ & pre & post & Hsplit & _).
  - discriminate.
  - exists pre, post. exact Hsplit.
Defined.

Lemma invoice_keys_all_same es n :
  (forall e, In e es -> invoice e = n) -> strip n = n -> n <> EmptyString ->
  invoice_keys es = repeat n (List.length es).
Proof.
  intros Hall Hs Hn. unfold invoice_keys.
  induction es as [|e r IH]; [reflexivity|]. simpl.
  rewrite (Hall e (or_introl eq_refl)), Hs.
  destruct n; [contradiction|]. simpl. f_equal. apply IH.
  intros x Hx. apply Hall. now right.
Qed.

Lemma get_invoice_number_in_keys es :
  invoice_keys es <> [] -> In (get_invoice_number es) (invoice_keys es).
Proof.
  intros Hne. unfold get_invoice_number.
  destruct es as [|e0 r0]; [now contradiction Hne|].
  remember (e0 :: r0) as l eqn:El. clear El e0 r0.
  destruct (counted_invoices l) as (_ & _ & Hkeys & _).
  destruct (count_invoices l []) as [|it d] eqn:Ed.
  { exfalso. destruct (invoice_keys l) as [|k ks]; [now apply Hne|].
    apply (proj2 (Hkeys k)). now left. }
  apply Hkeys. destruct (max_item_spec d it) as (pre & post & Hsplit & _).
  rewrite Hsplit, map_app. apply in_or_app. right. now left.
Qed.

(** X8. When all entries carry the same trimmed, non-blank invoice
    number, the [get_invoice_number] of [SheetsReaderEnhanced] and that of
    [SheetsReader] both answer it. *)
Theorem invoice_number_readers_agree (wip_entries : list WorkEntry) (n : string) :
  wip_entries <> [] ->
  (forall e, In e wip_entries -> invoice e = n) ->
  trimmed n -> n <> EmptyString ->
  get_invoice_number wip_entries = n /\ get_invoice_number_first wip_entries = n.
Proof.
  intros Hne Hall Hs Hn. split.
  - pose proof (invoice_keys_all_same wip_entries n Hall Hs Hn) as Hk.
    assert (Hin : In (get_invoice_number wip_entries) (invoice_keys wip_entries)).
    { apply get_invoice_number_in_keys. rewrite Hk.
      destruct wip_entries; [contradiction | discriminate]. }
    rewrite Hk in Hin. now apply repeat_spec in Hin.
  - destruct wip_entries as [|e r]; [contradiction|]. simpl. apply Hall. now left.
Qed.

(** X8, witness: the built-in entries. *)
Lemma invoice_number_readers_agree_witness :
  get_invoice_number get_wip_entries_builtin = "NES01-5541" /\
  get_invoice_number_first get_wip_entries_builtin = "NES01-5541".
Proof.
  apply invoice_number_readers_agree.
  - discriminate.
  - intros e He. vm_compute in He.
    repeat (destruct He as [<-|He]; [reflexivity|]). destruct He.
  - reflexivity.
  - discriminate.
Defined.

(** ** The aggregator at the edges *)

(** X9. On an empty list of entries [generate_invoice] never returns an
    invoice: it raises the [ValueError] of [max] on an empty sequence,
    unless adding rate and discount has raised [OverflowError] before. *)
Theorem generate_invoice_empty_raises (cfg : Config) (number : string) :
  generate_invoice cfg [] number =
  Raise (match py_add (cfg_hourly_rate cfg) (cfg_discount cfg) with
         | Some _ => ValueError
         | None => OverflowError
         end).
Proof.
  unfold generate_invoice, compute_summary. simpl.
  destruct (py_add (cfg_hourly_rate cfg) (cfg_discount cfg)); [|reflexivity].
  destruct (cfg_hourly_rate cfg) as [r|r]; reflexivity.
Qed.

Lemma lex_le_antisym a b : lex_le a b -> lex_le b a -> a = b.
Proof.
  intros Hab. induction Hab as [s|c1 c2 s1 s2 Hlt|c s1 s2 H IH]; intros Hba.
  - now inversion Hba.
  - inversion Hba; subst; lia.
  - inversion Hba; subst; [lia|]. f_equal. auto.
Qed.

Lemma lex_max_unique m m' xs xs' :
  Permutation xs xs' -> lex_max m xs -> lex_max m' xs' -> m = m'.
Proof.
  intros Hp [Hin Hle] [Hin' Hle']. apply lex_le_antisym.
  - apply Hle'. eapply Permutation_in; eauto.
  - apply Hle. eapply Permutation_in; [apply Permutation_sym|]; eauto.
Qed.

Lemma Z_sum_perm zs zs' : Permutation zs zs' -> Z_sum zs = Z_sum zs'.
Proof. induction 1; simpl; lia. Qed.

Lemma generate_invoice_date cfg es number inv :
  generate_invoice cfg es number = Ok inv ->
  lex_max (invoice_date inv) (map date es) /\
  compute_summary cfg es = Some (summary inv).
Proof.
  unfold generate_invoice.
  destruct (compute_summary cfg es) as [s|]; [|discriminate].
  destruct es as [|e r]; [discriminate|].
  destruct (py_max_spec (date e) (map date r)) as (m & Hm & Hmax).
  change (map date (e :: r)) with (date e :: map date r). rewrite Hm.
  intros [= <-]. split; [exact Hmax | reflexivity].
Qed.

(** X10. The invoice date does not depend on the order of the entries,
    and with int hours neither does the summary: two runs on permuted lists
    that both return agree on them. *)
Theorem invoice_order_independent
        (cfg : Config) (es es' : list WorkEntry) (number : string) (inv inv' : Invoice) :
  Permutation es es' ->
  generate_invoice cfg es number = Ok inv ->
  generate_invoice cfg es' number = Ok inv' ->
  invoice_date inv = invoice_date inv' /\
  (forall zs, map hours es = map PyInt zs -> summary inv = summary inv').
Proof.
  intros Hp H H'.
  apply generate_invoice_date in H, H'. destruct H as [Hd Hs], H' as [Hd' Hs'].
  split.
  - eapply lex_max_unique; [|exact Hd|exact Hd']. now apply Permutation_map.
  - intros zs Hz.
    assert (Hp' : Permutation (map hours es') (map PyInt zs))
      by (rewrite <- Hz; now apply Permutation_map, Permutation_sym).
    apply Permutation_map_inv in Hp'. destruct Hp' as (zs' & Hz' & Hpz).
    unfold compute_summary, py_sum in Hs, Hs'.
    rewrite Hz, sum_from_ints in Hs. rewrite Hz', sum_from_ints in Hs'.
    rewrite (Z_sum_perm _ _ Hpz) in Hs. rewrite Hs in Hs'. congruence.
Qed.

(** X10, witness: the built-in entries and their reversal. *)
Lemma invoice_order_independent_witness :
  exists inv inv',
    generate_invoice sample_config get_wip_entries_builtin "NES01-5541" = Ok inv /\
    generate_invoice sample_config (rev get_wip_entries_builtin) "NES01-5541" = Ok inv' /\
    invoice_date inv = invoice_date inv' /\
    summary inv = summary inv'.
Proof.
  eexists. eexists.
  split; [vm_compute; reflexivity|]. split; [vm_compute; reflexivity|].
  destruct (invoice_order_independent sample_config get_wip_entries_builtin
              (rev get_wip_entries_builtin) "NES01-5541" _ _
              (Permutation_rev _) eq_refl eq_refl) as [Hd Hs].
  split; [exact Hd|]. exact (Hs [17; 15; 16; 9; 10; 17; 18]%Z eq_refl).
Defined.

(** ** The renderer *)

Lemma generate_html_eq logo inv sub bal :
  format_comma_0f (subtotal (summary inv)) = Some sub ->
  format_comma_0f (balance_due (summary inv)) = Some bal ->
  generate_html logo inv =
  Some (fold_left add_row (work_entries inv) (html_head logo inv sub bal)
        ++ nl ++ unlines html_close)%string.
Proof. intros Hs Hb. unfold generate_html. rewrite Hs, Hb. reflexivity. Qed.

Lemma generate_html_formats logo inv html :
  generate_html logo inv = Some html ->
  exists sub bal,
    format_comma_0f (subtotal (summary inv)) = Some sub /\
    format_comma_0f (balance_due (summary inv)) = Some bal.
Proof.
  unfold generate_html.
  destruct (format_comma_0f (subtotal (summary inv))) as [sub|]; [|discriminate].
  destruct (format_comma_0f (balance_due (summary inv))) as [bal|]; [|discriminate].
  eauto.
Qed.

(** X11. The texts are put into the document as they are, markup
    characters included: the invoice number inside the title, and the date,
    the description and the persons of every entry each inside a table
    cell. *)
Theorem html_text_verbatim (logo_base64 : string) (inv : Invoice) (html : string) :
  generate_html logo_base64 inv = Some html ->
  contains ("<title>Invoice " ++ invoice_number inv ++ "</title>") html = true /\
  forall e, In e (work_entries inv) ->
    contains ("<td>" ++ date e ++ "</td>") html = true /\
    contains ("<td>" ++ description e ++ "</td>") html = true /\
    contains ("<td>" ++ persons e ++ "</td>") html = true.
Proof.
  intros H. destruct (generate_html_formats _ _ _ H) as (sub & bal & Hs & Hb).
  rewrite (generate_html_eq _ _ _ _ Hs Hb) in H. injection H as <-.
  pose (sp := "                    ").
  split.
  - apply contains_app_l, rows_keep. unfold html_head.
    apply (contains_concat _ _ _
             ("    <title>Invoice " ++ invoice_number inv ++ "</title>")%string);
      [|in_line].
    apply in_or_app. left. unfold html_style. in_list.
  - intros e He. repeat split; apply contains_app_l; apply (rows_contain _ _ e);
      try exact He; unfold html_entry_row.
    + apply (contains_concat _ _ _ (sp ++ "<td>" ++ date e ++ "</td>")%string);
        [in_list | in_line].
    + apply (contains_concat _ _ _ (sp ++ "<td>" ++ description e ++ "</td>")%string);
        [in_list | in_line].
    + apply (contains_concat _ _ _ (sp ++ "<td>" ++ persons e ++ "</td>")%string);
        [in_list | in_line].
Qed.

(** X11, witness: a description with markup in it. *)
Lemma html_text_verbatim_witness :
  exists html,
    generate_html "LOGO"
      (with_entries sample_invoice
         [sample_entry "6/4/25" 17 "<b>fixes</b> & review"]) = Some html /\
    contains "<td><b>fixes</b> & review</td>" html = true.
Proof.
  eexists. split; [vm_compute; reflexivity|].
  refine (proj1 (proj2 (proj2 (html_text_verbatim "LOGO"
            (with_entries sample_invoice
               [sample_entry "6/4/25" 17 "<b>fixes</b> & review"]) _ eq_refl)
            (sample_entry "6/4/25" 17 "<b>fixes</b> & review") _))).
  left. reflexivity.
Defined.

Lemma add_rows_printed es : forall es' acc,
  map printed es = map printed es' ->
  fold_left add_row es acc = fold_left add_row es' acc.
Proof.
  induction es as [|e r IH]; intros [|e' r'] acc H; try discriminate; [reflexivity|].
  simpl in H. injection H as Hd Hh Hdesc Hp Hr. simpl.
  replace (add_row acc e') with (add_row acc e); [now apply IH|].
  unfold add_row, html_entry_row. now rewrite Hd, Hh, Hdesc, Hp.
Qed.

(** X12. Of an entry the document shows date, hours (through [str]),
    description and persons only: entries that agree on these give the same
    document, whatever their category, invoice number and row number. *)
Theorem html_ignores_unprinted_fields
        (logo_base64 : string) (inv : Invoice) (es : list WorkEntry) :
  map printed es = map printed (work_entries inv) ->
  generate_html logo_base64 (with_entries inv es) = generate_html logo_base64 inv.
Proof.
  intros H. unfold generate_html. cbn [with_entries summary].
  destruct (format_comma_0f (subtotal (summary inv))) as [sub|]; [|reflexivity].
  destruct (format_comma_0f (balance_due (summary inv))) as [bal|]; [|reflexivity].
  fold add_row. cbn [work_entries]. rewrite (add_rows_printed _ _ _ H). reflexivity.
Qed.

(** X12, witness: the built-in entries under another category, invoice number and row number. *)
Lemma html_ignores_unprinted_fields_witness :
  generate_html "LOGO"
    (with_entries sample_invoice (map recategorised get_wip_entries_builtin))
  = generate_html "LOGO" sample_invoice.
Proof.
  apply html_ignores_unprinted_fields. reflexivity.
Defined.

(** ** The status updater, in general *)

Lemma build_requests_usable idx es : forall vu fr,
  build_requests idx es vu fr =
  (vu ++ map (value_update idx) (usable_rows es),
   fr ++ map format_request (usable_rows es)).
Proof.
  induction es as [|e r IH]; intros vu fr; simpl.
  - now rewrite !app_nil_r.
  - destruct (row_number e) as [n|]; [|apply IH].
    destruct (n =? 0)%Z; [apply IH|].
    rewrite IH. simpl. now rewrite <- !app_assoc.
Qed.

Lemma usable_rows_In es n :
  In n (usable_rows es) <->
  n <> 0%Z /\ exists e, In e es /\ row_number e = Some n.
Proof.
  unfold usable_rows. rewrite in_flat_map. split.
  - intros (e & He & Hn). destruct (row_number e) as [m|] eqn:E; [|destruct Hn].
    destruct (Z.eqb_spec m 0); [destruct Hn|]. destruct Hn as [<-|[]].
    split; [assumption|]. exists e. auto.
  - intros (Hnz & e & He & Hr). exists e. split; [exact He|]. rewrite Hr.
    destruct (Z.eqb_spec n 0); [contradiction | now left].
Qed.

(** A run, once the worksheet and a status column are found. *)
Lemma update_run remote es name headers :
  worksheet_found remote = true ->
  header_row remote = Some headers ->
  _find_column_index headers ["paid"; "status"] < List.length headers ->
  update_wip_to_billed_with_formatting remote es name =
  let idx := _find_column_index headers ["paid"; "status"] + 1 in
  let (acts, ok) := send_updates remote (map (value_update idx) (usable_rows es))
                                 (map format_request (usable_rows es)) in
  ([GetWorksheet name; RowValues 1] ++ acts, ok).
Proof.
  intros Hw Hh Hc. unfold update_wip_to_billed_with_formatting.
  rewrite Hw, Hh. simpl negb. cbv iota.
  destruct (Nat.ltb_spec (List.length headers)
              (_find_column_index headers ["paid"; "status"] + 1)); [lia|].
  rewrite build_requests_usable. reflexivity.
Qed.

(** The formatting requests name the sheet of id 0 and the usable rows,
    whatever the worksheet is called. *)
Lemma formatting_names_first_sheet remote wip_entries worksheet_name requests :
  In (SpreadsheetsBatchUpdate requests)
     (fst (update_wip_to_billed_with_formatting remote wip_entries worksheet_name)) ->
  requests = map format_request (usable_rows wip_entries) /\
  Forall (fun r => sheetId r = 0%Z) requests.
Proof.
  intros Hin.
  assert (Hreq : requests = map format_request (usable_rows wip_entries)).
  { revert Hin. unfold update_wip_to_billed_with_formatting.
    destruct (worksheet_found remote); simpl negb; cbv iota.
    2:{ simpl. intuition discriminate. }
    destruct (header_row remote) as [headers|].
    2:{ simpl. intuition discriminate. }
    destruct (Nat.ltb _ _).
    { simpl. intuition discriminate. }
    rewrite build_requests_usable. simpl app.
    destruct (usable_rows wip_entries) as [|n r]; [simpl; intuition discriminate|].
    unfold send_updates. cbn [map].
    destruct (batch_update_ok remote), (build_service_ok remote),
             (format_update_ok remote); simpl;
      intuition (try discriminate; congruence). }
  split; [exact Hreq|]. subst requests. apply Forall_map, Forall_forall.
  intros n _. reflexivity.
Qed.

(** X13. A run of the updater answers True exactly when the worksheet is
    found, its header row has a status column, some entry carries a
    non-zero row number, and the value write, the construction of the API
    service and the formatting call all succeed. *)
Theorem update_succeeds_iff
        (remote : Remote) (wip_entries : list WorkEntry) (worksheet_name : string) :
  snd (update_wip_to_billed_with_formatting remote wip_entries worksheet_name) = true
  <->
  worksheet_found remote = true /\
  (exists headers, header_row remote = Some headers /\
     _find_column_index headers ["paid"; "status"] < List.length headers) /\
  (exists e n, In e wip_entries /\ row_number e = Some n /\ n <> 0%Z) /\
  batch_update_ok remote = true /\
  build_service_ok remote = true /\
  format_update_ok remote = true.
Proof.
  assert (Hrows : (exists e n, In e wip_entries /\ row_number e = Some n /\ n <> 0%Z)
                  <-> usable_rows wip_entries <> []).
  { split.
    - intros (e & n & He & Hr & Hn) Hnil.
      assert (H : In n (usable_rows wip_entries)) by (apply usable_rows_In; eauto).
      rewrite Hnil in H. destruct H.
    - intros Hne. destruct (usable_rows wip_entries) as [|n r] eqn:E; [congruence|].
      assert (H : In n (usable_rows wip_entries)) by (rewrite E; now left).
      apply usable_rows_In in H. destruct H as (Hn & e & He & Hr). eauto. }
  rewrite Hrows. clear Hrows.
  destruct (worksheet_found remote) eqn:Hw.
  2:{ unfold update_wip_to_billed_with_formatting. rewrite Hw. simpl.
      split; [discriminate | intros [? _]; discriminate]. }
  destruct (header_row remote) as [headers|] eqn:Hh.
  2:{ unfold update_wip_to_billed_with_formatting. rewrite Hw, Hh. simpl.
      split; [discriminate | intros (_ & (h & Hx & _) & _); discriminate]. }
  destruct (Nat.lt_ge_cases (_find_column_index headers ["paid"; "status"])
                            (List.length headers)) as [Hc|Hc].
  2:{ unfold update_wip_to_billed_with_formatting. rewrite Hw, Hh. simpl negb. cbv iota.
      destruct (Nat.ltb_spec (List.length headers)
                  (_find_column_index headers ["paid"; "status"] + 1)); [|lia].
      simpl. split; [discriminate|].
      intros (_ & (h & Hx & Hlt) & _). injection Hx as <-. lia. }
  rewrite (update_run _ _ _ _ Hw Hh Hc). cbv zeta.
  destruct (usable_rows wip_entries) as [|n r]; simpl.
  { split; [discriminate | intros (_ & _ & H & _); congruence]. }
  destruct (batch_update_ok remote), (build_service_ok remote),
           (format_update_ok remote); simpl;
    (split; [try discriminate; intros _; repeat split; try discriminate; eauto
            | try reflexivity; intros (_ & _ & _ & ? & ? & ?); discriminate]).
Qed.

(** X14. Whatever the remote side answers, the mutations of a run are a
    prefix of two batches over the usable row numbers of the entries:
    nothing; or the value write alone, and then the run answers False; or
    the value write followed by the formatting request for the same rows.
    A run that answers True has issued both. *)
Theorem update_mutations_prefix
        (remote : Remote) (wip_entries : list WorkEntry) (worksheet_name : string) :
  let run := update_wip_to_billed_with_formatting remote wip_entries worksheet_name in
  let rows := usable_rows wip_entries in
  exists idx,
    let write := BatchUpdate (map (value_update idx) rows) in
    let paint := SpreadsheetsBatchUpdate (map format_request rows) in
    (filter is_mutation (fst run) = [] \/
     rows <> [] /\ (filter is_mutation (fst run) = [write] /\ snd run = false \/
                    filter is_mutation (fst run) = [write; paint])) /\
    (snd run = true -> filter is_mutation (fst run) = [write; paint]).
Proof.
  intros run rows. subst run.
  destruct (worksheet_found remote) eqn:Hw.
  2:{ exists 0. unfold update_wip_to_billed_with_formatting. rewrite Hw. simpl.
      split; [now left | discriminate]. }
  destruct (header_row remote) as [headers|] eqn:Hh.
  2:{ exists 0. unfold update_wip_to_billed_with_formatting. rewrite Hw, Hh. simpl.
      split; [now left | discriminate]. }
  exists (_find_column_index headers ["paid"; "status"] + 1).
  destruct (Nat.lt_ge_cases (_find_column_index headers ["paid"; "status"])
                            (List.length headers)) as [Hc|Hc].
  2:{ unfold update_wip_to_billed_with_formatting. rewrite Hw, Hh. simpl negb. cbv iota.
      destruct (Nat.ltb_spec (List.length headers)
                  (_find_column_index headers ["paid"; "status"] + 1)); [|lia].
      simpl. split; [now left | discriminate]. }
  rewrite (update_run _ _ _ _ Hw Hh Hc). cbv zeta. fold rows.
  destruct rows as [|n r]; simpl.
  { split; [now left | discriminate]. }
  destruct (batch_update_ok remote), (build_service_ok remote),
           (format_update_ok remote); simpl;
    (split; [right; split; [discriminate|]; auto | try discriminate; auto]).
Qed.

(** X15. Entries without a usable row number (none, or 0), such as the
    built-in ones of [SheetsReader], are never written back: the run
    mutates nothing and answers False. *)
Theorem update_without_row_numbers
        (remote : Remote) (wip_entries : list WorkEntry) (worksheet_name : string) :
  Forall (fun e => row_number e = None \/ row_number e = Some 0%Z) wip_entries ->
  let run := update_wip_to_billed_with_formatting remote wip_entries worksheet_name in
  filter is_mutation (fst run) = [] /\ snd run = false.
Proof.
  intros H run. subst run.
  assert (Hrows : usable_rows wip_entries = []).
  { induction H as [|e r He _ IH]; [reflexivity|].
    unfold usable_rows in *. simpl. rewrite IH.
    destruct He as [-> | ->]; reflexivity. }
  unfold update_wip_to_billed_with_formatting.
  destruct (worksheet_found remote); [|split; reflexivity]. simpl negb. cbv iota.
  destruct (header_row remote) as [headers|]; [|split; reflexivity].
  destruct (Nat.ltb _ _); [split; reflexivity|].
  rewrite build_requests_usable, Hrows. split; reflexivity.
Qed.

(** X15, witness: the built-in entries. *)
Lemma update_without_row_numbers_witness :
  filter is_mutation
    (fst (update_wip_to_billed_with_formatting
            (remote_ok sample_headers true) get_wip_entries_builtin "Sheet1")) = [] /\
  snd (update_wip_to_billed_with_formatting
         (remote_ok sample_headers true) get_wip_entries_builtin "Sheet1") = false.
Proof.
  apply update_without_row_numbers.
  repeat constructor.
Defined.

(** ** The repair script *)

Lemma build_requests_with_usable color idx es : forall vu fr,
  build_requests_with color idx es vu fr =
  (vu ++ map (value_update idx) (usable_rows es),
   fr ++ map (format_request_with color) (usable_rows es)).
Proof.
  induction es as [|e r IH]; intros vu fr; simpl.
  - now rewrite !app_nil_r.
  - destruct (row_number e) as [n|]; [|apply IH].
    destruct (n =? 0)%Z; [apply IH|].
    rewrite IH. simpl. now rewrite <- !app_assoc.
Qed.

Lemma format_request_orange : format_request_with orange_color = format_request.
Proof. reflexivity. Qed.

(** X16. With the updater's orange as the reference colour and a status
    column in the header row, [update_entries_with_correct_color] issues the
    remote calls of the updater on Sheet1, with the same arguments and in
    the same order, and answers the same. *)
Theorem color_fix_same_calls (remote : Remote) (entries : list WorkEntry) :
  (forall headers, header_row remote = Some headers ->
     _find_column_index headers ["paid"; "status"] < List.length headers) ->
  let fix_run := update_entries_with_correct_color remote entries orange_color in
  let run := update_wip_to_billed_with_formatting remote entries "Sheet1" in
  filter is_call (shared_actions (fst fix_run)) = filter is_call (fst run) /\
  snd fix_run = snd run.
Proof.
  intros Hcol fix_run run. subst fix_run run.
  unfold update_entries_with_correct_color, update_wip_to_billed_with_formatting.
  destruct (worksheet_found remote); [|split; reflexivity]. simpl negb. cbv iota.
  destruct (header_row remote) as [headers|] eqn:Hh; [|split; reflexivity].
  specialize (Hcol headers eq_refl).
  destruct (Nat.ltb_spec (List.length headers)
              (_find_column_index headers ["paid"; "status"] + 1)); [lia|].
  rewrite build_requests_with_usable, build_requests_usable, format_request_orange.
  simpl app.
  destruct (usable_rows entries) as [|n r]; [split; reflexivity|].
  unfold send_updates_with, send_updates.
  cbn [map].
  destruct (batch_update_ok remote), (build_service_ok remote),
           (format_update_ok remote); split; reflexivity.
Qed.

(** X16, witness: two rows on the seven-column sheet. *)
Lemma color_fix_same_calls_witness :
  filter is_call
    (shared_actions
       (fst (update_entries_with_correct_color
               (remote_ok sample_headers true) billed_entries orange_color)))
  = [GetWorksheet "Sheet1"; RowValues 1;
     BatchUpdate [value_update 7 2; value_update 7 4]; BuildService;
     SpreadsheetsBatchUpdate [format_request 2; format_request 4]].
Proof.
  destruct (color_fix_same_calls (remote_ok sample_headers true) billed_entries)
    as [H _].
  - intros headers [= <-]. vm_compute. lia.
  - rewrite H. reflexivity.
Defined.



(** ** The PDF converter *)

(** X18. [html_to_pdf] answers True exactly when the last command it ran
    is the conversion and that command exited with 0. *)
Theorem html_to_pdf_succeeds_iff (host : Host) (html_path pdf_path : string) :
  snd (html_to_pdf host html_path pdf_path) = true <->
  last (fst (html_to_pdf host html_path pdf_path)) [] = convert_argv html_path pdf_path /\
  host (convert_argv html_path pdf_path) = Exited 0.
Proof.
  unfold html_to_pdf, _install_wkhtmltopdf.
  assert (Hconv : forall rc, (rc =? 0)%Z = true <-> Exited rc = Exited 0).
  { intros rc. rewrite Z.eqb_eq. split; [now intros -> | now intros [= ->]]. }
  destruct (host which_argv) as [rc|]; [|simpl; split; [discriminate | intros [H _]; discriminate]].
  destruct (rc =? 0)%Z.
  - simpl. destruct (host (convert_argv html_path pdf_path)) as [rc'|].
    + rewrite Hconv. tauto.
    + split; [discriminate | intros [_ H]; discriminate].
  - destruct (host update_argv) as [ru|].
    2:{ simpl. split; [discriminate | intros [H _]; discriminate]. }
    destruct (ru =? 0)%Z.
    + destruct (host install_argv) as [ri|].
      2:{ simpl. split; [discriminate | intros [H _]; discriminate]. }
      simpl. destruct (host (convert_argv html_path pdf_path)) as [rc'|].
      * rewrite Hconv. tauto.
      * split; [discriminate | intros [_ H]; discriminate].
    + simpl. destruct (host (convert_argv html_path pdf_path)) as [rc'|].
      * rewrite Hconv. tauto.
      * split; [discriminate | intros [_ H]; discriminate].
Qed.

(** X19. The commands of a conversion: [which] comes first, and only the
    two [apt-get] commands and the conversion can follow; when [which]
    exits with 0 nothing is installed; [apt-get install] is in the list only
    if [apt-get update] exited with 0; and after an update that exited with
    another code the conversion is still attempted. *)
Theorem html_to_pdf_commands (host : Host) (html_path pdf_path : string) :
  let cmds := fst (html_to_pdf host html_path pdf_path) in
  (exists rest, cmds = which_argv :: rest /\
     Forall (fun c => In c [update_argv; install_argv;
                            convert_argv html_path pdf_path]) rest) /\
  (host which_argv = Exited 0 -> cmds = [which_argv; convert_argv html_path pdf_path]) /\
  (In install_argv cmds -> host update_argv = Exited 0) /\
  (forall rc ru, host which_argv = Exited rc -> rc <> 0%Z ->
                 host update_argv = Exited ru -> ru <> 0%Z ->
                 cmds = [which_argv; update_argv; convert_argv html_path pdf_path]).
Proof.
  intros cmds. subst cmds. unfold html_to_pdf, _install_wkhtmltopdf.
  split; [|split; [|split]].
  - assert (Hall : forall l,
              (forall c, In c l ->
                 In c [update_argv; install_argv; convert_argv html_path pdf_path]) ->
              Forall (fun c => In c [update_argv; install_argv;
                                     convert_argv html_path pdf_path]) l)
      by (intros l; apply Forall_forall).
    destruct (host which_argv) as [rc|]; [|eexists; split; [reflexivity | constructor]].
    destruct (rc =? 0)%Z;
      [|destruct (host update_argv) as [ru|];
        [destruct (ru =? 0)%Z; [destruct (host install_argv)|]|]];
      eexists; (split; [reflexivity|]); apply Hall; simpl; intros c Hc;
      repeat (destruct Hc as [<-|Hc]; [tauto|]); destruct Hc.
  - intros ->. reflexivity.
  - destruct (host which_argv) as [rc|]; [|simpl; intros [H|[]]; discriminate].
    destruct (rc =? 0)%Z.
    { simpl. intros [H|[H|[]]]; discriminate. }
    destruct (host update_argv) as [ru|].
    2:{ simpl. intros [H|[H|[]]]; discriminate. }
    destruct (Z.eqb_spec ru 0) as [->|]; [reflexivity|].
    simpl. intros [H|[H|[H|[]]]]; discriminate.
  - intros rc ru -> Hrc -> Hru.
    destruct (Z.eqb_spec rc 0); [contradiction|].
    destruct (Z.eqb_spec ru 0); [contradiction|]. reflexivity.
Qed.

(** ** The scan of [test-billed-update.py] *)

Lemma cell_text_inside row col default :
  col < List.length row -> cell_text row col default = cell row col.
Proof.
  intros H. unfold cell_text, cell.
  destruct (nth_error row col) as [s|] eqn:E.
  - now rewrite (nth_error_nth _ _ _ E).
  - apply nth_error_None in E. lia.
Qed.

Lemma positive_not_le_zero h : f_ltb f_zero h = true -> f_leb h f_zero = false.
Proof. destruct h as [s|[]| |[] m e]; simpl; intros H; try discriminate; reflexivity. Qed.

Section ScanRows.

Variable float_of_str : string -> option float.

Lemma scan_row_process_row cols row_idx row :
  scan_row float_of_str cols row_idx row =
  match snd (process_row float_of_str cols row_idx row) with
  | Ok (Emit e) => if hours_positive e then Some (relabel e) else None
  | _ => None
  end.
Proof.
  destruct (Nat.le_gt_cases (List.length row) (max_col cols)) as [H|H].
  - rewrite process_row_short by exact H. unfold scan_row.
    destruct (Nat.leb_spec (List.length row) (max_col cols)); [reflexivity | lia].
  - pose proof (max_col_bounds cols) as B.
    rewrite process_row_complete, try_body_complete by exact H.
    unfold scan_row.
    destruct (Nat.leb_spec (List.length row) (max_col cols)); [lia|].
    rewrite !cell_text_inside by lia.
    replace (match nth_error row (paid_col cols) with
             | Some s => upper (strip s)
             | None => EmptyString
             end) with (status_of cols row).
    2:{ unfold status_of, cell.
        destruct (nth_error row (paid_col cols)) as [s|] eqn:E.
        - now rewrite (nth_error_nth _ _ _ E).
        - apply nth_error_None in E. lia. }
    destruct (String.eqb (status_of cols row) "WIP"); [|reflexivity].
    destruct (float_of_str (cell row (hours_col cols))) as [h|]; simpl.
    2:{ now destruct (is_empty (cell row (date_col cols))). }
    destruct (is_empty (cell row (date_col cols))); simpl.
    { now rewrite orb_true_r. }
    rewrite orb_false_r.
    destruct (f_ltb f_zero h) eqn:Epos; simpl.
    + rewrite (positive_not_le_zero _ Epos). simpl.
      destruct (is_empty (cell row (task_col cols))); simpl; [reflexivity|].
      unfold hours_positive. simpl. rewrite Epos. reflexivity.
    + destruct (f_leb h f_zero); simpl; [reflexivity|].
      destruct (is_empty (cell row (task_col cols))); simpl; [reflexivity|].
      unfold hours_positive. simpl. rewrite Epos. reflexivity.
Qed.

Lemma scan_rows_emitted cols rows : forall row_idx,
  scan_rows float_of_str cols row_idx rows =
  map relabel (filter hours_positive (emitted float_of_str cols row_idx rows)).
Proof.
  induction rows as [|row rest IH]; intros row_idx; [reflexivity|].
  rewrite emitted_cons. cbn [scan_rows]. rewrite filter_app, map_app, IH.
  f_equal. rewrite scan_row_process_row.
  destruct (snd (process_row float_of_str cols row_idx row)) as [[|e]|x];
    try reflexivity.
  simpl. destruct (hours_positive e); reflexivity.
Qed.

Lemma paid_alias_first headers :
  In "paid" (map header_key headers) ->
  _find_column_index headers ["paid"] = _find_column_index headers ["paid"; "status"].
Proof.
  intros H. unfold _find_column_index. simpl.
  assert (Hin : list_in "paid" (map (fun h => strip (lower h)) headers) = true).
  { apply list_in_In. erewrite map_ext; [exact H|].
    intros h. apply strip_lower. }
  change (strip (lower "paid")) with "paid". now rewrite Hin.
Qed.

(** X20. On a sheet with a column headed Paid, the targets of
    [test-billed-update.py] are the entries of [get_wip_entries] whose hours
    are greater than 0 (all of them but those with NaN hours), under the
    invoice number NES01-5541. *)
Theorem billed_scan_targets (name : string) (headers : list string)
        (data : list (list string)) :
  In "paid" (map header_key headers) ->
  exists log entries,
    get_wip_entries float_of_str name (Values (headers :: data)) = (log, inl entries) /\
    target_entries float_of_str (headers :: data)
    = Some (map relabel (filter hours_positive entries)).
Proof.
  intros Hpaid. rewrite get_wip_entries_values. eexists. eexists.
  split; [reflexivity|]. unfold target_entries.
  replace (resolve_columns_paid headers) with (resolve_columns headers).
  - now rewrite scan_rows_emitted.
  - unfold resolve_columns, resolve_columns_paid. now rewrite paid_alias_first.
Qed.

Lemma scan_rows_In cols rows : forall row_idx e,
  In e (scan_rows float_of_str cols row_idx rows) <->
  exists k row, nth_error rows k = Some row /\
    scan_row float_of_str cols (row_idx + Z.of_nat k) row = Some e.
Proof.
  induction rows as [|row rest IH]; intros row_idx e; simpl.
  - split; [tauto|]. intros ([|k] & r & Hk & _); discriminate.
  - rewrite in_app_iff, IH. split.
    + intros [H | (k & r & Hk & Hr)].
      * exists 0, row. rewrite Z.add_0_r. split; [reflexivity|].
        destruct (scan_row float_of_str cols row_idx row) as [e'|];
          simpl in H; [|tauto]. destruct H as [->|[]]. reflexivity.
      * exists (S k), r. split; [exact Hk|].
        replace (row_idx + Z.of_nat (S k))%Z with (row_idx + 1 + Z.of_nat k)%Z by lia.
        exact Hr.
    + intros ([|k] & r & Hk & Hr); simpl in Hk.
      * injection Hk as <-. rewrite Z.add_0_r in Hr. rewrite Hr. left. now left.
      * right. exists k, r. split; [exact Hk|].
        replace (row_idx + 1 + Z.of_nat k)%Z with (row_idx + Z.of_nat (S k))%Z by lia.
        exact Hr.
Qed.

(** X21. Every target of [test-billed-update.py] has hours greater than 0
    (so never NaN), a non-empty date and description, the invoice number
    NES01-5541 and the number of a data row of the sheet. *)
Theorem billed_scan_target_sound (all_values : list (list string))
        (targets : list WorkEntry) :
  target_entries float_of_str all_values = Some targets ->
  forall e, In e targets ->
    (exists h, hours e = PyFloat h /\ f_ltb f_zero h = true) /\
    date e <> EmptyString /\ description e <> EmptyString /\
    invoice e = "NES01-5541" /\
    exists k, row_number e = Some (row_of k) /\ S k < List.length all_values.
Proof.
  destruct all_values as [|headers data]; [discriminate|].
  intros [= <-] e He. apply scan_rows_In in He.
  destruct He as (k & row & Hk & He).
  assert (Hlen : S k < List.length (headers :: data)).
  { simpl. apply ->Nat.succ_lt_mono. apply nth_error_Some. congruence. }
  unfold scan_row in He.
  destruct (Nat.leb _ _); [discriminate|].
  destruct (String.eqb _ "WIP"); [|discriminate].
  destruct (is_empty (cell_text row _ EmptyString)) eqn:Ed; [discriminate|].
  simpl in He.
  destruct (float_of_str _) as [h|]; [|discriminate].
  destruct (f_ltb f_zero h) eqn:Eh; [|discriminate].
  destruct (is_empty (cell_text row _ EmptyString)) eqn:Et in He; [discriminate|].
  simpl in He. injection He as <-. simpl.
  apply is_empty_false in Ed, Et.
  repeat split; auto.
  - exists h. auto.
  - exists k. auto.
Qed.

Lemma paid_alias_absent headers :
  ~ In "paid" (map header_key headers) ->
  _find_column_index headers ["paid"] = List.length headers.
Proof.
  intros H. unfold _find_column_index. simpl.
  change (strip (lower "paid")) with "paid".
  destruct (list_in "paid" (map (fun h => strip (lower h)) headers)) eqn:E;
    [|reflexivity].
  exfalso. apply H. apply list_in_In in E. erewrite map_ext; [exact E|].
  intros h. symmetry. apply strip_lower.
Qed.

Lemma scan_rows_short cols rows : forall row_idx,
  Forall (fun row => List.length row <= max_col cols) rows ->
  scan_rows float_of_str cols row_idx rows = [].
Proof.
  induction rows as [|row rest IH]; intros row_idx H; [reflexivity|].
  inversion H as [|? ? Hrow Hrest]; subst. cbn [scan_rows].
  rewrite (IH _ Hrest). unfold scan_row.
  destruct (Nat.leb_spec (List.length row) (max_col cols)); [reflexivity | lia].
Qed.

(** X22. [test-billed-update.py] looks the status column up under the
    alias paid alone: on a sheet without such a header, whose rows are not
    longer than the header row, it finds no target, a column headed Status
    notwithstanding. *)
Theorem billed_scan_needs_paid_header (headers : list string)
        (data : list (list string)) :
  ~ In "paid" (map header_key headers) ->
  Forall (fun row => List.length row <= List.length headers) data ->
  target_entries float_of_str (headers :: data) = Some [].
Proof.
  intros Hpaid Hrows. unfold target_entries. f_equal. apply scan_rows_short.
  pose proof (max_col_bounds (resolve_columns_paid headers)) as B.
  assert (Hp : paid_col (resolve_columns_paid headers) = List.length headers)
    by (apply paid_alias_absent, Hpaid).
  eapply Forall_impl; [|exact Hrows]. simpl. intros row Hrow. lia.
Qed.

End ScanRows.

(** X20, witness: a row of 17 hours and a row of NaN hours. *)
Lemma billed_scan_targets_witness :
  target_entries py_float
    [paid_headers; sample_row "6/4/25" "17" "WIP"; sample_row "6/5/25" "nan" "WIP"]
  = Some [sample_entry_of "6/4/25" seventeen 2].
Proof.
  destruct (billed_scan_targets py_float "Sheet1" paid_headers
              [sample_row "6/4/25" "17" "WIP"; sample_row "6/5/25" "nan" "WIP"])
    as (log & entries & Hrun & Htargets).
  - vm_compute. tauto.
  - rewrite Htargets. vm_compute in Hrun. injection Hrun as _ <-. vm_compute. reflexivity.
Defined.

(** X21, witness: one row of 17 hours. *)
Lemma billed_scan_target_sound_witness :
  exists h, hours (sample_entry_of "6/4/25" seventeen 2) = PyFloat h /\
            f_ltb f_zero h = true.
Proof.
  refine (proj1 (billed_scan_target_sound py_float
            [paid_headers; sample_row "6/4/25" "17" "WIP"]
            [sample_entry_of "6/4/25" seventeen 2] _ _ _)).
  - vm_compute. reflexivity.
  - left. reflexivity.
Defined.

(** X22, witness: the seven-column sheet, whose status column is headed Status. *)
Lemma billed_scan_needs_paid_header_witness :
  target_entries py_float [sample_headers; sample_row "6/4/25" "17" "WIP"] = Some [] /\
  snd (get_wip_entries py_float "Sheet1"
         (Values [sample_headers; sample_row "6/4/25" "17" "WIP"]))
  = inl [sample_entry_of "6/4/25" seventeen 2].
Proof.
  split; [|vm_compute; reflexivity].
  apply billed_scan_needs_paid_header.
  - vm_compute. intuition discriminate.
  - repeat constructor.
Defined.

(** ** Extraction, then the other stages *)

Lemma usable_rows_known es rows :
  map row_number es = map Some rows ->
  Forall (fun n => n <> 0%Z) rows ->
  usable_rows es = rows.
Proof.
  revert rows. induction es as [|e r IH]; intros [|n rows] Hmap Hnz; try discriminate;
    [reflexivity|].
  simpl in Hmap. injection Hmap as He Hr. inversion Hnz; subst.
  unfold usable_rows in *. simpl. rewrite He.
  destruct (Z.eqb_spec n 0); [contradiction|]. simpl. f_equal. now apply IH.
Qed.

Lemma compute_summary_floats cfg es f fs :
  map hours es = map PyFloat (f :: fs) ->
  as_float (cfg_hourly_rate cfg) <> None ->
  as_float (cfg_discount cfg) <> None ->
  exists s g, compute_summary cfg es = Some s /\
              subtotal s = PyFloat g /\ balance_due s = PyFloat g.
Proof.
  intros Hh Hr Hd. unfold compute_summary, py_sum. rewrite Hh.
  destruct (sum_from_floats fs (f_add (S754_zero false) f)) as [t Ht].
  change (sum_from (PyInt 0) (map PyFloat (f :: fs)))
    with (sum_from (PyFloat (f_add (S754_zero false) f)) (map PyFloat fs)).
  rewrite Ht.
  assert (Hadd : exists o, py_add (cfg_hourly_rate cfg) (cfg_discount cfg) = Some o).
  { destruct (cfg_hourly_rate cfg) as [r|r], (cfg_discount cfg) as [d|d];
      unfold py_add, lift2; simpl in *;
      repeat match goal with
             | |- context [float_of_Z ?z] => destruct (float_of_Z z); [|congruence]
             end; eauto. }
  assert (Hmul : exists g, py_mul (PyFloat t) (cfg_hourly_rate cfg) = Some (PyFloat g)).
  { destruct (cfg_hourly_rate cfg) as [r|r]; unfold py_mul, lift2; simpl in *.
    - destruct (float_of_Z r); [eauto | congruence].
    - eauto. }
  destruct Hadd as [o ->], Hmul as [g ->]. eexists. exists g. repeat split.
Qed.

Section Stages.

Variable float_of_str : string -> option float.

Lemma emitted_float_hours cols rows : forall row_idx,
  exists fs, map hours (emitted float_of_str cols row_idx rows) = map PyFloat fs.
Proof.
  induction rows as [|row rest IH]; intros row_idx.
  - exists []. reflexivity.
  - destruct (IH (row_idx + 1)%Z) as [fs Hfs]. rewrite emitted_cons.
    destruct (snd (process_row float_of_str cols row_idx row)) as [[|e]|x] eqn:E;
      try (exists fs; exact Hfs).
    apply process_row_emit in E. destruct E as (_ & _ & h & _ & _ & _ & _ & ->).
    exists (h :: fs). simpl. now rewrite Hfs.
Qed.

(** X23. What the extractor emits can always be invoiced and rendered:
    when rate and discount fit a float and at least one entry was found,
    [generate_invoice] returns an invoice holding these entries and
    [generate_html] returns its document. *)
Theorem extracted_entries_render
        (cfg : Config) (name : string) (headers : list string)
        (data : list (list string)) (number logo_base64 : string) :
  as_float (cfg_hourly_rate cfg) <> None ->
  as_float (cfg_discount cfg) <> None ->
  exists log entries,
    get_wip_entries float_of_str name (Values (headers :: data)) = (log, inl entries) /\
    (entries <> [] ->
     exists inv html,
       generate_invoice cfg entries number = Ok inv /\
       work_entries inv = entries /\
       generate_html logo_base64 inv = Some html).
Proof.
  intros Hr Hd. rewrite get_wip_entries_values. eexists. eexists.
  split; [reflexivity|].
  set (entries := emitted float_of_str (resolve_columns headers) 2 data).
  intros Hne.
  destruct (emitted_float_hours (resolve_columns headers) data 2) as [fs Hfs].
  fold entries in Hfs.
  destruct fs as [|f fs]; [destruct entries; [contradiction | discriminate]|].
  destruct (compute_summary_floats cfg entries f fs Hfs Hr Hd) as (s & g & Hs & Hsub & Hbal).
  unfold generate_invoice. rewrite Hs.
  destruct entries as [|e r]; [contradiction|].
  destruct (py_max_spec (date e) (map date r)) as (m & Hm & _).
  change (map date (e :: r)) with (date e :: map date r). rewrite Hm.
  eexists. eexists. split; [reflexivity|]. split; [reflexivity|].
  unfold generate_html. cbn [summary]. rewrite Hsub, Hbal. reflexivity.
Qed.

(** X24. The updater addresses the rows the extractor read: with the
    header row unchanged, the status column among the first 26 columns and
    the value write and the service construction succeeding, the value
    batch writes Billed, for each entry, to the cell whose A1 address is
    the letter of the column the status was read from followed by the
    entry's row number, a row whose status cell read WIP; the formatting
    batch names the same row numbers, always on the sheet of id 0. *)
Theorem extracted_rows_written_back
        (remote : Remote) (name : string) (headers : list string)
        (data : list (list string)) :
  let cols := resolve_columns headers in
  worksheet_found remote = true ->
  header_row remote = Some headers ->
  paid_col cols < List.length headers ->
  paid_col cols < 26 ->
  batch_update_ok remote = true ->
  build_service_ok remote = true ->
  exists log entries ks,
    get_wip_entries float_of_str name (Values (headers :: data)) = (log, inl entries) /\
    List.length ks = List.length entries /\
    Forall (fun k => exists row, nth_error data k = Some row /\
                                 status_of cols row = "WIP") ks /\
    (entries <> [] ->
     filter is_mutation
       (fst (update_wip_to_billed_with_formatting remote entries name)) =
     [BatchUpdate
        (map (fun k => {| range := a1_address (paid_col cols + 1) (row_of k);
                          values := [["Billed"]] |}) ks);
      SpreadsheetsBatchUpdate (map (fun k => format_request (row_of k)) ks)]) /\
    Forall (fun k => sheetId (format_request (row_of k)) = 0%Z /\
                     startRowIndex (format_request (row_of k)) = (row_of k - 1)%Z /\
                     endRowIndex (format_request (row_of k)) = row_of k) ks.
Proof.
  intros cols Hw Hh Hc Hz Hb Hs. rewrite get_wip_entries_values. fold cols.
  destruct (emitted_positions float_of_str cols data 2) as (ks & _ & Hall).
  set (entries := emitted float_of_str cols 2 data) in *.
  eexists. exists entries, ks. split; [reflexivity|].
  split; [symmetry; eapply Forall2_length; exact Hall|]. split; [|split].
  - clear -Hall. induction Hall as [|e k es ks' (_ & row & Hk & He) _ IH];
      constructor; [|exact IH].
    exists row. split; [exact Hk|]. apply process_row_emit in He. tauto.
  - intros Hne.
    assert (Hrows : usable_rows entries = map row_of ks).
    { apply usable_rows_known.
      - clear -Hall. induction Hall as [|e k es ks' (Hn & _) _ IH]; [reflexivity|].
        simpl. now rewrite Hn, IH.
      - apply Forall_map, Forall_forall. intros k _. unfold row_of. lia. }
    rewrite (map_ext _ (fun k => value_update (paid_col cols + 1) (row_of k)))
      by (intros k; symmetry; apply value_update_a1; lia).
    rewrite (update_run remote entries name headers Hw Hh Hc). cbv zeta.
    rewrite Hrows, !map_map.
    destruct ks as [|k ks']; [destruct entries; [contradiction | inversion Hall]|].
    unfold send_updates. cbn [map]. rewrite Hb, Hs. simpl negb. cbv iota.
    destruct (format_update_ok remote); reflexivity.
  - apply Forall_forall. intros k _. repeat split.
Qed.

End Stages.

(** X23, witness: one row of 17 hours. *)
Lemma extracted_entries_render_witness :
  exists inv html,
    generate_invoice sample_config [sample_entry_of "6/4/25" seventeen 2] "NES01-5541"
      = Ok inv /\
    generate_html "LOGO" inv = Some html.
Proof.
  destruct (extracted_entries_render py_float sample_config "Sheet1" sample_headers
              [sample_row "6/4/25" "17" "WIP"] "NES01-5541" "LOGO")
    as (log & entries & Hrun & Hnext).
  - discriminate.
  - discriminate.
  - vm_compute in Hrun. injection Hrun as _ <-.
    destruct Hnext as (inv & html & Hinv & _ & Hhtml); [discriminate|].
    exists inv, html. split; [exact Hinv | exact Hhtml].
Defined.

(** X24, witness: a Billed row and a WIP row. *)
Lemma extracted_rows_written_back_witness :
  filter is_mutation
    (fst (update_wip_to_billed_with_formatting (remote_ok sample_headers true)
            [sample_entry_of "6/5/25" seventeen 3] "Sheet1"))
  = [BatchUpdate [ {| range := "G3"; values := [["Billed"]] |} ];
     SpreadsheetsBatchUpdate [format_request 3]].
Proof.
  destruct (extracted_rows_written_back py_float (remote_ok sample_headers true)
              "Sheet1" sample_headers
              [sample_row "6/4/25" "17" "Billed"; sample_row "6/5/25" "17" "WIP"])
    as (log & entries & ks & Hrun & Hlen & Hwip & Hmut & _);
    [reflexivity | reflexivity | vm_compute; lia | vm_compute; lia
    | reflexivity | reflexivity |].
  vm_compute in Hrun. injection Hrun as _ <-.
  destruct ks as [|k [|k' ks]]; try discriminate.
  specialize (Hmut ltac:(discriminate)).
  inversion Hwip as [|? ? (row & Hk & Hs) _]; subst.
  destruct k as [|[|k]].
  - injection Hk as <-. discriminate.
  - exact Hmut.
  - destruct k; discriminate.
Defined.

(** ** The scans of the other scripts *)

(** *** [fix-nes01-5541.py] *)

Ltac all_in_bounds :=
  repeat (apply Forall_cons; [simpl; lia|]); apply Forall_nil.

Lemma subscript_inside row col :
  col < List.length row ->
  subscript row col = ([Subscript (List.length row) col], Ok (nth col row EmptyString)).
Proof.
  intros H. unfold subscript.
  destruct (nth_error row col) as [s|] eqn:E.
  - rewrite (nth_error_nth _ _ _ E). reflexivity.
  - apply nth_error_None in E. lia.
Qed.

Section OtherScans.

Variable float_of_str : string -> option float.

Lemma nes_row_process_row cols row_idx row :
  match snd (process_row float_of_str cols row_idx row) with
  | Ok (Emit e) => if nes_selected e then [e] else []
  | _ => []
  end =
  match nes_row float_of_str cols row_idx row with
  | Some e => if dated_and_described e then [e] else []
  | None => []
  end.
Proof.
  destruct (Nat.le_gt_cases (List.length row) (max_col cols)) as [H|H].
  - rewrite process_row_short by exact H. unfold nes_row.
    destruct (Nat.ltb_spec (max_col cols) (List.length row)); [lia | reflexivity].
  - pose proof (max_col_bounds cols) as B.
    rewrite process_row_complete, try_body_complete by exact H.
    unfold nes_row.
    destruct (Nat.ltb_spec (max_col cols) (List.length row)); [|lia].
    rewrite !cell_text_inside by lia.
    replace (match nth_error row (paid_col cols) with
             | Some s => upper (strip s)
             | None => EmptyString
             end) with (status_of cols row).
    2:{ unfold status_of, cell.
        destruct (nth_error row (paid_col cols)) as [s|] eqn:E.
        - now rewrite (nth_error_nth _ _ _ E).
        - apply nth_error_None in E. lia. }
    destruct (String.eqb (status_of cols row) "WIP"); simpl.
    2:{ now rewrite andb_false_r. }
    rewrite andb_true_r.
    destruct (float_of_str (cell row (hours_col cols))) as [h|]; simpl.
    2:{ now destruct (String.eqb (cell row (invoice_col cols)) "NES01-5541"). }
    unfold nes_selected, dated_and_described, hours_positive.
    destruct (String.eqb_spec (cell row (invoice_col cols)) "NES01-5541") as [Ei|Ei].
    + destruct (f_ltb f_zero h) eqn:Epos.
      * rewrite (positive_not_le_zero _ Epos). simpl.
        destruct (is_empty (cell row (date_col cols))); simpl; [reflexivity|].
        destruct (is_empty (cell row (task_col cols))); simpl; [reflexivity|].
        rewrite Ei, Epos. simpl. unfold entry_of. now rewrite Ei.
      * destruct (f_leb h f_zero || is_empty (cell row (date_col cols))
                  || is_empty (cell row (task_col cols))); [reflexivity|].
        simpl. rewrite Epos. now rewrite andb_false_r.
    + destruct (f_leb h f_zero || is_empty (cell row (date_col cols))
                || is_empty (cell row (task_col cols))); [reflexivity|].
      simpl. destruct (String.eqb_spec (cell row (invoice_col cols)) "NES01-5541");
        [contradiction | reflexivity].
Qed.

Lemma filter_singleton {A} (f : A -> bool) (o : option A) :
  filter f (match o with Some e => [e] | None => [] end) =
  match o with Some e => if f e then [e] else [] | None => [] end.
Proof. destruct o as [e|]; [|reflexivity]. simpl. now destruct (f e). Qed.

Lemma nes_rows_emitted cols rows : forall row_idx,
  filter nes_selected (emitted float_of_str cols row_idx rows) =
  filter dated_and_described (nes_rows float_of_str cols row_idx rows).
Proof.
  induction rows as [|row rest IH]; intros row_idx; [reflexivity|].
  rewrite emitted_cons. cbn [nes_rows]. rewrite !filter_app, IH. f_equal.
  rewrite filter_singleton, <- nes_row_process_row.
  destruct (snd (process_row float_of_str cols row_idx row)) as [[|e]|x];
    reflexivity.
Qed.

(** X25. The entries that [fix-nes01-5541.py] selects and those of
    [get_wip_entries] agree where the tests of both apply: the extractor's
    entries with the invoice number NES01-5541 and hours greater than 0 are
    the script's entries with a non-empty date and description. *)
Theorem nes_scan_entries (name : string) (headers : list string)
        (data : list (list string)) :
  exists log entries found,
    get_wip_entries float_of_str name (Values (headers :: data)) = (log, inl entries) /\
    nes_5541_entries float_of_str (headers :: data) = Some found /\
    filter nes_selected entries = filter dated_and_described found.
Proof.
  rewrite get_wip_entries_values. eexists. eexists. eexists.
  split; [reflexivity|]. split; [reflexivity|]. apply nes_rows_emitted.
Qed.

(** *** [fix-colors.py] *)

Lemma billed_row_ok invoice_col status_col row_idx row :
  exists log o,
    billed_row invoice_col status_col row_idx row = (log, Ok o) /\
    Forall in_bounds log /\
    (forall n, o = Some n ->
       n = row_idx /\ cell row invoice_col = "NES01-5541" /\
       upper (cell row status_col) = "BILLED").
Proof.
  unfold billed_row.
  destruct (Nat.ltb_spec (Nat.max invoice_col status_col) (List.length row)) as [Hlt|Hge].
  2:{ eexists. eexists. split; [reflexivity|]. split; [constructor | discriminate]. }
  rewrite cell_or_inside by lia.
  destruct (Nat.ltb_spec status_col (List.length row)) as [_|]; [|lia].
  rewrite (subscript_inside row status_col) by lia.
  unfold bind, ret. cbn [app].
  change (strip (nth status_col row EmptyString)) with (cell row status_col).
  destruct (String.eqb_spec (cell row invoice_col) "NES01-5541") as [Ei|Ei]; simpl.
  2:{ eexists. eexists. split; [reflexivity|].
      split; [all_in_bounds | discriminate]. }
  destruct (String.eqb_spec (upper (cell row status_col)) "BILLED") as [Es|Es]; simpl.
  2:{ eexists. eexists. split; [reflexivity|].
      split; [all_in_bounds | discriminate]. }
  assert (Hlen : 1 < List.length row).
  { destruct (Nat.eq_dec invoice_col status_col) as [Heq|Hne]; [|lia].
    exfalso. rewrite <- Heq, Ei in Es. discriminate. }
  rewrite (subscript_inside row 0), (subscript_inside row 1) by lia.
  eexists. eexists. split; [reflexivity|]. split.
  - all_in_bounds.
  - intros n [= <-]. auto.
Qed.

Lemma billed_rows_loop_ok invoice_col status_col rows : forall row_idx acc,
  exists log found,
    billed_rows_loop invoice_col status_col row_idx rows acc = (log, Ok (acc ++ found)) /\
    Forall in_bounds log /\
    forall n, In n found ->
      exists k row, nth_error rows k = Some row /\ n = (row_idx + Z.of_nat k)%Z /\
        cell row invoice_col = "NES01-5541" /\
        upper (cell row status_col) = "BILLED".
Proof.
  induction rows as [|row rest IH]; intros row_idx acc.
  - exists [], []. rewrite app_nil_r. split; [reflexivity|].
    split; [constructor | intros n []].
  - destruct (billed_row_ok invoice_col status_col row_idx row)
      as (log & o & Hrow & Hlog & Ho).
    cbn [billed_rows_loop]. rewrite Hrow. unfold bind.
    destruct (IH (row_idx + 1)%Z (match o with Some n => acc ++ [n] | None => acc end))
      as (log' & found & Hrest & Hlog' & Hfound).
    rewrite Hrest.
    assert (Hshift : forall n, In n found ->
              exists k r, nth_error (row :: rest) k = Some r /\
                n = (row_idx + Z.of_nat k)%Z /\
                cell r invoice_col = "NES01-5541" /\
                upper (cell r status_col) = "BILLED").
    { intros n Hn. destruct (Hfound n Hn) as (k & r & Hk & -> & Hi & Hs).
      exists (S k), r. repeat split; auto. lia. }
    destruct o as [m|].
    + exists (log ++ log'), (m :: found). split; [now rewrite <- app_assoc|].
      split; [apply Forall_app; auto|].
      intros n [<-|Hn]; [|auto].
      destruct (Ho m eq_refl) as (-> & Hi & Hs).
      exists 0, row. repeat split; auto. simpl. lia.
    + exists (log ++ log'), found. split; [reflexivity|].
      split; [apply Forall_app; auto | exact Hshift].
Qed.

(** X26. The scan of [fix-colors.py] does not raise: every subscript it
    evaluates is in bounds, the two unguarded ones of the printed line
    included, since a row that passes both tests has two cells at least;
    and every row it finds carries the invoice number NES01-5541 and the
    status BILLED. *)
Theorem fix_colors_scan_in_bounds (headers : list string) (data : list (list string)) :
  let invoice_col := _find_column_index headers ["invoice"] in
  let status_col := _find_column_index headers ["paid"; "status"] in
  exists log found,
    billed_rows (headers :: data) = (log, Ok found) /\
    Forall in_bounds log /\
    forall n, In n found ->
      exists k row, nth_error data k = Some row /\ n = row_of k /\
        cell row invoice_col = "NES01-5541" /\
        upper (cell row status_col) = "BILLED".
Proof.
  intros invoice_col status_col. unfold billed_rows. fold invoice_col status_col.
  destruct (billed_rows_loop_ok invoice_col status_col data 2 [])
    as (log & found & Hrun & Hlog & Hfound).
  exists log, found. split; [exact Hrun|]. split; [exact Hlog | exact Hfound].
Qed.

(** *** [check-recent-entries.py] *)

Lemma test_row_ok row_idx row acc :
  exists log,
    test_row float_of_str row_idx row acc =
    (log, Ok (acc ++ if Nat.ltb (List.length acc) 3
                     then match wip_candidate float_of_str row_idx row with
                          | Some e => [e]
                          | None => []
                          end
                     else [])) /\
    Forall in_bounds log.
Proof.
  unfold test_row, wip_candidate.
  destruct (Nat.ltb_spec 6 (List.length row)) as [Hlen|Hlen]; simpl.
  2:{ exists []. split; [|constructor].
      destruct (Nat.ltb (List.length acc) 3); now rewrite app_nil_r. }
  rewrite (subscript_inside row 6) by exact Hlen. unfold bind, ret. cbn [app].
  destruct (String.eqb (upper (strip (nth 6 row EmptyString))) "WIP").
  2:{ eexists. split;
        [destruct (Nat.ltb (List.length acc) 3); now rewrite app_nil_r
        | all_in_bounds]. }
  destruct (Nat.ltb (List.length acc) 3).
  2:{ eexists. split; [now rewrite app_nil_r | all_in_bounds]. }
  unfold hours_of, item_or.
  rewrite (subscript_inside row 1) by lia. unfold bind, ret. cbn [app].
  assert (H2 : Nat.ltb 2 (List.length row) = true) by (apply Nat.ltb_lt; lia).
  assert (H3 : Nat.ltb 3 (List.length row) = true) by (apply Nat.ltb_lt; lia).
  assert (H4 : Nat.ltb 4 (List.length row) = true) by (apply Nat.ltb_lt; lia).
  rewrite H2, H3, H4.
  rewrite (subscript_inside row 0), (subscript_inside row 2),
          (subscript_inside row 3), (subscript_inside row 4) by lia.
  destruct (is_empty (nth 1 row EmptyString)).
  { simpl. eexists. split; [now rewrite app_nil_r | all_in_bounds]. }
  destruct (float_of_str (nth 1 row EmptyString)) as [h|]; simpl.
  2:{ eexists. split; [now rewrite app_nil_r | all_in_bounds]. }
  destruct (f_ltb f_zero h); simpl.
  - eexists. split; [reflexivity | all_in_bounds].
  - eexists. split; [now rewrite app_nil_r | all_in_bounds].
Qed.

Lemma test_rows_ok rows : forall row_idx acc,
  List.length acc <= 3 ->
  exists log,
    test_rows float_of_str row_idx rows acc =
    (log, Ok (acc ++ firstn (3 - List.length acc)
                           (wip_candidates float_of_str row_idx rows))) /\
    Forall in_bounds log.
Proof.
  induction rows as [|row rest IH]; intros row_idx acc Hacc.
  - exists []. split; [|constructor]. simpl. now rewrite firstn_nil, app_nil_r.
  - destruct (test_row_ok row_idx row acc) as (log & Hrow & Hlog).
    cbn [test_rows wip_candidates]. rewrite Hrow. unfold bind.
    destruct (Nat.ltb_spec (List.length acc) 3) as [Hlt|Hge].
    + destruct (wip_candidate float_of_str row_idx row) as [e|].
      * destruct (IH (row_idx + 1)%Z (acc ++ [e])) as (log' & Hrest & Hlog').
        { rewrite length_app. simpl. lia. }
        rewrite Hrest. exists (log ++ log'). split; [|apply Forall_app; auto].
        rewrite <- app_assoc, length_app. cbn [List.length app].
        replace (3 - List.length acc) with (S (3 - (List.length acc + 1))) by lia.
        reflexivity.
      * rewrite app_nil_r. destruct (IH (row_idx + 1)%Z acc Hacc) as (log' & Hrest & Hlog').
        rewrite Hrest. exists (log ++ log'). split; [reflexivity | apply Forall_app; auto].
    + rewrite app_nil_r. destruct (IH (row_idx + 1)%Z acc Hacc) as (log' & Hrest & Hlog').
      rewrite Hrest. exists (log ++ log'). split; [|apply Forall_app; auto].
      replace (3 - List.length acc) with 0 by lia. reflexivity.
Qed.

(** X27. [check-recent-entries.py] takes as test entries the first
    three rows, in sheet order, whose seventh cell reads WIP and whose hours
    are greater than 0: never more than three, and without reading a cell
    out of bounds. *)
Theorem test_entries_first_three (headers : list string) (data : list (list string)) :
  exists log entries,
    test_entries float_of_str (headers :: data) = (log, Ok entries) /\
    Forall in_bounds log /\
    entries = firstn 3 (wip_candidates float_of_str 2 data) /\
    List.length entries <= 3.
Proof.
  destruct (test_rows_ok data 2 []) as (log & Hrun & Hlog); [simpl; lia|].
  exists log, (firstn 3 (wip_candidates float_of_str 2 data)).
  split; [exact Hrun|]. split; [exact Hlog|].
  split; [reflexivity | apply firstn_le_length].
Qed.

End OtherScans.
